(** * YouTube comment scraper and sentiment analysis: a shallow embedding

    This development embeds the pure core of [python-backend/main.py]:
    the sentiment analyzer, the video-id extraction, the mock comment
    generator with the tiered comment acquisition, the sentiment
    analytics and the WebSocket broadcast.

    Conventions of the embedding.
    - Python [str] is [string]; the model is exact on ASCII text
      (a character is the code point of the same number).  Python's
      Unicode-aware classes [\w], [\s], [str.lower], [str.split] agree
      with the definitions below on code points below 128.
    - Python [int] is [Z]; Python [float] is idealised as an exact
      rational [Q], so equalities between scores are [Qeq].
    - A call that may raise returns [result]; the exception classes
      the code can raise are the constructors of [exn].
    - Sources of non-determinism ([random], [datetime.now], the
      TextBlob library, the YouTube API, SQLite, the sockets) are
      explicit: a draw source threaded as state, or a section variable. *)

From Stdlib Require Import String Ascii List ZArith QArith Qabs Qminmax Qround.
From Stdlib Require Import Lia Lqa Bool Arith NArith Decimal DecimalString.
From Stdlib Require Import DecimalPos DecimalZ Permutation Sorted.
Import ListNotations.

Open Scope string_scope.
Open Scope Z_scope.

(** ** Exceptions *)

Inductive exn : Type :=
  | ZeroDivisionError
  | KeyError (key : string)
  | IndexError
  | ValueError (msg : string)
  | ConnectionClosed
  | ApiError.

Inductive result (A : Type) : Type :=
  | Ok (a : A)
  | Raise (e : exn).

Arguments Ok {A} a.
Arguments Raise {A} e.

Definition rbind {A B : Type} (m : result A) (k : A -> result B) : result B :=
  match m with
  | Ok a => k a
  | Raise e => Raise e
  end.

Notation "'do' x <- m ; k" := (rbind m (fun x => k))
  (at level 10, x name, m at level 100, k at level 200).

(** Python's true division [a / b]. *)
Definition py_div (a b : Q) : result Q :=
  if Qeq_bool b 0 then Raise ZeroDivisionError else Ok (a / b)%Q.

(** [sum(...)] over numbers. *)
Definition sumZ (l : list Z) : Z := fold_left Z.add l 0.
Definition sumQ (l : list Q) : Q := fold_left Qplus l (0%Q).

(** ** Characters and strings *)

Module Text.

Definition code (c : ascii) : N := N_of_ascii c.

Definition between (lo hi : N) (c : ascii) : bool :=
  (lo <=? code c)%N && (code c <=? hi)%N.

Definition is_digit : ascii -> bool := between 48 57.
Definition is_upper : ascii -> bool := between 65 90.
Definition is_lower : ascii -> bool := between 97 122.

(** [\w] *)
Definition is_word (c : ascii) : bool :=
  is_digit c || is_upper c || is_lower c || (code c =? 95)%N.

(** [\s], which is also what [str.split()] and [str.strip()] cut on. *)
Definition is_space (c : ascii) : bool :=
  between 9 13 c || between 28 32 c.

Definition lower_char (c : ascii) : ascii :=
  if is_upper c then ascii_of_N (code c + 32) else c.

Fixpoint map_string (f : ascii -> ascii) (s : string) : string :=
  match s with
  | EmptyString => EmptyString
  | String c r => String (f c) (map_string f r)
  end.

(** [s.lower()] *)
Definition lower : string -> string := map_string lower_char.

Fixpoint lstrip (s : string) : string :=
  match s with
  | EmptyString => EmptyString
  | String c r => if is_space c then lstrip r else s
  end.

Fixpoint rev_string (acc s : string) : string :=
  match s with
  | EmptyString => acc
  | String c r => rev_string (String c acc) r
  end.

Definition rstrip (s : string) : string :=
  rev_string "" (lstrip (rev_string "" s)).

(** [s.strip()] *)
Definition strip (s : string) : string := rstrip (lstrip s).

(** [s.split()]: the maximal runs of non-space characters. *)
Fixpoint split_from (cur : string) (s : string) : list string :=
  match s with
  | EmptyString => match cur with EmptyString => [] | _ => [cur] end
  | String c r =>
      if is_space c
      then match cur with
           | EmptyString => split_from "" r
           | _ => cur :: split_from "" r
           end
      else split_from (cur ++ String c "") r
  end.

Definition split (s : string) : list string := split_from "" s.

(** [k in s] for strings: [k] occurs in [s] as a contiguous substring. *)
Fixpoint contains (k s : string) : bool :=
  prefix k s ||
  match s with
  | EmptyString => false
  | String _ r => contains k r
  end.

(** [w in l] for a list of strings. *)
Definition mem (w : string) (l : list string) : bool :=
  existsb (String.eqb w) l.

Definition next_is (p : ascii -> bool) (s : string) : bool :=
  match s with
  | EmptyString => false
  | String c _ => p c
  end.

Fixpoint drop (n : nat) (s : string) : string :=
  match n, s with
  | O, _ => s
  | S n', String _ r => drop n' r
  | S _, EmptyString => EmptyString
  end.

(** [str(n)] for an integer. *)
Definition of_Z (n : Z) : string := NilZero.string_of_int (Z.to_int n).
Definition of_nat (n : nat) : string := of_Z (Z.of_nat n).

End Text.

(** ** Regular-expression substitutions of [_clean_text]

    Each of the three patterns is matched by [re.sub] from left to
    right.  Every alternative of the first two patterns ends in a greedy
    run ([\S+] or [\w+]) that nothing follows, so a match that starts at
    a position always extends to the end of that run; the scanners below
    remember in [skipping] that they are inside such a run. *)

Module Re.
Import Text.

Definition non_space (c : ascii) : bool := negb (is_space c).

(** A match of [http\S+|www\S+|https\S+] starts here. *)
Definition url_start (s : string) : bool :=
  (prefix "http" s && next_is non_space (drop 4 s)) ||
  (prefix "www" s && next_is non_space (drop 3 s)) ||
  (prefix "https" s && next_is non_space (drop 5 s)).

Fixpoint sub_urls (skipping : bool) (s : string) : string :=
  match s with
  | EmptyString => EmptyString
  | String c r =>
      if skipping && non_space c then sub_urls true r
      else if url_start s then sub_urls true r
      else String c (sub_urls false r)
  end.

(** A match of [@\w+|#\w+] starts here. *)
Definition mention_start (s : string) : bool :=
  match s with
  | String c r => ((c =? "@")%char || (c =? "#")%char) && next_is is_word r
  | EmptyString => false
  end.

Fixpoint sub_mentions (skipping : bool) (s : string) : string :=
  match s with
  | EmptyString => EmptyString
  | String c r =>
      if skipping && is_word c then sub_mentions true r
      else if mention_start s then sub_mentions true r
      else String c (sub_mentions false r)
  end.

(** [re.sub(r'[^\w\s]', ' ', text)] *)
Definition sub_punct : string -> string :=
  map_string (fun c => if is_word c || is_space c then c else " "%char).

End Re.

(** ** SentimentAnalyzer *)

(** The dictionary returned by [analyze_sentiment]. *)
Record SentimentResult : Type := mkSentiment {
  score : Q;
  label : string;
  polarity : Q;
  subjectivity : Q;
  political_score : Q;
  confidence : Q;
  emotion : string
}.

Module SentimentAnalyzer.
Import Text.

(** [self.political_keywords] *)
Definition positive_keywords : list string :=
  ["great"; "excellent"; "amazing"; "fantastic"; "wonderful"; "brilliant";
   "outstanding"; "perfect"; "love"; "awesome"; "incredible"; "superb"].

Definition negative_keywords : list string :=
  ["terrible"; "awful"; "horrible"; "disgusting"; "pathetic"; "waste";
   "stupid"; "ridiculous"; "hate"; "worst"; "trash"; "garbage"].

Definition neutral_keywords : list string :=
  ["okay"; "fine"; "average"; "normal"; "standard"; "decent"; "alright"].

(** [sum(1 for word in words if word in keywords)] *)
Definition count_in (keywords words : list string) : Z :=
  sumZ (map (fun _ => 1) (filter (fun word => mem word keywords) words)).

Definition _clean_text (text : string) : string :=
  let text := Re.sub_urls false text in
  let text := Re.sub_mentions false text in
  let text := Re.sub_punct text in
  strip (lower text).

Definition _calculate_political_sentiment (text : string) : result Q :=
  let words := split text in
  let positive_count := count_in positive_keywords words in
  let negative_count := count_in negative_keywords words in
  let total_words := Z.of_nat (length words) in
  if total_words =? 0 then Ok 0%Q
  else py_div (inject_Z (positive_count - negative_count)) (inject_Z total_words).

(** The [emotions] dictionary, in insertion order. *)
Definition emotions : list (string * list string) :=
  [("anger", ["angry"; "mad"; "furious"; "outraged"; "livid"; "pissed"; "rage"]);
   ("joy", ["happy"; "excited"; "thrilled"; "delighted"; "ecstatic"; "cheerful"; "joyful"]);
   ("fear", ["scared"; "afraid"; "worried"; "anxious"; "concerned"; "nervous"]);
   ("sadness", ["sad"; "disappointed"; "depressed"; "upset"; "heartbroken"; "miserable"]);
   ("surprise", ["surprised"; "shocked"; "amazed"; "astonished"; "stunned"; "wow"])].

(** [any(keyword in text for keyword in keywords)] *)
Definition any_keyword_in (keywords : list string) (text : string) : bool :=
  existsb (fun keyword => contains keyword text) keywords.

(** The loop over [emotions.items()]. *)
Fixpoint first_emotion (items : list (string * list string)) (text : string) : string :=
  match items with
  | [] => "neutral"
  | (emotion, keywords) :: rest =>
      if any_keyword_in keywords text then emotion else first_emotion rest text
  end.

Definition _detect_emotion (text : string) : string := first_emotion emotions text.

Definition _analyze_with_keywords (text : string) : result SentimentResult :=
  do political_score <- _calculate_political_sentiment text;
  let emotion := _detect_emotion text in
  let words := split text in
  let positive_count := count_in positive_keywords words in
  let negative_count := count_in negative_keywords words in
  let '(label, score) :=
    if positive_count >? negative_count
    then ("positive",
          Qmin (8 # 10) ((3 # 10) + inject_Z (positive_count - negative_count) * (1 # 10)))
    else if negative_count >? positive_count
    then ("negative",
          Qmax (- (8 # 10)) (- (3 # 10) - inject_Z (negative_count - positive_count) * (1 # 10)))
    else ("neutral", 0%Q) in
  Ok {| score := score;
        label := label;
        polarity := score;
        subjectivity := 1 # 2;
        political_score := political_score;
        confidence := Qabs score;
        emotion := emotion |}.

Section Strategy.

(** Whether the TextBlob import succeeded. *)
Variable HAS_TEXTBLOB : bool.

(** [TextBlob(text).sentiment]: polarity and subjectivity. *)
Variable textblob_sentiment : string -> Q * Q.

Definition _analyze_with_textblob (text : string) : result SentimentResult :=
  let '(polarity, subjectivity) := textblob_sentiment text in
  do political_score <- _calculate_political_sentiment text;
  do final_score <- py_div (polarity + political_score) 2;
  let label :=
    if Qlt_le_dec (1 # 10) final_score then "positive"
    else if Qlt_le_dec final_score (- (1 # 10)) then "negative"
    else "neutral" in
  Ok {| score := final_score;
        label := label;
        polarity := polarity;
        subjectivity := subjectivity;
        political_score := political_score;
        confidence := Qabs final_score;
        emotion := _detect_emotion text |}.

Definition analyze_sentiment (text : string) : result SentimentResult :=
  let cleaned_text := _clean_text text in
  if HAS_TEXTBLOB
  then _analyze_with_textblob cleaned_text
  else _analyze_with_keywords cleaned_text.

End Strategy.

End SentimentAnalyzer.

(** ** [urllib.parse]

    [urlparse] and [parse_qs] are library functions; the definitions
    below follow the CPython implementation for [str] arguments:
    leading C0 controls and spaces are stripped, tabs and newlines
    removed, the scheme is split off when the text before the first
    colon is a valid scheme, the network location runs from [//] to the
    next [/], [?] or [#], then the fragment, the query and the
    parameters of the last path segment are split off.  A network
    location with an unmatched square bracket raises [ValueError]; the
    further validation of a bracketed IPv6 literal is not modelled.
    Percent-escapes decode to the character of that code. *)

Module Urllib.
Import Text.

Record ParseResult : Type := mkParseResult {
  scheme : string;
  netloc : string;
  path : string;
  params : string;
  query : string;
  fragment : string
}.

Definition has_char (c : ascii) (s : string) : bool :=
  contains (String c "") s.

(** [s.partition(sep)] for a one-character separator:
    the part before, whether the separator was found, the part after. *)
Fixpoint partition (sep : ascii) (s : string) : string * bool * string :=
  match s with
  | EmptyString => ("", false, "")
  | String c r =>
      if (c =? sep)%char then ("", true, r)
      else let '(before, found, after) := partition sep r in
           (String c before, found, after)
  end.

(** [s.rpartition(sep)] *)
Definition rpartition (sep : ascii) (s : string) : string * bool * string :=
  let '(after, found, before) := partition sep (rev_string "" s) in
  if found then (rev_string "" before, true, rev_string "" after)
  else ("", false, s).

(** [s.split(sep)] for a one-character separator. *)
Fixpoint split_on_from (sep : ascii) (cur : string) (s : string) : list string :=
  match s with
  | EmptyString => [cur]
  | String c r =>
      if (c =? sep)%char then cur :: split_on_from sep "" r
      else split_on_from sep (cur ++ String c "") r
  end.

Definition split_on (sep : ascii) (s : string) : list string :=
  split_on_from sep "" s.

Fixpoint filter_string (keep : ascii -> bool) (s : string) : string :=
  match s with
  | EmptyString => EmptyString
  | String c r =>
      if keep c then String c (filter_string keep r) else filter_string keep r
  end.

Fixpoint forall_string (p : ascii -> bool) (s : string) : bool :=
  match s with
  | EmptyString => true
  | String c r => p c && forall_string p r
  end.

Definition is_c0_or_space (c : ascii) : bool := (code c <=? 32)%N.

Fixpoint lstrip_c0 (s : string) : string :=
  match s with
  | EmptyString => EmptyString
  | String c r => if is_c0_or_space c then lstrip_c0 r else s
  end.

Definition is_unsafe (c : ascii) : bool :=
  (code c =? 9)%N || (code c =? 10)%N || (code c =? 13)%N.

Definition is_alpha (c : ascii) : bool := is_upper c || is_lower c.

Definition is_scheme_char (c : ascii) : bool :=
  is_alpha c || is_digit c ||
  (c =? "+")%char || (c =? "-")%char || (c =? ".")%char.

Definition uses_params : list string :=
  [""; "ftp"; "hdl"; "prospero"; "http"; "imap"; "https"; "shttp"; "rtsp";
   "rtspu"; "sip"; "sips"; "mms"; "sftp"; "tel"].

(** The scheme and the rest, when the URL starts with a scheme. *)
Definition split_scheme (url : string) : string * string :=
  let '(before, found, after) := partition ":" url in
  if found && next_is is_alpha before && forall_string is_scheme_char before
  then (lower before, after)
  else ("", url).

Definition is_netloc_delim (c : ascii) : bool :=
  (c =? "/")%char || (c =? "?")%char || (c =? "#")%char.

(** [url] up to, and from, the first character satisfying [stop]. *)
Fixpoint span_until (stop : ascii -> bool) (s : string) : string * string :=
  match s with
  | EmptyString => ("", "")
  | String c r =>
      if stop c then ("", s)
      else let '(a, b) := span_until stop r in (String c a, b)
  end.

Definition urlsplit (url : string) : result ParseResult :=
  let url := lstrip_c0 url in
  let url := filter_string (fun c => negb (is_unsafe c)) url in
  let '(scheme, url) := split_scheme url in
  do nl_url <-
    (if prefix "//" url
     then let '(netloc, rest) := span_until is_netloc_delim (drop 2 url) in
          if xorb (has_char "[" netloc) (has_char "]" netloc)
          then Raise (ValueError "Invalid IPv6 URL")
          else Ok (netloc, rest)
     else Ok ("", url));
  let '(netloc, url) := nl_url in
  let '(url, _, fragment) := partition "#" url in
  let '(url, _, query) := partition "?" url in
  Ok {| scheme := scheme; netloc := netloc; path := url; params := "";
        query := query; fragment := fragment |}.

(** [_splitparams]: the parameters follow the first [;] of the last
    path segment. *)
Definition _splitparams (url : string) : string * string :=
  let '(dirs, slash, last) := rpartition "/" url in
  let '(name, semi, params) := partition ";" last in
  if slash then (dirs ++ "/" ++ name, params) else (name, params).

Definition urlparse (url : string) : result ParseResult :=
  do r <- urlsplit url;
  if mem (scheme r) uses_params && has_char ";" (path r)
  then let '(url, params) := _splitparams (path r) in
       Ok {| scheme := scheme r; netloc := netloc r; path := url;
             params := params; query := query r; fragment := fragment r |}
  else Ok r.

(** The [hostname] property; [None] is Python's [None]. *)
Definition hostname (r : ParseResult) : option string :=
  let '(_, _, hostinfo) := rpartition "@" (netloc r) in
  let '(_, have_open_br, bracketed) := partition "[" hostinfo in
  let host :=
    if have_open_br
    then let '(h, _, _) := partition "]" bracketed in h
    else let '(h, _, _) := partition ":" hostinfo in h in
  match host with
  | EmptyString => None
  | _ => let '(h, percent, zone) := partition "%" host in
         Some (lower h ++ (if percent then "%" ++ zone else ""))
  end.

Definition hex_value (c : ascii) : option N :=
  if is_digit c then Some (code c - 48)%N
  else if between 97 102 c then Some (code c - 87)%N
  else if between 65 70 c then Some (code c - 55)%N
  else None.

(** [unquote]: every [%XX] with two hexadecimal digits is decoded;
    [skip] counts the digits of an escape still to be passed over. *)
Fixpoint unquote_from (skip : nat) (s : string) : string :=
  match s with
  | EmptyString => EmptyString
  | String c r =>
      match skip with
      | S k => unquote_from k r
      | O =>
          if (c =? "%")%char
          then match r with
               | String h (String l _) =>
                   match hex_value h, hex_value l with
                   | Some a, Some b =>
                       String (ascii_of_N (16 * a + b)) (unquote_from 2 r)
                   | _, _ => String c (unquote_from 0 r)
                   end
               | _ => String c (unquote_from 0 r)
               end
          else String c (unquote_from 0 r)
      end
  end.

Definition unquote : string -> string := unquote_from 0.

Definition plus_to_space : string -> string :=
  map_string (fun c => if (c =? "+")%char then " "%char else c).

(** [parse_qsl] with its default arguments. *)
Definition parse_qsl (qs : string) : list (string * string) :=
  flat_map
    (fun name_value =>
       let '(name, eq, value) := partition "=" name_value in
       if eq && negb (value =? "")%string
       then [(unquote (plus_to_space name), unquote (plus_to_space value))]
       else [])
    (split_on "&" qs).

(** A [dict] from names to lists of values, in insertion order. *)
Definition qs_dict : Type := list (string * list string).

Fixpoint dict_append (name value : string) (d : qs_dict) : qs_dict :=
  match d with
  | [] => [(name, [value])]
  | (k, vs) :: rest =>
      if (k =? name)%string then (k, (vs ++ [value])%list) :: rest
      else (k, vs) :: dict_append name value rest
  end.

Definition parse_qs (qs : string) : qs_dict :=
  fold_left (fun d nv => dict_append (fst nv) (snd nv) d) (parse_qsl qs) [].

(** [d[key]] *)
Fixpoint getitem (d : qs_dict) (key : string) : result (list string) :=
  match d with
  | [] => Raise (KeyError key)
  | (k, vs) :: rest => if (k =? key)%string then Ok vs else getitem rest key
  end.

(** [l[0]] *)
Definition first {A : Type} (l : list A) : result A :=
  match l with
  | [] => Raise IndexError
  | x :: _ => Ok x
  end.

End Urllib.

(** ** The world of a call: random draws and the clock

    [random] is a source of raw draws consumed in call order, and
    [datetime.now()] a clock read in call order. *)

Record world : Type := mkWorld {
  source : nat -> N;
  cursor : nat;
  clock : nat -> Z;
  ticks : nat
}.

(** Computations that read the world and may raise; the world as it
    is when an exception is raised is kept. *)
Definition Eff (A : Type) : Type := world -> result A * world.

Definition eret {A : Type} (a : A) : Eff A := fun w => (Ok a, w).

Definition ebind {A B : Type} (m : Eff A) (k : A -> Eff B) : Eff B :=
  fun w => match m w with
           | (Ok a, w') => k a w'
           | (Raise e, w') => (Raise e, w')
           end.

Definition lift {A : Type} (r : result A) : Eff A := fun w => (r, w).

Notation "'eff' x <- m ; k" := (ebind m (fun x => k))
  (at level 10, x name, m at level 100, k at level 200).

Module Random.

Definition draw : Eff N :=
  fun w => (Ok (source w (cursor w)),
            {| source := source w; cursor := S (cursor w);
               clock := clock w; ticks := ticks w |}).

(** [random.randint(a, b)], for [a <= b]. *)
Definition randint (a b : Z) : Eff Z :=
  eff d <- draw; eret (a + Z.of_N d mod (b - a + 1)).

(** [random.choice(seq)] on a non-empty sequence. *)
Definition choice {A : Type} (seq : list A) : Eff A :=
  eff d <- draw;
  lift (match nth_error seq (N.to_nat (d mod N.of_nat (length seq))) with
        | Some x => Ok x
        | None => Raise IndexError
        end).

(** [random.random()]: a multiple of [2^-53] in [[0, 1)]. *)
Definition random : Eff Q :=
  eff d <- draw; eret (Z.of_N d mod 2 ^ 53 # 2 ^ 53).

(** [random.uniform(a, b)] *)
Definition uniform (a b : Q) : Eff Q :=
  eff u <- random; eret (a + (b - a) * u)%Q.

End Random.

(** [datetime.now()], in seconds. *)
Definition now : Eff Z :=
  fun w => (Ok (clock w (ticks w)),
            {| source := source w; cursor := cursor w;
               clock := clock w; ticks := S (ticks w) |}).

Definition minutes (m : Z) : Z := 60 * m.
Definition hours (h : Z) : Z := 3600 * h.

(** [for x in xs: acc.append(body(x))] *)
Fixpoint for_each {A B : Type} (body : A -> Eff B) (xs : list A) : Eff (list B) :=
  match xs with
  | [] => eret []
  | x :: rest =>
      eff y <- body x;
      eff ys <- for_each body rest;
      eret (y :: ys)
  end.

(** [for x in xs: acc.append(body(x))] for a body without effects. *)
Fixpoint for_each_result {A B : Type} (body : A -> result B) (xs : list A)
  : result (list B) :=
  match xs with
  | [] => Ok []
  | x :: rest =>
      do y <- body x;
      do ys <- for_each_result body rest;
      Ok (y :: ys)
  end.

(** [range(n)]; empty when [n] is not positive. *)
Definition range (n : Z) : list nat := seq 0 (Z.to_nat n).

(** [len(l)] *)
Definition len {A : Type} (l : list A) : Z := Z.of_nat (length l).

(** [l[:k]] *)
Definition slice_to {A : Type} (k : Z) (l : list A) : list A :=
  if k <? 0 then firstn (Z.to_nat (len l + k)) l else firstn (Z.to_nat k) l.

(** ** Comments *)

Record YouTubeComment : Type := mkComment {
  comment_id : string;
  author : string;
  text : string;
  likes : Z;
  timestamp : Z;
  sentiment_score : Q;
  sentiment_label : string;
  reply_count : Z;
  is_reply : bool;
  parent_id : option string
}.

(** ** The YouTube Data API, as far as [_scrape_comments_api] uses it *)

Module Api.

(** A comment snippet with its id; [publishedAt] already parsed. *)
Record snippet : Type := mkSnippet {
  id : string;
  authorDisplayName : string;
  textDisplay : string;
  likeCount : Z;
  publishedAt : Z
}.

Record thread : Type := mkThread {
  topLevelComment : snippet;
  totalReplyCount : Z;
  replies : option (list snippet)
}.

(** A request: [NoRequest] is the [None] that ends the pagination;
    executing any other request raises, or answers with a page of
    items and the request for the next page ([NoRequest] when the
    answer carries no [nextPageToken]). *)
Inductive request : Type :=
  | NoRequest
  | Fails (e : exn)
  | Responds (items : list thread) (next : request).

End Api.

(** ** The video-id pattern [(?:v=|\/)([0-9A-Za-z_-]{11}).*] *)

Module VideoIdPattern.
Import Text.

Definition is_id_char (c : ascii) : bool :=
  is_digit c || is_upper c || is_lower c || (c =? "_")%char || (c =? "-")%char.

(** Exactly [n] id characters at the start of [s]. *)
Fixpoint take_id (n : nat) (s : string) : option string :=
  match n with
  | O => Some ""
  | S n' =>
      match s with
      | String c r =>
          if is_id_char c then option_map (String c) (take_id n' r) else None
      | EmptyString => None
      end
  end.

(** A match anchored at the start of [s]; the value is group 1. *)
Definition match_here (s : string) : option string :=
  if prefix "v=" s then take_id 11 (drop 2 s)
  else if prefix "/" s then take_id 11 (drop 1 s)
  else None.

(** [re.search]: the leftmost match. *)
Fixpoint search (s : string) : option string :=
  match match_here s with
  | Some g => Some g
  | None =>
      match s with
      | EmptyString => None
      | String _ r => search r
      end
  end.

End VideoIdPattern.

(** ** [extract_video_id] *)

Definition hostname_in (h : option string) (hosts : list string) : bool :=
  match h with
  | Some h => Text.mem h hosts
  | None => false
  end.

Definition extract_video_id (url : string) : result string :=
  do parsed_url <- Urllib.urlparse url;
  let fallback :=
    match VideoIdPattern.search url with
    | Some video_id => Ok video_id
    | None => Raise (ValueError ("Could not extract video ID from URL: " ++ url))
    end in
  if hostname_in (Urllib.hostname parsed_url) ["youtube.com"; "www.youtube.com"]
  then if (Urllib.path parsed_url =? "/watch")%string
       then do values <- Urllib.getitem (Urllib.parse_qs (Urllib.query parsed_url)) "v";
            Urllib.first values
       else fallback
  else if hostname_in (Urllib.hostname parsed_url) ["youtu.be"]
  then Ok (Text.drop 1 (Urllib.path parsed_url))
  else fallback.

(** ** The mock comment tables *)

Module MockData.

Definition political_comments : list string :=
  ["Excellent analysis! This really breaks down the complex issues clearly.";
   "I disagree with some of the conclusions drawn here. More research needed.";
   "Thank you for explaining this so well. Very informative content.";
   "This perspective is interesting but I think there are other factors to consider.";
   "Great work! Your political insights are always spot on.";
   "I'm not convinced by this argument. What about the opposing viewpoint?";
   "This video opened my eyes to issues I hadn't considered before.";
   "The data presented here seems incomplete. Can you provide sources?";
   "Finally, someone who explains politics without bias. Refreshing!";
   "This is exactly the kind of analysis we need more of in media.";
   "I appreciate the balanced approach to such a divisive topic.";
   "Some good points, but I think you're missing the bigger picture.";
   "Your research is thorough and your presentation is clear. Well done!";
   "I wish more political commentators were as thoughtful as this.";
   "This analysis helps me understand the complexity of the situation.";
   "Great job breaking down the policy implications step by step.";
   "I don't usually comment but this deserved recognition. Excellent work!";
   "This is why I subscribe to this channel. Quality content always.";
   "The graphics and explanations make complex topics accessible. Thank you!";
   "I shared this with my family. Everyone should watch this analysis.";
   "Looking forward to your take on the upcoming policy changes.";
   "This kind of informed discussion is what democracy needs.";
   "Your ability to remain objective while explaining is commendable.";
   "This video should be shown in political science classes.";
   "I learned more in these 10 minutes than from hours of news coverage.";
   "The research behind this content is evident. Keep up the great work!";
   "Finally someone who doesn't just echo talking points. Original thinking!";
   "This analysis will help me make more informed decisions. Thank you.";
   "Your channel has become my go-to source for political analysis.";
   "The way you connect different policy areas is brilliant."].

(** The keyword arguments of [template.format(...)], in call order. *)
Record fillers : Type := mkFillers {
  profession : string;
  sentiment : string;
  field : string;
  agreement : string;
  aspect : string;
  topic : string;
  evaluation : string;
  quality : string;
  subject : string;
  group : string;
  importance : string
}.

(** A template is the function [template.format] computes from it. *)
Definition comment_templates : list (fillers -> string) :=
  [fun f => "As a " ++ profession f ++ ", I find this analysis " ++ sentiment f ++ ".";
   fun f => "From my experience in " ++ field f ++ ", this " ++ agreement f
            ++ " with what I've observed.";
   fun f => "The " ++ aspect f ++ " you mentioned about " ++ topic f ++ " is "
            ++ evaluation f ++ ".";
   fun f => "I've been following " ++ subject f ++ " for years and this "
            ++ quality f ++ " explanation.";
   fun f => "What about the impact on " ++ group f ++ "? That seems "
            ++ importance f ++ "."].

Definition professions : list string :=
  ["teacher"; "student"; "researcher"; "journalist"; "analyst"; "citizen";
   "voter"; "activist"].
Definition fields : list string :=
  ["policy"; "government"; "academia"; "journalism"; "research"; "public service"].
Definition sentiments : list string :=
  ["very insightful"; "somewhat problematic"; "quite helpful";
   "rather concerning"; "extremely valuable"].
Definition agreements : list string :=
  ["aligns"; "conflicts"; "partially matches"; "strongly supports"; "challenges"].
Definition aspects : list string :=
  ["point"; "argument"; "data"; "conclusion"; "perspective"; "analysis"].
Definition topics : list string :=
  ["policy"; "governance"; "democracy"; "legislation"; "reform"; "leadership"].
Definition evaluations : list string :=
  ["spot on"; "questionable"; "well researched"; "needs more context"; "brilliant"].
Definition qualities : list string :=
  ["provides excellent"; "offers decent"; "gives poor"; "delivers outstanding";
   "presents adequate"].
Definition groups : list string :=
  ["young voters"; "working families"; "small businesses"; "rural communities";
   "urban areas"].
Definition importances : list string :=
  ["very important"; "often overlooked"; "critical to address"; "worth considering"].

End MockData.

(** ** YouTubeCommentScraper: comment acquisition *)

Module Scraper.
Import MockData.

Section Scraper.

(** The optional dependencies found at import time. *)
Variable HAS_TEXTBLOB : bool.
Variable HAS_YOUTUBE_API : bool.
Variable HAS_SELENIUM : bool.

Variable textblob_sentiment : string -> Q * Q.

(** [self.api_key] *)
Variable api_key : option string.

(** [build('youtube', 'v3', developerKey=self.api_key)] followed by
    [youtube.commentThreads().list(videoId=..., maxResults=...)]:
    building the client may raise. *)
Variable commentThreads_list : string -> Z -> result Api.request.

Definition analyze : string -> result SentimentResult :=
  SentimentAnalyzer.analyze_sentiment HAS_TEXTBLOB textblob_sentiment.

(** Truth value of [self.api_key]. *)
Definition api_key_set : bool :=
  match api_key with
  | Some k => negb (k =? "")%string
  | None => false
  end.

(** One pass of the first loop of [_generate_mock_comments]. *)
Definition base_comment (video_id : string) (i : nat) : Eff YouTubeComment :=
  eff text <- lift (match nth_error political_comments i with
                    | Some t => Ok t
                    | None => Raise IndexError
                    end);
  eff sentiment <- lift (analyze text);
  eff likes <- Random.randint 0 100;
  eff t <- now;
  eff age <- Random.randint 1 2880;
  eff reply_count <- Random.randint 0 8;
  eret {| comment_id := "mock_" ++ video_id ++ "_" ++ Text.of_nat i;
          author := "Viewer" ++ Text.of_nat (i + 1);
          text := text;
          likes := likes;
          timestamp := t - minutes age;
          sentiment_score := score sentiment;
          sentiment_label := label sentiment;
          reply_count := reply_count;
          is_reply := false;
          parent_id := None |}.

(** The random keyword arguments of [template.format]. *)
Definition choose_fillers : Eff fillers :=
  eff profession <- Random.choice professions;
  eff sentiment <- Random.choice sentiments;
  eff field <- Random.choice fields;
  eff agreement <- Random.choice agreements;
  eff aspect <- Random.choice aspects;
  eff topic <- Random.choice topics;
  eff evaluation <- Random.choice evaluations;
  eff quality <- Random.choice qualities;
  eff subject <- Random.choice topics;
  eff group <- Random.choice groups;
  eff importance <- Random.choice importances;
  eret (mkFillers profession sentiment field agreement aspect topic
                  evaluation quality subject group importance).

(** One pass of the second loop of [_generate_mock_comments]. *)
Definition template_comment (video_id : string) (base_comments : Z) (i : nat)
  : Eff YouTubeComment :=
  eff template <- Random.choice comment_templates;
  eff f <- choose_fillers;
  let text := template f in
  eff sentiment <- lift (analyze text);
  eff user <- Random.randint 100 9999;
  eff likes <- Random.randint 0 50;
  eff t <- now;
  eff age <- Random.randint 1 1440;
  eff reply_count <- Random.randint 0 5;
  eret {| comment_id := "mock_" ++ video_id ++ "_"
                        ++ Text.of_Z (base_comments + Z.of_nat i);
          author := "User" ++ Text.of_Z user;
          text := text;
          likes := likes;
          timestamp := t - minutes age;
          sentiment_score := score sentiment;
          sentiment_label := label sentiment;
          reply_count := reply_count;
          is_reply := false;
          parent_id := None |}.

Definition _generate_mock_comments (video_id : string) (max_comments : Z)
  : Eff (list YouTubeComment) :=
  let base_comments := Z.min (len political_comments) max_comments in
  eff comments <- for_each (base_comment video_id) (range base_comments);
  let remaining := max_comments - len comments in
  eff more <- for_each (template_comment video_id base_comments) (range remaining);
  eret (slice_to max_comments (comments ++ more)).

(** The comment built from a reply of the thread of [comment]. *)
Definition reply_comment (comment : YouTubeComment) (reply_data : Api.snippet)
  : result YouTubeComment :=
  do reply_sentiment <- analyze (Api.textDisplay reply_data);
  Ok {| comment_id := Api.id reply_data;
        author := Api.authorDisplayName reply_data;
        text := Api.textDisplay reply_data;
        likes := Api.likeCount reply_data;
        timestamp := Api.publishedAt reply_data;
        sentiment_score := score reply_sentiment;
        sentiment_label := label reply_sentiment;
        reply_count := 0;
        is_reply := true;
        parent_id := Some (comment_id comment) |}.

(** The comments of one thread: the top-level comment, then its
    replies in order. *)
Definition thread_comments (item : Api.thread) : result (list YouTubeComment) :=
  let comment_data := Api.topLevelComment item in
  do sentiment <- analyze (Api.textDisplay comment_data);
  let comment :=
    {| comment_id := Api.id comment_data;
       author := Api.authorDisplayName comment_data;
       text := Api.textDisplay comment_data;
       likes := Api.likeCount comment_data;
       timestamp := Api.publishedAt comment_data;
       sentiment_score := score sentiment;
       sentiment_label := label sentiment;
       reply_count := Api.totalReplyCount item;
       is_reply := false;
       parent_id := None |} in
  do replies <- match Api.replies item with
                | Some rs => for_each_result (reply_comment comment) rs
                | None => Ok []
                end;
  Ok (comment :: replies).

(** [for item in response['items']: ...], appending to [comments]. *)
Fixpoint page_comments (items : list Api.thread) (comments : list YouTubeComment)
  : result (list YouTubeComment) :=
  match items with
  | [] => Ok comments
  | item :: rest =>
      do cs <- thread_comments item;
      page_comments rest (comments ++ cs)
  end.

(** [while request and len(comments) < max_comments: ...] *)
Fixpoint api_pages (request : Api.request) (max_comments : Z)
                   (comments : list YouTubeComment)
  : result (list YouTubeComment) :=
  match request with
  | Api.NoRequest => Ok comments
  | Api.Fails e =>
      if len comments <? max_comments then Raise e else Ok comments
  | Api.Responds items next =>
      if len comments <? max_comments
      then do comments <- page_comments items comments;
           api_pages next max_comments comments
      else Ok comments
  end.

Definition _scrape_comments_api (video_id : string) (max_comments : Z)
  : result (list YouTubeComment) :=
  do request <- commentThreads_list video_id (Z.min max_comments 100);
  do comments <- api_pages request max_comments [];
  Ok (slice_to max_comments comments).

Definition _scrape_comments_selenium (video_id : string) (max_comments : Z)
  : Eff (list YouTubeComment) :=
  _generate_mock_comments video_id max_comments.

(** [try: return m  except Exception: pass], then [otherwise]. *)
Definition try_return {A : Type} (m : Eff A) (otherwise : Eff A) : Eff A :=
  fun w => match m w with
           | (Ok a, w') => (Ok a, w')
           | (Raise _, w') => otherwise w'
           end.

Definition scrape_comments (video_id : string) (max_comments : Z)
  : Eff (list YouTubeComment) :=
  let mock := _generate_mock_comments video_id max_comments in
  let after_api :=
    if HAS_SELENIUM
    then try_return (_scrape_comments_selenium video_id max_comments) mock
    else mock in
  if api_key_set && HAS_YOUTUBE_API
  then try_return (lift (_scrape_comments_api video_id max_comments)) after_api
  else after_api.

End Scraper.

End Scraper.

(** ** YouTubeCommentScraper: sentiment analytics *)

(** [range(0, stop, step)] for a positive [step]: the multiples of
    [step] below [stop]. *)
Definition range_step (stop step : nat) : list nat :=
  map (fun k => k * step)%nat (seq 0 ((stop + step - 1) / step)).

(** [l[i:j]] for indices within [0 <= i <= j]. *)
Definition slice {A : Type} (i j : nat) (l : list A) : list A :=
  firstn (j - i) (skipn i l).

(** [round(x)] to an integer: ties go to the even neighbour. *)
Definition round_half_even (x : Q) : Z :=
  let f := Qfloor x in
  match ((x - inject_Z f) ?= (1 # 2))%Q with
  | Lt => f
  | Gt => f + 1
  | Eq => if Z.even f then f else f + 1
  end.

(** [round(x, ndigits)] *)
Definition py_round (x : Q) (ndigits : nat) : Q :=
  let p := inject_Z (10 ^ Z.of_nat ndigits) in
  (inject_Z (round_half_even (x * p)) / p)%Q.

(** [collections.Counter], keys in first-seen order. *)
Module Counter.

Definition t : Type := list (string * Z).

Fixpoint add (k : string) (c : t) : t :=
  match c with
  | [] => [(k, 1)]
  | (k', n) :: rest =>
      if (k' =? k)%string then (k', n + 1) :: rest else (k', n) :: add k rest
  end.

Definition of_list (l : list string) : t :=
  fold_left (fun c k => add k c) l [].

(** [c[k]], which is 0 for a missing key. *)
Fixpoint get (c : t) (k : string) : Z :=
  match c with
  | [] => 0
  | (k', n) :: rest => if (k' =? k)%string then n else get rest k
  end.

Fixpoint insert_desc (x : string * Z) (l : t) : t :=
  match l with
  | [] => [x]
  | y :: rest => if snd y <=? snd x then x :: l else y :: insert_desc x rest
  end.

(** [c.most_common(n)]: by decreasing count, ties in first-seen order. *)
Definition most_common (n : nat) (c : t) : t :=
  firstn n (fold_right insert_desc [] c).

End Counter.

Module Analytics.

(** A row of the [SELECT] of [get_sentiment_analytics]; the tuple
    indices 0 to 5 are the fields in this order. *)
Record row : Type := mkRow {
  sentiment_score : Q;
  sentiment_label : string;
  likes : Z;
  timestamp : Z;
  text : string;
  author : string
}.

(** An entry of ['time_trend']. *)
Module Trend.
Record point : Type := mkPoint {
  timestamp : Z;
  sentiment : Q
}.
End Trend.

(** The dictionary both analytics functions return. *)
Record analytics : Type := mkAnalytics {
  total_comments : Z;
  avg_sentiment : Q;
  weighted_sentiment : Q;
  sentiment_distribution : list (string * Z);
  positive_percentage : Q;
  negative_percentage : Q;
  neutral_percentage : Q;
  time_trend : list Trend.point;
  top_words : list (string * Z);
  engagement_score : Q
}.

(** [re.findall(r'\b\w+\b', s)]: the maximal runs of word characters. *)
Fixpoint findall_words_from (cur : string) (s : string) : list string :=
  match s with
  | EmptyString => match cur with EmptyString => [] | _ => [cur] end
  | String c r =>
      if Text.is_word c then findall_words_from (cur ++ String c "") r
      else match cur with
           | EmptyString => findall_words_from "" r
           | _ => cur :: findall_words_from "" r
           end
  end.

Definition findall_words (s : string) : list string := findall_words_from "" s.

(** [' '.join(texts)] *)
Definition join_spaces (texts : list string) : string := String.concat " " texts.

(** [sum(s * l for s, l in zip(sentiments, likes)) / sum(likes)
     if sum(likes) > 0 else 0] *)
Definition weighted (sentiments : list Q) (likes : list Z) : result Q :=
  if sumZ likes >? 0
  then py_div (sumQ (map (fun sl => fst sl * inject_Z (snd sl))%Q
                         (combine sentiments likes)))
              (inject_Z (sumZ likes))
  else Ok 0%Q.

(** The body of the time-trend loop at start index [i]. *)
Definition trend_point (comments_data : list row) (i : nat) : result Trend.point :=
  let batch := slice i (i + 10) comments_data in
  do avg_sentiment <- py_div (sumQ (map sentiment_score batch)) (inject_Z (len batch));
  do head <- Urllib.first batch;
  Ok {| Trend.timestamp := timestamp head; Trend.sentiment := avg_sentiment |}.

Definition trend (comments_data : list row) : result (list Trend.point) :=
  let n := length comments_data in
  for_each_result (trend_point comments_data) (range_step n (Nat.max 1 (n / 10))).

(** [(label_counts[name] / len(labels)) * 100] *)
Definition percentage (label_counts : Counter.t) (labels : list string)
                      (name : string) : result Q :=
  do share <- py_div (inject_Z (Counter.get label_counts name)) (inject_Z (len labels));
  Ok (share * 100)%Q.

(** The part of [get_sentiment_analytics] after the empty check. *)
Definition compute_analytics (comments_data : list row) : result analytics :=
  let sentiments := map sentiment_score comments_data in
  let labels := map sentiment_label comments_data in
  let likes := map likes comments_data in
  let texts := map text comments_data in
  let label_counts := Counter.of_list labels in
  do weighted_sentiment <- weighted sentiments likes;
  do time_sentiment <- trend comments_data;
  let all_text := Text.lower (join_spaces texts) in
  let words := findall_words all_text in
  let word_freq := Counter.most_common 20 (Counter.of_list words) in
  do avg_sentiment <- py_div (sumQ sentiments) (inject_Z (len sentiments));
  do positive_percentage <- percentage label_counts labels "positive";
  do negative_percentage <- percentage label_counts labels "negative";
  do neutral_percentage <- percentage label_counts labels "neutral";
  do engagement_score <-
    match likes with
    | [] => Ok 0%Q
    | _ => py_div (inject_Z (sumZ likes)) (inject_Z (len likes))
    end;
  Ok {| total_comments := len comments_data;
        avg_sentiment := avg_sentiment;
        weighted_sentiment := weighted_sentiment;
        sentiment_distribution := label_counts;
        positive_percentage := positive_percentage;
        negative_percentage := negative_percentage;
        neutral_percentage := neutral_percentage;
        time_trend := time_sentiment;
        top_words := word_freq;
        engagement_score := engagement_score |}.

Definition rounded_uniform (a b : Q) (ndigits : nat) : Eff Q :=
  eff x <- Random.uniform a b; eret (py_round x ndigits).

(** An entry of the mock trend, [i] hours back. *)
Definition mock_trend_point (i : Z) : Eff Trend.point :=
  eff t <- now;
  eff s <- rounded_uniform (- (5 # 10)) (8 # 10) 2;
  eret {| Trend.timestamp := t - hours i; Trend.sentiment := s |}.

Definition _generate_mock_analytics : Eff analytics :=
  eff total_comments <- Random.randint 50 200;
  eff avg_sentiment <- rounded_uniform (- (5 # 10)) (7 # 10) 3;
  eff weighted_sentiment <- rounded_uniform (- (3 # 10)) (8 # 10) 3;
  eff positive <- Random.randint 20 60;
  eff negative <- Random.randint 10 40;
  eff neutral <- Random.randint 15 45;
  eff positive_percentage <- rounded_uniform 35 65 1;
  eff negative_percentage <- rounded_uniform 15 35 1;
  eff neutral_percentage <- rounded_uniform 20 40 1;
  eff time_trend <- for_each mock_trend_point [10; 9; 8; 7; 6; 5; 4; 3; 2; 1];
  eff engagement_score <- rounded_uniform 3 15 1;
  eret {| total_comments := total_comments;
          avg_sentiment := avg_sentiment;
          weighted_sentiment := weighted_sentiment;
          sentiment_distribution :=
            [("positive", positive); ("negative", negative); ("neutral", neutral)];
          positive_percentage := positive_percentage;
          negative_percentage := negative_percentage;
          neutral_percentage := neutral_percentage;
          time_trend := time_trend;
          top_words :=
            [("analysis", 25); ("great", 20); ("political", 18); ("excellent", 15);
             ("good", 12); ("interesting", 10); ("helpful", 8); ("thanks", 7);
             ("policy", 6); ("insightful", 5)];
          engagement_score := engagement_score |}.

Section Store.

(** Whether the [sqlite3] import succeeded. *)
Variable HAS_SQLITE : bool.

(** [cursor.fetchall()] after the [SELECT] for a video id: the
    stored top-level comments of the video, newest first. *)
Variable fetchall : string -> list row.

Definition get_sentiment_analytics (video_id : string) : Eff analytics :=
  if negb HAS_SQLITE then _generate_mock_analytics
  else
    let comments_data := fetchall video_id in
    match comments_data with
    | [] => _generate_mock_analytics
    | _ => lift (compute_analytics comments_data)
    end.

End Store.

End Analytics.

(** ** YouTubeAnalyticsServer: the subscriber set and the broadcast *)

Module Server.

(** A WebSocket connection as the server sees it. *)
Record link : Type := mkLink {
  is_open : bool;
  inbox : list string
}.

(** Connections by handle. *)
Definition network : Type := nat -> link.

Definition deliver (c : nat) (message : string) (net : network) : network :=
  fun c' => if (c' =? c)%nat
            then {| is_open := is_open (net c); inbox := inbox (net c) ++ [message] |}
            else net c'.

(** [await client.send(message)] *)
Definition send (c : nat) (message : string) (net : network)
  : result unit * network :=
  if is_open (net c) then (Ok tt, deliver c message net)
  else (Raise ConnectionClosed, net).

(** [await asyncio.gather] over the awaitables [aws]: every
    awaitable runs to its end; with [return_exceptions] the outcomes
    are the value, otherwise the first exception is raised to the
    awaiter. *)
Fixpoint run_all (aws : list (network -> result unit * network)) (net : network)
  : list (result unit) * network :=
  match aws with
  | [] => ([], net)
  | aw :: rest =>
      let '(r, net') := aw net in
      let '(rs, net'') := run_all rest net' in
      (r :: rs, net'')
  end.

Fixpoint first_exception (rs : list (result unit)) : option exn :=
  match rs with
  | [] => None
  | Raise e :: _ => Some e
  | Ok _ :: rest => first_exception rest
  end.

Definition gather (aws : list (network -> result unit * network))
                  (return_exceptions : bool) (net : network)
  : result (list (result unit)) * network :=
  let '(rs, net') := run_all aws net in
  if return_exceptions then (Ok rs, net')
  else match first_exception rs with
       | Some e => (Raise e, net')
       | None => (Ok rs, net')
       end.

Section Server.

(** Whether the [websockets] import succeeded. *)
Variable HAS_WEBSOCKETS : bool.

(** The payload of an update and [json.dumps(data, default=str)]. *)
Variable payload : Type.
Variable dumps : payload -> string.

(** [self.clients], a set of connection handles. *)
Record server : Type := mkServer {
  clients : list nat
}.

Definition init : server := {| clients := [] |}.

(** [register_client] up to its wait: [self.clients.add(websocket)]. *)
Definition connect (c : nat) (s : server) : server :=
  if negb HAS_WEBSOCKETS then s
  else if existsb (Nat.eqb c) (clients s) then s
  else {| clients := clients s ++ [c] |}.

(** The [finally] of [register_client]: [self.clients.remove(websocket)]. *)
Definition disconnect (c : nat) (s : server) : server :=
  {| clients := filter (fun c' => negb (c' =? c)%nat) (clients s) |}.

(** The states the server reaches from [__init__]. *)
Inductive reachable : server -> Prop :=
  | reach_init : reachable init
  | reach_connect c s : reachable s -> reachable (connect c s)
  | reach_disconnect c s : reachable s -> In c (clients s) -> reachable (disconnect c s).

Definition broadcast_update (s : server) (data : payload) (net : network)
  : result unit * network :=
  if negb (match clients s with [] => true | _ => false end) && HAS_WEBSOCKETS
  then let message := dumps data in
       match gather (map (fun client => send client message) (clients s)) true net with
       | (Ok _, net') => (Ok tt, net')
       | (Raise e, net') => (Raise e, net')
       end
  else (Ok tt, net).

End Server.

End Server.

(** ** The comments table

    The [comments] table of the SQLite database, in row order.  Its
    primary key is [comment_id]: [INSERT OR REPLACE] deletes the row
    that has the key of the new row, if any, and appends the new row.
    Timestamps are compared as numbers; rows with equal timestamps keep
    their table order (SQL leaves their order open). *)

Module Database.

(** A row: the video it was saved for and the comment's columns. *)
Record stored : Type := mkStored {
  video_id : string;
  comment : YouTubeComment
}.

Definition table : Type := list stored.

Definition same_key (c : YouTubeComment) (r : stored) : bool :=
  (comment_id (comment r) =? comment_id c)%string.

(** One [INSERT OR REPLACE INTO comments ... VALUES (...)]. *)
Definition insert_or_replace (video : string) (c : YouTubeComment) (t : table) : table :=
  (filter (fun r => negb (same_key c r)) t ++ [{| video_id := video; comment := c |}])%list.

Definition save_comments_to_db (HAS_SQLITE : bool) (comments : list YouTubeComment)
                               (video : string) (t : table) : table :=
  if negb HAS_SQLITE then t
  else fold_left (fun t c => insert_or_replace video c t) comments t.

(** [WHERE video_id = ? AND is_reply = 0] *)
Definition selected (video : string) (r : stored) : bool :=
  (video_id r =? video)%string && negb (is_reply (comment r)).

Fixpoint insert_newest (r : stored) (sorted : list stored) : list stored :=
  match sorted with
  | [] => [r]
  | x :: rest =>
      if timestamp (comment x) <=? timestamp (comment r) then r :: sorted
      else x :: insert_newest r rest
  end.

(** [ORDER BY timestamp DESC] *)
Definition order_by_timestamp_desc (rows : list stored) : list stored :=
  fold_right insert_newest [] rows.

(** The selected columns of a row. *)
Definition to_row (r : stored) : Analytics.row :=
  {| Analytics.sentiment_score := sentiment_score (comment r);
     Analytics.sentiment_label := sentiment_label (comment r);
     Analytics.likes := likes (comment r);
     Analytics.timestamp := timestamp (comment r);
     Analytics.text := text (comment r);
     Analytics.author := author (comment r) |}.

(** [cursor.fetchall()] after the [SELECT] of [get_sentiment_analytics]. *)
Definition fetchall (t : table) (video : string) : list Analytics.row :=
  map to_row (order_by_timestamp_desc (filter (selected video) t)).

End Database.

(** ** Videos *)

Module Video.

Record YouTubeVideo : Type := mkVideo {
  video_id : string;
  title : string;
  description : string;
  view_count : Z;
  like_count : Z;
  comment_count : Z;
  duration : string;
  upload_date : Z;
  channel_name : string;
  tags : list string
}.

(** A video resource of the YouTube Data API, as far as
    [_scrape_video_api] reads it; the statistics and [publishedAt]
    already parsed, a missing statistic or tag list being [None]. *)
Record resource : Type := mkResource {
  snippet_title : string;
  snippet_description : string;
  viewCount : option Z;
  likeCount : option Z;
  commentCount : option Z;
  contentDetails_duration : string;
  publishedAt : Z;
  channelTitle : string;
  snippet_tags : option (list string)
}.

End Video.

(** ** The page patterns of [_scrape_video_web]

    Each pattern is a quoted key, a colon, a quote, a captured run
    of at least one character of a class, and a closing quote.  The run
    is greedy and the class excludes the quote, so a match that starts
    at a position takes the maximal run and needs the quote after it. *)

Module PagePattern.
Import Text.

Definition quote : ascii := "034"%char.

Definition is_quote (c : ascii) : bool := (c =? quote)%char.

(** The text [quote key quote colon quote]. *)
Definition opening (key : string) : string :=
  String quote (key ++ String quote (":" ++ String quote "")).

(** The maximal run of characters of the class at the start, and the rest. *)
Fixpoint take_run (p : ascii -> bool) (s : string) : string * string :=
  match s with
  | EmptyString => ("", "")
  | String c r =>
      if p c then let '(run, rest) := take_run p r in (String c run, rest)
      else ("", s)
  end.

(** A match anchored at the start of [s]; the value is group 1. *)
Definition match_here (key : string) (p : ascii -> bool) (s : string) : option string :=
  if prefix (opening key) s
  then let '(run, rest) := take_run p (drop (String.length (opening key)) s) in
       match run with
       | EmptyString => None
       | _ => if next_is is_quote rest then Some run else None
       end
  else None.

(** [re.search]: the leftmost match. *)
Fixpoint search (key : string) (p : ascii -> bool) (s : string) : option string :=
  match match_here key p s with
  | Some g => Some g
  | None =>
      match s with
      | EmptyString => None
      | String _ r => search key p r
      end
  end.

(** The class of every character but the quote. *)
Definition not_quote (c : ascii) : bool := negb (is_quote c).

(** The value of a run of decimal digits. *)
Definition int_of_digits (s : string) : Z :=
  fold_left (fun acc c => 10 * acc + Z.of_N (code c - 48))
            (list_ascii_of_string s) 0.

(** [int(s)] for a run of decimal digits: CPython 3.11 and later refuse
    a conversion of more than 4300 digits with a [ValueError]. *)
Definition int_max_str_digits : nat := 4300.

Definition int (s : string) : result Z :=
  if (int_max_str_digits <? String.length s)%nat
  then Raise (ValueError "Exceeds the limit (4300 digits) for integer string conversion")
  else Ok (int_of_digits s).

End PagePattern.

(** ** YouTubeCommentScraper: video information *)

Definition days (d : Z) : Z := 86400 * d.

Module VideoInfo.

Section VideoInfo.

Variable HAS_YOUTUBE_API : bool.

(** Whether the [aiohttp] import succeeded. *)
Variable HAS_AIOHTTP : bool.

Variable api_key : option string.

(** [build(...)] followed by [youtube.videos().list(id=...).execute()]:
    the [items] of the response. *)
Variable videos_list : string -> result (list Video.resource).

(** [session.get(url)] followed by [response.text()]. *)
Variable http_get : string -> result string.

Definition api_key_set : bool :=
  match api_key with
  | Some k => negb (k =? "")%string
  | None => false
  end.

(** [statistics.get(name, 0)] *)
Definition or_zero (x : option Z) : Z :=
  match x with
  | Some v => v
  | None => 0
  end.

Definition _scrape_video_api (video_id : string) : result Video.YouTubeVideo :=
  do items <- videos_list video_id;
  match items with
  | [] => Raise (ValueError ("Video not found: " ++ video_id))
  | video_data :: _ =>
      Ok {| Video.video_id := video_id;
            Video.title := Video.snippet_title video_data;
            Video.description := Video.snippet_description video_data;
            Video.view_count := or_zero (Video.viewCount video_data);
            Video.like_count := or_zero (Video.likeCount video_data);
            Video.comment_count := or_zero (Video.commentCount video_data);
            Video.duration := Video.contentDetails_duration video_data;
            Video.upload_date := Video.publishedAt video_data;
            Video.channel_name := Video.channelTitle video_data;
            Video.tags := match Video.snippet_tags video_data with
                          | Some ts => ts
                          | None => []
                          end |}
  end.

(** [int(m.group(1)) if m else random.randint(lo, hi)] *)
Definition parsed_or_random (m : option string) (lo hi : Z) : Eff Z :=
  match m with
  | Some digits => lift (PagePattern.int digits)
  | None => Random.randint lo hi
  end.

Definition _scrape_video_web (video_id : string) : Eff Video.YouTubeVideo :=
  let url := "https://www.youtube.com/watch?v=" ++ video_id in
  eff html <- lift (http_get url);
  let title_match := PagePattern.search "title" PagePattern.not_quote html in
  let views_match := PagePattern.search "viewCount" Text.is_digit html in
  let likes_match := PagePattern.search "likeCount" Text.is_digit html in
  let channel_match := PagePattern.search "channelName" PagePattern.not_quote html in
  eff view_count <- parsed_or_random views_match 10000 50000;
  eff like_count <- parsed_or_random likes_match 500 2000;
  eff comment_count <- Random.randint 50 500;
  eff t <- now;
  eff age <- Random.randint 1 30;
  eret {| Video.video_id := video_id;
          Video.title := match title_match with
                         | Some g => g
                         | None => "VIJAYFOCUS Political Analysis"
                         end;
          Video.description := "Political content analysis and discussion";
          Video.view_count := view_count;
          Video.like_count := like_count;
          Video.comment_count := comment_count;
          Video.duration := "PT15M30S";
          Video.upload_date := t - days age;
          Video.channel_name := match channel_match with
                                | Some g => g
                                | None => "VIJAYFOCUS"
                                end;
          Video.tags := ["politics"; "analysis"; "current events"] |}.

Definition _generate_mock_video_info (video_id : string) : Eff Video.YouTubeVideo :=
  eff view_count <- Random.randint 15000 75000;
  eff like_count <- Random.randint 800 3000;
  eff comment_count <- Random.randint 100 800;
  eff t <- now;
  eff age <- Random.randint 1 14;
  eret {| Video.video_id := video_id;
          Video.title := "VIJAYFOCUS - Political Analysis & Current Events";
          Video.description :=
            "In-depth analysis of current political developments and their implications for society.";
          Video.view_count := view_count;
          Video.like_count := like_count;
          Video.comment_count := comment_count;
          Video.duration := "PT12M45S";
          Video.upload_date := t - days age;
          Video.channel_name := "VIJAYFOCUS";
          Video.tags := ["politics"; "analysis"; "current events"; "news"; "discussion"] |}.

Definition scrape_video_info (video_id : string) : Eff Video.YouTubeVideo :=
  let mock := _generate_mock_video_info video_id in
  let after_api :=
    if HAS_AIOHTTP
    then Scraper.try_return (_scrape_video_web video_id) mock
    else mock in
  if api_key_set && HAS_YOUTUBE_API
  then Scraper.try_return (lift (_scrape_video_api video_id)) after_api
  else after_api.

End VideoInfo.

End VideoInfo.

(** ** The running system

    What the application and the server act on: the world of random
    draws and clock readings, the comments table, the connections, the
    server object's attributes and the sleeps taken so far. *)

Record system : Type := mkSystem {
  sys_world : world;
  sys_table : Database.table;
  sys_network : Server.network;
  sys_server : Server.server;
  current_video_id : option string;
  is_monitoring : bool;
  slept : list Z
}.

(** Computations on the system that may raise; what was done before
    an exception is raised stays done. *)
Definition Run (A : Type) : Type := system -> result A * system.

Definition sret {A : Type} (a : A) : Run A := fun s => (Ok a, s).

Definition sbind {A B : Type} (m : Run A) (k : A -> Run B) : Run B :=
  fun s => match m s with
           | (Ok a, s') => k a s'
           | (Raise e, s') => (Raise e, s')
           end.

Notation "'run' x <- m ; k" := (sbind m (fun x => k))
  (at level 10, x name, m at level 100, k at level 200).

(** [try: m  except Exception as e: handler(e)] *)
Definition try_catch {A : Type} (m : Run A) (handler : exn -> Run A) : Run A :=
  fun s => match m s with
           | (Ok a, s') => (Ok a, s')
           | (Raise e, s') => handler e s'
           end.

Definition in_world {A : Type} (m : Eff A) : Run A :=
  fun s => let '(r, w) := m (sys_world s) in
           (r, {| sys_world := w; sys_table := sys_table s;
                  sys_network := sys_network s; sys_server := sys_server s;
                  current_video_id := current_video_id s;
                  is_monitoring := is_monitoring s; slept := slept s |}).

Definition read_table : Run Database.table := fun s => (Ok (sys_table s), s).

Definition update_table (f : Database.table -> Database.table) : Run unit :=
  fun s => (Ok tt, {| sys_world := sys_world s; sys_table := f (sys_table s);
                      sys_network := sys_network s; sys_server := sys_server s;
                      current_video_id := current_video_id s;
                      is_monitoring := is_monitoring s; slept := slept s |}).

Definition on_network {A : Type} (m : Server.server -> Server.network -> result A * Server.network)
  : Run A :=
  fun s => let '(r, net) := m (sys_server s) (sys_network s) in
           (r, {| sys_world := sys_world s; sys_table := sys_table s;
                  sys_network := net; sys_server := sys_server s;
                  current_video_id := current_video_id s;
                  is_monitoring := is_monitoring s; slept := slept s |}).

(** [self.current_video_id = video_id] *)
Definition set_current_video_id (video_id : string) : Run unit :=
  fun s => (Ok tt, {| sys_world := sys_world s; sys_table := sys_table s;
                      sys_network := sys_network s; sys_server := sys_server s;
                      current_video_id := Some video_id;
                      is_monitoring := is_monitoring s; slept := slept s |}).

(** [self.is_monitoring = True] *)
Definition set_monitoring : Run unit :=
  fun s => (Ok tt, {| sys_world := sys_world s; sys_table := sys_table s;
                      sys_network := sys_network s; sys_server := sys_server s;
                      current_video_id := current_video_id s;
                      is_monitoring := true; slept := slept s |}).

(** [await asyncio.sleep(seconds)] *)
Definition sleep (seconds : Z) : Run unit :=
  fun s => (Ok tt, {| sys_world := sys_world s; sys_table := sys_table s;
                      sys_network := sys_network s; sys_server := sys_server s;
                      current_video_id := current_video_id s;
                      is_monitoring := is_monitoring s;
                      slept := (slept s ++ [seconds])%list |}).

(** [l[-n:]] for a positive [n]: the last [n] elements, or all of them. *)
Definition last_n {A : Type} (n : nat) (l : list A) : list A :=
  skipn (length l - n) l.

(** The messages of the server, by their ['type']. *)
Module Update.

Inductive update : Type :=
  | video_info (data : Video.YouTubeVideo)
  | new_comments (data : list YouTubeComment)
  | analytics_update (data : Analytics.analytics).

End Update.

(** ** YouTubeAnalyticsApp and the monitoring loop

    The operations on the database and [json.dumps] are taken to
    succeed; what the scraping tiers raise is modelled. *)

Module App.

(** The dictionary [analyze_video] returns. *)
Record report : Type := mkReport {
  video_info : Video.YouTubeVideo;
  analytics : Analytics.analytics;
  recent_comments : list YouTubeComment
}.

Section App.

Variable HAS_TEXTBLOB : bool.
Variable HAS_YOUTUBE_API : bool.
Variable HAS_SELENIUM : bool.
Variable HAS_AIOHTTP : bool.
Variable HAS_SQLITE : bool.
Variable HAS_WEBSOCKETS : bool.
Variable textblob_sentiment : string -> Q * Q.
Variable api_key : option string.
Variable commentThreads_list : string -> Z -> result Api.request.
Variable videos_list : string -> result (list Video.resource).
Variable http_get : string -> result string.

(** [json.dumps(data, default=str)] on the messages. *)
Variable dumps : Update.update -> string.

Definition scrape_video_info (video_id : string) : Run Video.YouTubeVideo :=
  in_world (VideoInfo.scrape_video_info HAS_YOUTUBE_API HAS_AIOHTTP api_key
              videos_list http_get video_id).

Definition scrape_comments (video_id : string) (max_comments : Z)
  : Run (list YouTubeComment) :=
  in_world (Scraper.scrape_comments HAS_TEXTBLOB HAS_YOUTUBE_API HAS_SELENIUM
              textblob_sentiment api_key commentThreads_list video_id max_comments).

Definition save_comments_to_db (comments : list YouTubeComment) (video_id : string)
  : Run unit :=
  update_table (Database.save_comments_to_db HAS_SQLITE comments video_id).

Definition get_sentiment_analytics (video_id : string) : Run Analytics.analytics :=
  run t <- read_table;
  in_world (Analytics.get_sentiment_analytics HAS_SQLITE (Database.fetchall t) video_id).

Definition broadcast_update (data : Update.update) : Run unit :=
  on_network (fun server net =>
    Server.broadcast_update HAS_WEBSOCKETS Update.update dumps server data net).

Definition analyze_video (video_url : string) : Run report :=
  run video_id <- in_world (lift (extract_video_id video_url));
  run video_info <- scrape_video_info video_id;
  run comments <- scrape_comments video_id 100;
  run _ <- save_comments_to_db comments video_id;
  run analytics <- get_sentiment_analytics video_id;
  sret {| video_info := video_info;
          analytics := analytics;
          recent_comments := slice_to 10 comments |}.

(** The body of the [try] of the monitoring loop. *)
Definition monitoring_step (video_id : string) : Run unit :=
  run comments <- scrape_comments video_id 50;
  run _ <- save_comments_to_db comments video_id;
  run analytics <- get_sentiment_analytics video_id;
  run _ <- broadcast_update (Update.new_comments (last_n 5 comments));
  run _ <- broadcast_update (Update.analytics_update analytics);
  sleep 30.

(** One pass of the [while] loop: the step, or the longer sleep when
    the step raises. *)
Definition monitoring_cycle (video_id : string) : Run unit :=
  try_catch (monitoring_step video_id) (fun _ => sleep 60).

(** The first [cycles] passes of [while self.is_monitoring]. *)
Fixpoint monitoring_loop (cycles : nat) (video_id : string) : Run unit :=
  match cycles with
  | O => sret tt
  | S n =>
      fun s => if is_monitoring s
               then (run _ <- monitoring_cycle video_id; monitoring_loop n video_id) s
               else (Ok tt, s)
  end.

(** [start_monitoring], its loop cut after [cycles] passes. *)
Definition start_monitoring (cycles : nat) (video_url : string) : Run unit :=
  run video_id <- in_world (lift (extract_video_id video_url));
  run _ <- set_current_video_id video_id;
  run _ <- set_monitoring;
  run video_info <- scrape_video_info video_id;
  run _ <- broadcast_update (Update.video_info video_info);
  monitoring_loop cycles video_id.

End App.

End App.

(** ** Definitions used to state the properties *)

(** The keyword set of an emotion in the [emotions] table. *)
Definition keywords_of (emotion : string) : list string :=
  match find (fun item => (fst item =? emotion)%string) SentimentAnalyzer.emotions with
  | Some item => snd item
  | None => []
  end.

(** Some keyword of the emotion's set occurs in the text. *)
Definition matches (emotion text : string) : bool :=
  SentimentAnalyzer.any_keyword_in (keywords_of emotion) text.

(** The lexicon hit counts of a text, counted as the analyzer counts
    them: over the words of the cleaned text. *)
Definition positive_hits (text : string) : Z :=
  SentimentAnalyzer.count_in SentimentAnalyzer.positive_keywords
    (Text.split (SentimentAnalyzer._clean_text text)).

Definition negative_hits (text : string) : Z :=
  SentimentAnalyzer.count_in SentimentAnalyzer.negative_keywords
    (Text.split (SentimentAnalyzer._clean_text text)).

(** Clamping to [[-0.8, 0.8]]. *)
Definition clamp (x : Q) : Q := Qmax (- (8 # 10)) (Qmin (8 # 10) x).

(** The magnitude 0.3 + 0.1 per unit of excess count. *)
Definition magnitude (excess : Z) : Q := ((3 # 10) + (1 # 10) * inject_Z excess)%Q.

Definition valid_label (l : string) : Prop :=
  l = "positive" \/ l = "negative" \/ l = "neutral".

(** The comment at position [i] of a mock result was built from the
    entry [i] of the curated table. *)
Definition curated_at (video_id : string) (i : nat) (c : YouTubeComment) : Prop :=
  comment_id c = "mock_" ++ video_id ++ "_" ++ Text.of_nat i /\
  author c = "Viewer" ++ Text.of_nat (i + 1) /\
  nth_error MockData.political_comments i = Some (text c).

(** The comment at position [i] of a mock result was built by filling
    one of the templates. *)
Definition templated_at (video_id : string) (i : nat) (c : YouTubeComment) : Prop :=
  comment_id c = "mock_" ++ video_id ++ "_" ++ Text.of_nat i /\
  exists template f, In template MockData.comment_templates /\ text c = template f.

(** A comment carries a label and a score the analyzer can return. *)
Definition well_scored (c : YouTubeComment) : Prop :=
  valid_label (sentiment_label c) /\ (-1 <= sentiment_score c <= 1)%Q.

(** The stride of the time-trend loop, [max(1, n // 10)], and the
    number of start indices [0, step, 2 * step, ...] below [n]. *)
Definition trend_step (n : nat) : nat := Nat.max 1 (n / 10).

Definition bucket_count (n : nat) : nat := ((n + trend_step n - 1) / trend_step n)%nat.

(** The batch of the bucket with index [k]: the up to ten consecutive
    comments from its start index on. *)
Definition bucket_batch (comments_data : list Analytics.row) (k : nat) : list Analytics.row :=
  let i := (k * trend_step (length comments_data))%nat in
  slice i (i + 10) comments_data.

(** The mean of a list of scores. *)
Definition mean (scores : list Q) : Q := (sumQ scores / inject_Z (len scores))%Q.

(** The sum of score times likes, and the sum of likes. *)
Definition weighted_score_sum (comments_data : list Analytics.row) : Q :=
  sumQ (map (fun r => Analytics.sentiment_score r * inject_Z (Analytics.likes r))%Q
            comments_data).

Definition total_likes (comments_data : list Analytics.row) : Z :=
  sumZ (map Analytics.likes comments_data).

(** ** Sample inputs *)

(** The watch URL without a query, and what [urlparse] makes of it. *)
Definition bare_watch_url : string := "https://www.youtube.com/watch".

Definition bare_watch_parsed : Urllib.ParseResult :=
  {| Urllib.scheme := "https"; Urllib.netloc := "www.youtube.com";
     Urllib.path := "/watch"; Urllib.params := ""; Urllib.query := "";
     Urllib.fragment := "" |}.

(** A world whose every draw is 0 and whose clock stands still. *)
Definition still_world : world :=
  {| source := fun _ => 0%N; cursor := 0; clock := fun _ => 1700000000; ticks := 0 |}.

(** A world whose every draw is [2^52], the middle of every range. *)
Definition middle_world : world :=
  {| source := fun _ => (2 ^ 52)%N; cursor := 0; clock := fun _ => 1700000000;
     ticks := 0 |}.

(** A stored row with the given score, label, likes and timestamp. *)
Definition sample_row (s : Q) (l : string) (likes : Z) (t : Z) : Analytics.row :=
  {| Analytics.sentiment_score := s; Analytics.sentiment_label := l;
     Analytics.likes := likes; Analytics.timestamp := t;
     Analytics.text := "Great analysis"; Analytics.author := "Viewer1" |}.

(** Five stored comments, newest first. *)
Definition five_rows : list Analytics.row :=
  [sample_row (4 # 10) "positive" 3 500; sample_row 0 "neutral" 0 400;
   sample_row (- (4 # 10)) "negative" 1 300; sample_row (5 # 10) "positive" 7 200;
   sample_row 0 "neutral" 2 100].

(** Nineteen stored comments, newest first. *)
Definition nineteen_rows : list Analytics.row :=
  map (fun k => sample_row 0 "neutral" 1 (1000 - Z.of_nat k)) (seq 0 19).

(** Three stored comments nobody liked. *)
Definition unliked_rows : list Analytics.row :=
  [sample_row (4 # 10) "positive" 0 300; sample_row (- (6 # 10)) "negative" 0 200;
   sample_row 0 "neutral" 0 100].

(** An API that answers one page of two threads, the first with one
    reply, and fails on the request for the next page. *)
Definition sample_snippet (id text : string) (likes : Z) : Api.snippet :=
  {| Api.id := id; Api.authorDisplayName := "Viewer"; Api.textDisplay := text;
     Api.likeCount := likes; Api.publishedAt := 1700000000 |}.

Definition sample_api (video_id : string) (maxResults : Z) : result Api.request :=
  Ok (Api.Responds
        [{| Api.topLevelComment := sample_snippet "t1" "Great video, love it" 4;
            Api.totalReplyCount := 1;
            Api.replies := Some [sample_snippet "r1" "This is awful" 0] |};
         {| Api.topLevelComment := sample_snippet "t2" "okay" 1;
            Api.totalReplyCount := 0;
            Api.replies := None |}]
        (Api.Fails ApiError)).

(** Three sockets, the second one closed, all inboxes empty. *)
Definition sample_network : Server.network :=
  fun c => {| Server.is_open := negb (c =? 2)%nat; Server.inbox := [] |}.

(** The server after the three sockets connected. *)
Definition sample_server : Server.server :=
  Server.connect true 3 (Server.connect true 2 (Server.connect true 1 Server.init)).

(** ** Definitions used to state further properties *)

(** A character the cleaner lets through into a word: a lowercase
    letter, a digit or the underscore. *)
Definition clean_word_char (c : ascii) : bool :=
  Text.is_lower c || Text.is_digit c || (Text.code c =? 95)%N.

(** A character the cleaner lets through at all. *)
Definition clean_char (c : ascii) : bool :=
  clean_word_char c || Text.is_space c.

(** The values a query string gives to a name, in order. *)
Definition values_of (name : string) (pairs : list (string * string)) : list string :=
  map snd (filter (fun nv => (fst nv =? name)%string) pairs).

(** The URL falls through to the pattern search: its host is none of
    the recognised ones, or it is a youtube.com host with a path other
    than /watch. *)
Definition uses_fallback (parsed_url : Urllib.ParseResult) : bool :=
  if hostname_in (Urllib.hostname parsed_url) ["youtube.com"; "www.youtube.com"]
  then negb (Urllib.path parsed_url =? "/watch")%string
  else negb (hostname_in (Urllib.hostname parsed_url) ["youtu.be"]).

(** [id] is an 11-character id token that stands in [url] right after
    [v=] or a slash. *)
Definition id_token_in (url id : string) : Prop :=
  String.length id = 11%nat /\
  Urllib.forall_string VideoIdPattern.is_id_char id = true /\
  exists before after,
    url = before ++ "v=" ++ id ++ after \/ url = before ++ "/" ++ id ++ after.

(** A watch URL with two [v] parameters, and what [urlparse] makes of it. *)
Definition double_v_url : string := "https://www.youtube.com/watch?v=abc&v=O6DTtVOPwEU".

Definition double_v_parsed : Urllib.ParseResult :=
  {| Urllib.scheme := "https"; Urllib.netloc := "www.youtube.com";
     Urllib.path := "/watch"; Urllib.params := ""; Urllib.query := "v=abc&v=O6DTtVOPwEU";
     Urllib.fragment := "" |}.

(** An embed URL, and what [urlparse] makes of it. *)
Definition embed_url : string := "https://www.youtube.com/embed/O6DTtVOPwEU".

Definition embed_parsed : Urllib.ParseResult :=
  {| Urllib.scheme := "https"; Urllib.netloc := "www.youtube.com";
     Urllib.path := "/embed/O6DTtVOPwEU"; Urllib.params := ""; Urllib.query := "";
     Urllib.fragment := "" |}.

(** The URLs the code itself and its users build for an id. *)
Definition watch_url (id : string) : string := "https://www.youtube.com/watch?v=" ++ id.
Definition short_url (id : string) : string := "https://youtu.be/" ++ id.
Definition embed_url_of (id : string) : string := "https://www.youtube.com/embed/" ++ id.

(** The character is not [sep]. *)
Definition differs (sep : ascii) (c : ascii) : bool := negb (c =? sep)%char.

(** What every mock comment looks like, for the clock [clk] of the
    call: likes and replies within the ranges drawn from, a top-level
    comment, posted between one minute and 48 hours before a reading of
    the clock. *)
Definition mock_comment_shape (clk : nat -> Z) (c : YouTubeComment) : Prop :=
  0 <= likes c <= 100 /\
  0 <= reply_count c <= 8 /\
  is_reply c = false /\
  parent_id c = None /\
  exists k, clk k - minutes 2880 <= timestamp c <= clk k - minutes 1.

(** Every reply stands after its parent: a comment marked as a reply
    names as parent an earlier top-level comment of the list, and a
    top-level comment names none. *)
Definition threaded (l : list YouTubeComment) : Prop :=
  forall j c, nth_error l j = Some c ->
    if is_reply c
    then exists i p, (i < j)%nat /\ nth_error l i = Some p /\
                     is_reply p = false /\ parent_id c = Some (comment_id p)
    else parent_id c = None.

(** The flattened comments of a whole chain of requests, every page
    executed: each thread's top-level comment followed by its replies. *)
Fixpoint all_comments (HAS_TEXTBLOB : bool) (textblob_sentiment : string -> Q * Q)
                      (request : Api.request) : result (list YouTubeComment) :=
  match request with
  | Api.NoRequest => Ok []
  | Api.Fails e => Raise e
  | Api.Responds items next =>
      do page <- Scraper.page_comments HAS_TEXTBLOB textblob_sentiment items [];
      do rest <- all_comments HAS_TEXTBLOB textblob_sentiment next;
      Ok (page ++ rest)%list
  end.

(** An API that answers two pages, the second one the last. *)
Definition paged_api (video_id : string) (maxResults : Z) : result Api.request :=
  Ok (Api.Responds
        [{| Api.topLevelComment := sample_snippet "t1" "Great video, love it" 4;
            Api.totalReplyCount := 2;
            Api.replies := Some [sample_snippet "r1" "This is awful" 0;
                                 sample_snippet "r2" "I agree" 2] |}]
        (Api.Responds
           [{| Api.topLevelComment := sample_snippet "t2" "okay" 1;
               Api.totalReplyCount := 0;
               Api.replies := None |}]
           Api.NoRequest)).

(** The primary keys of a table, in row order. *)
Definition keys (t : Database.table) : list string :=
  map (fun r => comment_id (Database.comment r)) t.

(** The stored row with a given comment id, if any. *)
Definition lookup (id : string) (t : Database.table) : option Database.stored :=
  find (fun r => (comment_id (Database.comment r) =? id)%string) t.

(** The last comment of a list that carries a given id, if any. *)
Definition last_with (id : string) (comments : list YouTubeComment) : option YouTubeComment :=
  find (fun c => (comment_id c =? id)%string) (List.rev comments).


(** Rows in the order of [ORDER BY timestamp DESC]. *)
Definition newest_first (rows : list Analytics.row) : Prop :=
  StronglySorted (fun a b => Analytics.timestamp b <= Analytics.timestamp a) rows.

(** Three comments, the first and the last with the same id. *)
Definition plain_comment (id text : string) (time : Z) (reply : bool) : YouTubeComment :=
  {| comment_id := id; author := "Viewer"; text := text; likes := 1;
     timestamp := time; sentiment_score := 0%Q; sentiment_label := "neutral";
     reply_count := 0; is_reply := reply;
     parent_id := if reply then Some "a" else None |}.

Definition repeated_comments : list YouTubeComment :=
  [plain_comment "a" "first" 10 false; plain_comment "b" "second" 30 false;
   plain_comment "a" "edited" 20 false; plain_comment "c" "reply" 40 true].

(** A table that holds one comment of another video under id a. *)
Definition other_video_table : Database.table :=
  [{| Database.video_id := "other"; Database.comment := plain_comment "a" "old" 5 false |};
   {| Database.video_id := "other"; Database.comment := plain_comment "z" "kept" 6 false |}].

(** A score the analyzer can return. *)
Definition score_in_range (q : Q) : Prop := (-1 <= q <= 1)%Q.

(** The stored rows a query for a video reads. *)
Definition stored_for (video : string) (t : Database.table) : list Database.stored :=
  filter (Database.selected video) t.

(** A table with comments of two videos and a reply. *)
Definition mixed_table : Database.table :=
  [{| Database.video_id := "video"; Database.comment := plain_comment "a" "first" 10 false |};
   {| Database.video_id := "other"; Database.comment := plain_comment "b" "elsewhere" 50 false |};
   {| Database.video_id := "video"; Database.comment := plain_comment "c" "a reply" 40 true |};
   {| Database.video_id := "video"; Database.comment := plain_comment "d" "latest" 30 false |}].

(** The words the word-frequency analysis counts: the runs of word
    characters of the lowercased texts, joined by spaces. *)
Definition analytics_words (comments_data : list Analytics.row) : list string :=
  Analytics.findall_words
    (Text.lower (Analytics.join_spaces (map Analytics.text comments_data))).

(** How often a word occurs in a list. *)
Definition occurrences (word : string) (words : list string) : Z :=
  len (filter (fun k => (k =? word)%string) words).

(** A word character that is no uppercase letter. *)
Definition lower_word_char (c : ascii) : bool :=
  Text.is_word c && negb (Text.is_upper c).

(** Entries by decreasing count. *)
Definition by_count_desc (entries : Counter.t) : Prop :=
  StronglySorted (fun x y => snd y <= snd x) entries.

(** A value captured from a page for a key: not empty, made of
    characters of the class, and standing in the page between the
    quoted key with its colon and a closing quote. *)
Definition captured_from (key : string) (p : ascii -> bool) (html g : string) : Prop :=
  g <> "" /\ Urllib.forall_string p g = true /\
  Text.contains (PagePattern.opening key ++ g ++ String PagePattern.quote "") html = true.

(** A page that gives a title and a view count, and no like count. *)
Definition sample_page : string :=
  "{" ++ PagePattern.opening "title" ++ "Budget debate" ++ String PagePattern.quote ","
      ++ PagePattern.opening "viewCount" ++ "48213" ++ String PagePattern.quote "}".

(** ** Definitions used to state the properties of the application *)

(** The system with one of its parts replaced. *)
Definition with_world (w : world) (s : system) : system :=
  {| sys_world := w; sys_table := sys_table s; sys_network := sys_network s;
     sys_server := sys_server s; current_video_id := current_video_id s;
     is_monitoring := is_monitoring s; slept := slept s |}.

Definition with_table (t : Database.table) (s : system) : system :=
  {| sys_world := sys_world s; sys_table := t; sys_network := sys_network s;
     sys_server := sys_server s; current_video_id := current_video_id s;
     is_monitoring := is_monitoring s; slept := slept s |}.


(** What an operation leaves alone when it only scrapes, saves and
    computes: the connections, the server object and the sleeps. *)
Definition same_server_side (s s' : system) : Prop :=
  sys_network s' = sys_network s /\ sys_server s' = sys_server s /\
  current_video_id s' = current_video_id s /\ is_monitoring s' = is_monitoring s /\
  slept s' = slept s.



(** A system at rest: the sample server and connections, an empty
    table, nothing monitored. *)
Definition sample_system : system :=
  {| sys_world := middle_world; sys_table := []; sys_network := sample_network;
     sys_server := sample_server; current_video_id := None;
     is_monitoring := false; slept := [] |}.

(** Messages are serialized by their type only. *)
Definition sample_dumps (u : Update.update) : string :=
  match u with
  | Update.video_info _ => "video_info"
  | Update.new_comments _ => "new_comments"
  | Update.analytics_update _ => "analytics_update"
  end.



(** * Properties *)

(** ** Arithmetic helpers *)

Lemma sumZ_from (l : list Z) (a : Z) : fold_left Z.add l a = a + sumZ l.
Proof.
  unfold sumZ. revert a.
  induction l as [|x l IH]; intros a; cbn [fold_left].
  - lia.
  - rewrite (IH (a + x)), (IH (0 + x)). lia.
Qed.

Lemma sumZ_cons (x : Z) (l : list Z) : sumZ (x :: l) = x + sumZ l.
Proof. unfold sumZ at 1. cbn [fold_left]. apply sumZ_from. Qed.

Lemma sumZ_ones {A : Type} (l : list A) : sumZ (map (fun _ => 1) l) = len l.
Proof.
  unfold len.
  induction l as [|x l IH].
  - reflexivity.
  - cbn [map length]. rewrite sumZ_cons, IH. lia.
Qed.

Lemma sumQ_from (l : list Q) (a : Q) : (fold_left Qplus l a == a + sumQ l)%Q.
Proof.
  unfold sumQ. revert a.
  induction l as [|x l IH]; intros a; cbn [fold_left].
  - ring.
  - rewrite (IH (a + x)%Q), (IH (0 + x)%Q). ring.
Qed.

Lemma sumQ_cons (x : Q) (l : list Q) : (sumQ (x :: l) == x + sumQ l)%Q.
Proof. unfold sumQ at 1. cbn [fold_left]. rewrite sumQ_from. ring. Qed.

Lemma py_div_ok (a b : Q) : ~ (b == 0)%Q -> py_div a b = Ok (a / b)%Q.
Proof.
  intros Hb. unfold py_div.
  destruct (Qeq_bool b 0) eqn:E; [|reflexivity].
  apply Qeq_bool_eq in E. contradiction.
Qed.

Lemma inject_Z_nonzero (z : Z) : z <> 0 -> ~ (inject_Z z == 0)%Q.
Proof.
  intros Hz H. apply Hz.
  unfold Qeq in H. simpl in H. lia.
Qed.

Lemma py_div_Z (a : Q) (z : Z) : z <> 0 -> py_div a (inject_Z z) = Ok (a / inject_Z z)%Q.
Proof. intros Hz. apply py_div_ok, inject_Z_nonzero, Hz. Qed.

(** A quotient of integers [a / n] with [|a| <= n] lies in [[-1, 1]]. *)
Lemma ratio_bounds (a n : Z) :
  0 < n -> - n <= a <= n -> (-1 <= inject_Z a / inject_Z n <= 1)%Q.
Proof.
  intros Hn [Hlo Hhi].
  assert (Hpos : (0 < inject_Z n)%Q) by (change 0%Q with (inject_Z 0); rewrite <- Zlt_Qlt; exact Hn).
  split.
  - apply Qle_shift_div_l; [exact Hpos|].
    setoid_replace (-1 * inject_Z n)%Q with (inject_Z (- n)) by (rewrite inject_Z_opp; ring).
    rewrite <- Zle_Qle. exact Hlo.
  - apply Qle_shift_div_r; [exact Hpos|].
    rewrite Qmult_1_l, <- Zle_Qle. exact Hhi.
Qed.

(** ** SentimentAnalyzer *)

Section SentimentFacts.
Import SentimentAnalyzer.

Lemma count_in_len (keywords words : list string) :
  count_in keywords words = len (filter (fun word => Text.mem word keywords) words).
Proof. unfold count_in. apply sumZ_ones. Qed.

Lemma count_in_bounds (keywords words : list string) :
  0 <= count_in keywords words <= len words.
Proof.
  rewrite count_in_len. unfold len.
  pose proof (filter_length_le (fun word => Text.mem word keywords) words).
  lia.
Qed.

(** The guard on [total_words] makes the division safe, and the
    political score is a ratio in [[-1, 1]]. *)
Lemma political_sentiment_ok (text : string) :
  exists q, _calculate_political_sentiment text = Ok q /\ (-1 <= q <= 1)%Q.
Proof.
  unfold _calculate_political_sentiment.
  set (words := Text.split text).
  pose proof (count_in_bounds positive_keywords words) as Hp.
  pose proof (count_in_bounds negative_keywords words) as Hn.
  fold (len words).
  destruct (len words =? 0) eqn:E.
  - exists 0%Q. split; [reflexivity | lra].
  - apply Z.eqb_neq in E.
    eexists. split.
    + apply py_div_Z. exact E.
    + apply ratio_bounds; lia.
Qed.

Lemma keyword_score_positive (k : Z) :
  0 < k ->
  let s := Qmin (8 # 10) ((3 # 10) + inject_Z k * (1 # 10)) in
  (s == clamp (magnitude k))%Q /\ (0 < s <= 8 # 10)%Q.
Proof.
  intros Hk s. subst s. unfold clamp, magnitude.
  assert (Hq : (0 < inject_Z k)%Q)
    by (change 0%Q with (inject_Z 0); rewrite <- Zlt_Qlt; exact Hk).
  setoid_replace ((3 # 10) + inject_Z k * (1 # 10))%Q
    with ((3 # 10) + (1 # 10) * inject_Z k)%Q by ring.
  set (x := ((3 # 10) + (1 # 10) * inject_Z k)%Q).
  assert (Hx : (0 < x)%Q) by (subst x; lra).
  destruct (Q.min_spec (8 # 10) x) as [[_ E] | [_ E]]; rewrite !E.
  - split; [|lra]. rewrite Q.max_r; [reflexivity | lra].
  - split; [|split; [lra|]].
    + rewrite Q.max_r; [reflexivity | lra].
    + pose proof (Q.le_min_l (8 # 10) x) as L. rewrite E in L. exact L.
Qed.

Lemma keyword_score_negative (k : Z) :
  0 < k ->
  let s := Qmax (- (8 # 10)) (- (3 # 10) - inject_Z k * (1 # 10)) in
  (s == clamp (- magnitude k))%Q /\ (- (8 # 10) <= s < 0)%Q.
Proof.
  intros Hk s. subst s. unfold clamp, magnitude.
  assert (Hq : (0 < inject_Z k)%Q)
    by (change 0%Q with (inject_Z 0); rewrite <- Zlt_Qlt; exact Hk).
  setoid_replace (- (3 # 10) - inject_Z k * (1 # 10))%Q
    with (- ((3 # 10) + (1 # 10) * inject_Z k))%Q by ring.
  set (x := ((3 # 10) + (1 # 10) * inject_Z k)%Q).
  assert (Hx : (0 < x)%Q) by (subst x; lra).
  assert (Em : (Qmin (8 # 10) (- x) == - x)%Q) by (apply Q.min_r; lra).
  rewrite Em.
  split; [reflexivity|].
  destruct (Q.max_spec (- (8 # 10)) (- x)) as [[L E] | [L E]]; rewrite E; lra.
Qed.

(** What the keyword strategy returns on a (cleaned) text. *)
Lemma analyze_with_keywords_ok (text : string) :
  let p := count_in positive_keywords (Text.split text) in
  let n := count_in negative_keywords (Text.split text) in
  exists r, _analyze_with_keywords text = Ok r /\
    subjectivity r = (1 # 2)%Q /\
    confidence r = Qabs (score r) /\
    emotion r = _detect_emotion text /\
    (p = n -> label r = "neutral" /\ score r = 0%Q) /\
    (n < p -> label r = "positive" /\
              (score r == clamp (magnitude (p - n)))%Q /\ (0 < score r <= 8 # 10)%Q) /\
    (p < n -> label r = "negative" /\
              (score r == clamp (- magnitude (n - p)))%Q /\ (- (8 # 10) <= score r < 0)%Q).
Proof.
  intros p n. unfold _analyze_with_keywords.
  destruct (political_sentiment_ok text) as [ps [Hps _]].
  rewrite Hps. cbn [rbind]. fold p n.
  destruct (p >? n) eqn:Epn.
  - apply Z.gtb_lt in Epn.
    eexists. split; [reflexivity|]. cbn [score label subjectivity confidence emotion].
    repeat split; try reflexivity; intros; try lia;
      apply (keyword_score_positive (p - n)); lia.
  - destruct (n >? p) eqn:Enp.
    + apply Z.gtb_lt in Enp.
      eexists. split; [reflexivity|]. cbn [score label subjectivity confidence emotion].
      repeat split; try reflexivity; intros; try lia;
        apply (keyword_score_negative (n - p)); lia.
    + assert (p = n).
      { destruct (Z.gtb_spec p n); destruct (Z.gtb_spec n p); try discriminate; lia. }
      eexists. split; [reflexivity|]. cbn [score label subjectivity confidence emotion].
      repeat split; try reflexivity; intros; lia.
Qed.

(** What the TextBlob strategy returns, for a polarity in [[-1, 1]]. *)
Lemma analyze_with_textblob_ok (textblob_sentiment : string -> Q * Q) (text : string) :
  (-1 <= fst (textblob_sentiment text) <= 1)%Q ->
  exists r, _analyze_with_textblob textblob_sentiment text = Ok r /\
    valid_label (label r) /\
    (-1 <= score r <= 1)%Q /\
    confidence r = Qabs (score r).
Proof.
  intros Hpol. unfold _analyze_with_textblob.
  destruct (textblob_sentiment text) as [pol subj]. cbn [fst] in Hpol.
  destruct (political_sentiment_ok text) as [ps [Hps Hb]].
  rewrite Hps. cbn [rbind].
  rewrite py_div_ok by (intro H; discriminate H). cbn [rbind].
  eexists. split; [reflexivity|]. cbn [score label confidence].
  repeat split.
  - unfold valid_label.
    destruct (Qlt_le_dec (1 # 10) ((pol + ps) / 2)); [now left|].
    destruct (Qlt_le_dec ((pol + ps) / 2) (- (1 # 10))); [right; now left | right; now right].
  - apply Qle_shift_div_l; lra.
  - apply Qle_shift_div_r; lra.
Qed.

(** [analyze_sentiment] returns for every text under either strategy. *)
Lemma analyze_sentiment_ok (HAS_TEXTBLOB : bool) (textblob_sentiment : string -> Q * Q) :
  (HAS_TEXTBLOB = true -> forall t, (-1 <= fst (textblob_sentiment t) <= 1)%Q) ->
  forall text, exists r,
    analyze_sentiment HAS_TEXTBLOB textblob_sentiment text = Ok r /\
    valid_label (label r) /\
    (-1 <= score r <= 1)%Q /\
    confidence r = Qabs (score r).
Proof.
  intros Htb text. unfold analyze_sentiment.
  destruct HAS_TEXTBLOB.
  - apply analyze_with_textblob_ok, Htb. reflexivity.
  - destruct (analyze_with_keywords_ok (_clean_text text))
      as [r [Hr [_ [Hc [_ [Heq [Hpos Hneg]]]]]]].
    exists r. split; [exact Hr|].
    set (p := count_in positive_keywords (Text.split (_clean_text text))) in *.
    set (n := count_in negative_keywords (Text.split (_clean_text text))) in *.
    unfold valid_label.
    destruct (Z.lt_trichotomy p n) as [H | [H | H]].
    + destruct (Hneg H) as [Hl [_ Hs]]. rewrite Hl. repeat split; auto; lra.
    + destruct (Heq H) as [Hl Hs]. rewrite Hl. repeat split; auto; rewrite Hs; lra.
    + destruct (Hpos H) as [Hl [_ Hs]]. rewrite Hl. repeat split; auto; lra.
Qed.

End SentimentFacts.

(** C3. For every string, under the keyword strategy and under the
    TextBlob strategy (whose polarity lies in [[-1, 1]]),
    [analyze_sentiment] returns a result (it does not raise) whose label
    is positive, negative or neutral, whose score lies in [[-1, 1]] and
    whose confidence is the absolute value of the score. *)
Theorem analyze_sentiment_contract
  (HAS_TEXTBLOB : bool) (textblob_sentiment : string -> Q * Q)
  (polarity_range : HAS_TEXTBLOB = true ->
                    forall t, (-1 <= fst (textblob_sentiment t) <= 1)%Q)
  (text : string) :
  exists r,
    SentimentAnalyzer.analyze_sentiment HAS_TEXTBLOB textblob_sentiment text = Ok r /\
    In (label r) ["positive"; "negative"; "neutral"] /\
    (-1 <= score r <= 1)%Q /\
    confidence r = Qabs (score r).
Proof.
  destruct (analyze_sentiment_ok HAS_TEXTBLOB textblob_sentiment polarity_range text)
    as [r [Hr [Hl [Hs Hc]]]].
  exists r. repeat split; try assumption; try apply Hs.
  destruct Hl as [-> | [-> | ->]]; simpl; auto.
Qed.

(** The contract at the TextBlob strategy with a constant polarity, on
    a text with a keyword. *)
Lemma analyze_sentiment_contract_witness :
  (true = true -> forall t : string, (-1 <= fst ((1 # 2, 1 # 2)%Q) <= 1)%Q) /\
  exists r,
    SentimentAnalyzer.analyze_sentiment true (fun _ => (1 # 2, 1 # 2)%Q)
      "Great video, I love it!" = Ok r /\
    In (label r) ["positive"; "negative"; "neutral"] /\
    (-1 <= score r <= 1)%Q /\
    confidence r = Qabs (score r).
Proof.
  assert (H : true = true -> forall t : string, (-1 <= fst ((1 # 2, 1 # 2)%Q) <= 1)%Q).
  { intros _ _. simpl. split; discriminate. }
  split; [exact H|].
  exact (analyze_sentiment_contract true (fun _ => (1 # 2, 1 # 2)%Q) H "Great video, I love it!").
Defined.

(** C6. Under the keyword-only strategy, for every text: the result
    has subjectivity 0.5; with equal positive and negative hit counts
    (both zero included) the label is neutral and the score 0; with more
    positive hits the label is positive and the score 0.3 + 0.1 per unit
    of excess, clamped to [[-0.8, 0.8]]; with more negative hits the
    label is negative and the score is the negated magnitude, clamped. *)
Theorem lexical_only_scoring (textblob_sentiment : string -> Q * Q) (text : string) :
  exists r,
    SentimentAnalyzer.analyze_sentiment false textblob_sentiment text = Ok r /\
    (subjectivity r == 1 # 2)%Q /\
    (positive_hits text = negative_hits text ->
       label r = "neutral" /\ score r = 0%Q) /\
    (positive_hits text > negative_hits text ->
       label r = "positive" /\
       (score r == clamp (magnitude (positive_hits text - negative_hits text)))%Q) /\
    (positive_hits text < negative_hits text ->
       label r = "negative" /\
       (score r == clamp (- magnitude (negative_hits text - positive_hits text)))%Q).
Proof.
  unfold SentimentAnalyzer.analyze_sentiment, positive_hits, negative_hits.
  destruct (analyze_with_keywords_ok (SentimentAnalyzer._clean_text text))
    as [r [Hr [Hsub [_ [_ [Heq [Hpos Hneg]]]]]]].
  exists r. split; [exact Hr|].
  split; [rewrite Hsub; reflexivity|].
  split; [exact Heq|].
  split.
  - intros H. destruct Hpos as [Hl [Hs _]]; [lia | auto].
  - intros H. destruct Hneg as [Hl [Hs _]]; [lia | auto].
Qed.

(** The scenario of the specification: three negative hits give a
    negative label and the score -0.6; the empty text is neutral. *)
Example lexical_scenarios :
  (match SentimentAnalyzer.analyze_sentiment false (fun _ => (0, 0)%Q)
           "This is terrible and awful, total garbage" with
   | Ok r => label r = "negative" /\ (score r == - (6 # 10))%Q
   | Raise _ => False
   end) /\
  (match SentimentAnalyzer.analyze_sentiment false (fun _ => (0, 0)%Q) "" with
   | Ok r => label r = "neutral" /\ score r = 0%Q /\ emotion r = "neutral"
   | Raise _ => False
   end).
Proof. vm_compute. repeat split. Qed.

(** ** Emotion detection *)

Lemma prefix_iff (k s : string) :
  prefix k s = true <-> exists b, s = k ++ b.
Proof.
  revert s. induction k as [|c k IH]; intros s.
  - split; [intros _; now exists s | intros _; now destruct s].
  - destruct s as [|d s]; simpl.
    + split; [discriminate | intros [b H]; discriminate H].
    + destruct (ascii_dec c d) as [-> | Hcd].
      * rewrite IH. split; intros [b H]; exists b.
        -- now rewrite H.
        -- now inversion H.
      * split; [discriminate | intros [b H]; inversion H; congruence].
Qed.

(** [k in s] holds exactly when [s] is some text, then [k], then some text. *)
Lemma contains_iff (k s : string) :
  Text.contains k s = true <-> exists a b, s = a ++ k ++ b.
Proof.
  induction s as [|c s IH].
  - change (Text.contains k "") with (prefix k "" || false).
    rewrite orb_false_r, prefix_iff. split.
    + intros [b H]. now exists "", b.
    + intros [a [b H]]. destruct a; [now exists b | discriminate H].
  - change (Text.contains k (String c s))
      with (prefix k (String c s) || Text.contains k s).
    rewrite orb_true_iff, prefix_iff, IH. split.
    + intros [[b H] | [a [b H]]].
      * now exists "", b.
      * exists (String c a), b. simpl. now rewrite H.
    + intros [a [b H]]. destruct a as [|d a].
      * left. now exists b.
      * right. exists a, b. simpl in H. now inversion H.
Qed.

(** C9. For every text the detected emotion is that of the first of
    the five keyword sets, tried in the order anger, joy, fear, sadness,
    surprise, that has a keyword occurring in the text, and neutral when
    no set has one; a keyword matches when the text contains it. *)
Theorem detect_emotion_priority (text : string) :
  map fst SentimentAnalyzer.emotions = ["anger"; "joy"; "fear"; "sadness"; "surprise"] /\
  SentimentAnalyzer._detect_emotion text =
    (if matches "anger" text then "anger"
     else if matches "joy" text then "joy"
     else if matches "fear" text then "fear"
     else if matches "sadness" text then "sadness"
     else if matches "surprise" text then "surprise"
     else "neutral") /\
  (forall emotion,
     matches emotion text = true <->
     exists keyword, In keyword (keywords_of emotion) /\
                     exists a b, text = a ++ keyword ++ b).
Proof.
  split; [reflexivity|]. split; [reflexivity|].
  intros emotion. unfold matches, SentimentAnalyzer.any_keyword_in.
  rewrite existsb_exists.
  split; intros [keyword [Hin H]]; exists keyword; (split; [exact Hin|]);
    now apply contains_iff.
Qed.

(** Matching is by occurrence, not by word: "madam" matches anger. *)
Example detect_emotion_examples :
  SentimentAnalyzer._detect_emotion "so happy and so angry" = "anger" /\
  SentimentAnalyzer._detect_emotion "wow i am scared" = "fear" /\
  SentimentAnalyzer._detect_emotion "madam president" = "anger" /\
  SentimentAnalyzer._detect_emotion "" = "neutral".
Proof. repeat split. Qed.

(** ** Video-id extraction *)

Lemma getitem_missing (d : Urllib.qs_dict) (key : string) :
  ~ In key (map fst d) -> Urllib.getitem d key = Raise (KeyError key).
Proof.
  induction d as [|[k vs] d IH]; intros Hk; simpl.
  - reflexivity.
  - destruct (k =? key)%string eqn:E.
    + apply String.eqb_eq in E. exfalso. apply Hk. now left.
    + apply IH. intros H. apply Hk. now right.
Qed.

(** Outside the two recognised hosts the result is that of the
    pattern search: its group when it matches, [ValueError] otherwise. *)
Lemma extract_video_id_other_host (url : string) (parsed_url : Urllib.ParseResult) :
  Urllib.urlparse url = Ok parsed_url ->
  hostname_in (Urllib.hostname parsed_url) ["youtube.com"; "www.youtube.com"] = false ->
  hostname_in (Urllib.hostname parsed_url) ["youtu.be"] = false ->
  extract_video_id url =
    match VideoIdPattern.search url with
    | Some video_id => Ok video_id
    | None => Raise (ValueError ("Could not extract video ID from URL: " ++ url))
    end.
Proof.
  intros Hp Hy Hs. unfold extract_video_id.
  rewrite Hp. cbn [rbind]. rewrite Hy, Hs. reflexivity.
Qed.

(** C4. The three scenario URLs behave as stated: the watch form and
    the short-link form both give the id O6DTtVOPwEU, and the URL
    without an id raises [ValueError].  On a watch URL without a [v]
    parameter, where the pattern finds no id either, the function raises
    [KeyError], not [ValueError]. *)
Theorem extract_video_id_scenarios :
  extract_video_id "https://www.youtube.com/watch?v=O6DTtVOPwEU&ab_channel=X"
    = Ok "O6DTtVOPwEU" /\
  extract_video_id "https://youtu.be/O6DTtVOPwEU" = Ok "O6DTtVOPwEU" /\
  extract_video_id "https://example.com/no-id-here"
    = Raise (ValueError
        "Could not extract video ID from URL: https://example.com/no-id-here") /\
  VideoIdPattern.search "https://www.youtube.com/watch?feature=share" = None /\
  extract_video_id "https://www.youtube.com/watch?feature=share" = Raise (KeyError "v").
Proof. repeat split; vm_compute; reflexivity. Qed.

(** C10. For a URL whose host is youtube.com or www.youtube.com, whose
    path is exactly /watch and whose query has no [v] parameter,
    [extract_video_id] raises [KeyError] for the key v: it returns no
    id, whatever the pattern search would find, and it does not raise
    [ValueError]. *)
Theorem watch_without_v_raises_KeyError (url : string) (parsed_url : Urllib.ParseResult)
  (parsed : Urllib.urlparse url = Ok parsed_url)
  (host : hostname_in (Urllib.hostname parsed_url) ["youtube.com"; "www.youtube.com"] = true)
  (watch : Urllib.path parsed_url = "/watch")
  (no_v : ~ In "v" (map fst (Urllib.parse_qs (Urllib.query parsed_url)))) :
  extract_video_id url = Raise (KeyError "v") /\
  (forall video_id, extract_video_id url <> Ok video_id) /\
  (forall msg, extract_video_id url <> Raise (ValueError msg)).
Proof.
  assert (E : extract_video_id url = Raise (KeyError "v")).
  { unfold extract_video_id. rewrite parsed. cbn [rbind].
    rewrite host, watch. cbn [String.eqb Ascii.eqb Bool.eqb].
    rewrite (getitem_missing _ _ no_v). reflexivity. }
  rewrite E. repeat split; intros; discriminate.
Qed.

(** The watch URL without any query. *)
Lemma watch_without_v_raises_KeyError_witness :
  Urllib.urlparse bare_watch_url = Ok bare_watch_parsed /\
  extract_video_id bare_watch_url = Raise (KeyError "v").
Proof.
  assert (parsed : Urllib.urlparse bare_watch_url = Ok bare_watch_parsed)
    by (vm_compute; reflexivity).
  split; [exact parsed|].
  refine (proj1 (watch_without_v_raises_KeyError bare_watch_url bare_watch_parsed
                   parsed _ _ _)).
  - vm_compute; reflexivity.
  - reflexivity.
  - vm_compute. intros H; exact H.
Defined.

(** The lookup fails before the pattern is tried, also when the
    pattern would have found an id. *)
Example watch_without_v_shadowing :
  VideoIdPattern.search "https://www.youtube.com/watch?vv=O6DTtVOPwEU" = Some "O6DTtVOPwEU" /\
  extract_video_id "https://www.youtube.com/watch?vv=O6DTtVOPwEU" = Raise (KeyError "v") /\
  extract_video_id "https://www.youtube.com/watch?v=" = Raise (KeyError "v") /\
  extract_video_id "https://www.youtube.com/embed/O6DTtVOPwEU" = Ok "O6DTtVOPwEU".
Proof. repeat split; vm_compute; reflexivity. Qed.

(** ** Computations in [Eff] *)

Lemma ebind_ok {A B : Type} (m : Eff A) (k : A -> Eff B) (w w' : world) (a : A) :
  m w = (Ok a, w') -> ebind m k w = k a w'.
Proof. intros H. unfold ebind. now rewrite H. Qed.

(** A loop whose body always returns, returns too, with one result
    per element, related to it by whatever the body guarantees. *)
Lemma for_each_ok {A B : Type} (body : A -> Eff B) (P : A -> B -> Prop) (xs : list A) :
  (forall x w, In x xs -> exists y w', body x w = (Ok y, w') /\ P x y) ->
  forall w, exists ys w', for_each body xs w = (Ok ys, w') /\ Forall2 P xs ys.
Proof.
  induction xs as [|x xs IH]; intros Hbody w.
  - exists [], w. split; [reflexivity | constructor].
  - destruct (Hbody x w (or_introl eq_refl)) as (y & w1 & Hy & Py).
    destruct (IH (fun x' w' H => Hbody x' w' (or_intror H)) w1) as (ys & w2 & Hys & Pys).
    exists (y :: ys), w2. split.
    + cbn [for_each]. rewrite (ebind_ok _ _ _ _ _ Hy), (ebind_ok _ _ _ _ _ Hys).
      reflexivity.
    + now constructor.
Qed.

Lemma for_each_result_ok {A B : Type} (body : A -> result B) (P : A -> B -> Prop)
      (xs : list A) :
  (forall x, In x xs -> exists y, body x = Ok y /\ P x y) ->
  exists ys, for_each_result body xs = Ok ys /\ Forall2 P xs ys.
Proof.
  induction xs as [|x xs IH]; intros Hbody.
  - exists []. split; [reflexivity | constructor].
  - destruct (Hbody x (or_introl eq_refl)) as (y & Hy & Py).
    destruct (IH (fun x' H => Hbody x' (or_intror H))) as (ys & Hys & Pys).
    exists (y :: ys). split.
    + cbn [for_each_result]. rewrite Hy. cbn [rbind]. rewrite Hys. reflexivity.
    + now constructor.
Qed.

Lemma Forall2_seq_nth {B : Type} (P : nat -> B -> Prop) (n a : nat) (l : list B) :
  Forall2 P (seq a n) l ->
  length l = n /\ forall i y, nth_error l i = Some y -> P (a + i)%nat y.
Proof.
  revert a l. induction n as [|n IH]; intros a l H; cbn [seq] in H.
  - inversion H; subst. split; [reflexivity|]. intros [|i] y Hy; discriminate Hy.
  - inversion H as [|x y xs ys Pxy Hrest]; subst.
    destruct (IH _ _ Hrest) as [Hlen Hnth].
    split; [cbn [length]; now rewrite Hlen|].
    intros [|i] c Hc; cbn [nth_error] in Hc.
    + inversion Hc; subst. now rewrite Nat.add_0_r.
    + replace (a + S i)%nat with (S a + i)%nat by lia. now apply Hnth.
Qed.

Lemma randint_ok (a b : Z) (w : world) :
  exists w', Random.randint a b w = (Ok (a + Z.of_N (source w (cursor w)) mod (b - a + 1)), w').
Proof. eexists. reflexivity. Qed.

Lemma randint_range (a b : Z) (w w' : world) (x : Z) :
  a <= b -> Random.randint a b w = (Ok x, w') -> a <= x <= b.
Proof.
  intros Hab H. unfold Random.randint, ebind, Random.draw, eret in H.
  inversion H; subst.
  pose proof (Z.mod_pos_bound (Z.of_N (source w (cursor w))) (b - a + 1)). lia.
Qed.

(** [random.choice] on a non-empty list returns one of its elements. *)
Lemma choice_ok {A : Type} (l : list A) (w : world) :
  l <> [] -> exists x w', Random.choice l w = (Ok x, w') /\ In x l.
Proof.
  intros Hl. unfold Random.choice, ebind, Random.draw, lift.
  assert (Hlen : (0 < length l)%nat) by (destruct l; [contradiction | simpl; lia]).
  pose proof (N.mod_upper_bound (source w (cursor w)) (N.of_nat (length l)) ltac:(lia)) as Hlt.
  destruct (nth_error l (N.to_nat (source w (cursor w) mod N.of_nat (length l))))
    as [x|] eqn:E.
  - exists x. eexists. split; [reflexivity|]. eapply nth_error_In, E.
  - apply nth_error_None in E. lia.
Qed.

(** ** Comment acquisition *)

Section ScraperFacts.

Variable HAS_TEXTBLOB : bool.
Variable HAS_YOUTUBE_API : bool.
Variable HAS_SELENIUM : bool.
Variable textblob_sentiment : string -> Q * Q.
Variable api_key : option string.
Variable commentThreads_list : string -> Z -> result Api.request.

Hypothesis polarity_range :
  HAS_TEXTBLOB = true -> forall t, (-1 <= fst (textblob_sentiment t) <= 1)%Q.

Let analyze := Scraper.analyze HAS_TEXTBLOB textblob_sentiment.
Let base_comment := Scraper.base_comment HAS_TEXTBLOB textblob_sentiment.
Let template_comment := Scraper.template_comment HAS_TEXTBLOB textblob_sentiment.
Let generate := Scraper._generate_mock_comments HAS_TEXTBLOB textblob_sentiment.

Lemma analyze_total (text : string) :
  exists r, analyze text = Ok r /\ valid_label (label r) /\ (-1 <= score r <= 1)%Q.
Proof.
  destruct (analyze_sentiment_ok HAS_TEXTBLOB textblob_sentiment polarity_range text)
    as [r [Hr [Hl [Hs _]]]].
  now exists r.
Qed.

Lemma base_comment_ok (video_id : string) (i : nat) (w : world) :
  (i < length MockData.political_comments)%nat ->
  exists c w',
    base_comment video_id i w = (Ok c, w') /\ curated_at video_id i c /\ well_scored c.
Proof.
  intros Hi.
  destruct (nth_error MockData.political_comments i) as [t|] eqn:Et;
    [|apply nth_error_None in Et; lia].
  destruct (analyze_total t) as [r [Hr Hwell]].
  unfold base_comment, Scraper.base_comment.
  rewrite (ebind_ok _ _ w w t) by (unfold lift; now rewrite Et).
  rewrite (ebind_ok _ _ w w r) by (unfold lift; fold analyze; now rewrite Hr).
  eexists. eexists. split; [reflexivity|].
  unfold curated_at, well_scored.
  cbn [comment_id author text sentiment_label sentiment_score]. auto.
Qed.

Lemma choose_fillers_ok (w : world) :
  exists f w', Scraper.choose_fillers w = (Ok f, w').
Proof.
  unfold Scraper.choose_fillers.
  repeat match goal with
  | |- exists f w', ebind (Random.choice ?l) _ ?w0 = _ =>
      let x := fresh "x" in let w1 := fresh "w" in let H := fresh "H" in
      destruct (choice_ok l w0 ltac:(discriminate)) as (x & w1 & H & _);
      rewrite (ebind_ok _ _ _ _ _ H)
  end.
  eexists. eexists. reflexivity.
Qed.

Lemma template_comment_ok (video_id : string) (base : nat) (i : nat) (w : world) :
  exists c w',
    template_comment video_id (Z.of_nat base) i w = (Ok c, w') /\
    templated_at video_id (base + i) c /\ well_scored c.
Proof.
  unfold template_comment, Scraper.template_comment.
  destruct (choice_ok MockData.comment_templates w ltac:(discriminate))
    as (template & w1 & Ht & Hin).
  rewrite (ebind_ok _ _ _ _ _ Ht).
  destruct (choose_fillers_ok w1) as (f & w2 & Hf).
  rewrite (ebind_ok _ _ _ _ _ Hf).
  destruct (analyze_total (template f)) as [r [Hr Hwell]].
  rewrite (ebind_ok _ _ w2 w2 r) by (unfold lift; fold analyze; now rewrite Hr).
  eexists. eexists. split; [reflexivity|].
  unfold templated_at, well_scored.
  cbn [comment_id text sentiment_label sentiment_score].
  split; [split|exact Hwell].
  - unfold Text.of_nat. now rewrite Nat2Z.inj_add.
  - now exists template, f.
Qed.

(** The mock generator returns: first the curated comments, as many as
    the table and [max_comments] allow, then the templated ones that
    fill up to [max_comments]. *)
Lemma generate_mock_comments_ok (video_id : string) (max_comments : Z) (w : world) :
  exists curated templated w',
    generate video_id max_comments w = (Ok (curated ++ templated)%list, w') /\
    len curated = Z.max 0 (Z.min 30 max_comments) /\
    len (curated ++ templated)%list = Z.max 0 max_comments /\
    (forall i c, nth_error curated i = Some c -> curated_at video_id i c) /\
    (forall i c, nth_error templated i = Some c ->
                 templated_at video_id (length curated + i) c) /\
    Forall well_scored (curated ++ templated)%list.
Proof.
  unfold generate, Scraper._generate_mock_comments.
  change (len MockData.political_comments) with 30.
  set (base := Z.min 30 max_comments).
  destruct (for_each_ok (base_comment video_id)
              (fun i c => curated_at video_id i c /\ well_scored c) (range base)) with (w := w)
    as (curated & w1 & Hc & Pc).
  { intros i w0 Hi. apply base_comment_ok.
    unfold range in Hi. apply in_seq in Hi. change (length MockData.political_comments) with 30%nat.
    subst base. lia. }
  fold base_comment. rewrite (ebind_ok _ _ _ _ _ Hc).
  apply Forall2_seq_nth in Pc. destruct Pc as [Lc Nc].
  assert (Hlen : len curated = Z.max 0 base) by (unfold len; rewrite Lc; lia).
  destruct (for_each_ok (template_comment video_id base)
              (fun i c => templated_at video_id (length curated + i) c /\ well_scored c)
              (range (max_comments - len curated))) with (w := w1)
    as (templated & w2 & Ht & Pt).
  { intros i w0 Hi.
    unfold range in Hi. apply in_seq in Hi.
    assert (Hb : base = Z.of_nat (length curated))
      by (unfold len in *; subst base; lia).
    rewrite Hb. apply template_comment_ok. }
  fold template_comment. rewrite (ebind_ok _ _ _ _ _ Ht).
  apply Forall2_seq_nth in Pt. destruct Pt as [Lt Nt].
  assert (Htot : len (curated ++ templated)%list = Z.max 0 max_comments).
  { unfold len in *. rewrite length_app, Lt. subst base. lia. }
  exists curated, templated, w2. split.
  - unfold eret. f_equal. f_equal. unfold slice_to.
    destruct (max_comments <? 0) eqn:E.
    + apply Z.ltb_lt in E.
      assert (length (curated ++ templated)%list = 0%nat) by (unfold len in Htot; lia).
      destruct (curated ++ templated)%list; [now rewrite firstn_nil | discriminate].
    + apply Z.ltb_ge in E. apply firstn_all2. unfold len in Htot. lia.
  - split; [subst base; exact Hlen|]. split; [exact Htot|]. split; [|split].
    + intros i c H. exact (proj1 (Nc i c H)).
    + intros i c H. exact (proj1 (Nt i c H)).
    + apply Forall_app. split; apply Forall_forall; intros c Hin;
        apply In_nth_error in Hin; destruct Hin as [i Hi].
      * exact (proj2 (Nc i c Hi)).
      * exact (proj2 (Nt i c Hi)).
Qed.

Lemma curated_texts_prefix (video_id : string) (table : list string)
      (l : list YouTubeComment) (a : nat) :
  (forall i c, nth_error l i = Some c -> nth_error table (a + i) = Some (text c)) ->
  map text l = firstn (length l) (skipn a table).
Proof.
  revert a. induction l as [|c l IH]; intros a H.
  - reflexivity.
  - pose proof (H 0%nat c eq_refl) as H0. rewrite Nat.add_0_r in H0.
    assert (Hs : skipn a table = text c :: skipn (S a) table).
    { clear - H0. revert a H0. induction table as [|t table IHt]; intros [|a] H0;
        cbn [nth_error] in H0; try discriminate.
      - now inversion H0.
      - cbn [skipn]. rewrite (IHt a H0). reflexivity. }
    rewrite Hs. cbn [map length firstn]. f_equal.
    apply IH. intros i c' Hi.
    replace (S a + i)%nat with (a + S i)%nat by lia. now apply H.
Qed.

Lemma slice_to_bound {A : Type} (k : Z) (l : list A) :
  0 <= k -> len (slice_to k l) <= k.
Proof.
  intros Hk. unfold slice_to, len.
  destruct (k <? 0) eqn:E; [apply Z.ltb_lt in E; lia|].
  pose proof (firstn_le_length (Z.to_nat k) l).
  rewrite length_firstn. lia.
Qed.

Lemma scrape_comments_api_bound (video_id : string) (max_comments : Z)
      (comments : list YouTubeComment) :
  0 <= max_comments ->
  Scraper._scrape_comments_api HAS_TEXTBLOB textblob_sentiment commentThreads_list
    video_id max_comments = Ok comments ->
  len comments <= max_comments.
Proof.
  intros Hk. unfold Scraper._scrape_comments_api.
  destruct (commentThreads_list _ _) as [request|e]; cbn [rbind]; [|discriminate].
  destruct (Scraper.api_pages _ _ _ _ _) as [cs|e]; cbn [rbind]; intros H; inversion H.
  now apply slice_to_bound.
Qed.

Lemma thread_comments_well_scored (item : Api.thread) (cs : list YouTubeComment) :
  Scraper.thread_comments HAS_TEXTBLOB textblob_sentiment item = Ok cs ->
  Forall well_scored cs.
Proof.
  unfold Scraper.thread_comments. fold analyze.
  destruct (analyze_total (Api.textDisplay (Api.topLevelComment item))) as [r [Hr Hwell]].
  rewrite Hr. cbn [rbind].
  set (comment := {| comment_id := Api.id (Api.topLevelComment item);
                     author := _; text := _; likes := _; timestamp := _;
                     sentiment_score := score r; sentiment_label := label r;
                     reply_count := _; is_reply := false; parent_id := None |}).
  assert (Hreplies : forall rs,
    exists replies,
      for_each_result
        (Scraper.reply_comment HAS_TEXTBLOB textblob_sentiment comment) rs = Ok replies /\
      Forall well_scored replies).
  { intros rs.
    destruct (for_each_result_ok
                (Scraper.reply_comment HAS_TEXTBLOB textblob_sentiment comment)
                (fun _ c => well_scored c) rs) as (replies & Hok & F).
    - intros reply_data _. unfold Scraper.reply_comment. fold analyze.
      destruct (analyze_total (Api.textDisplay reply_data)) as [r' [Hr' Hwell']].
      rewrite Hr'. cbn [rbind]. eexists. split; [reflexivity | exact Hwell'].
    - exists replies. split; [exact Hok|].
      clear Hok. induction F; constructor; auto. }
  destruct (Api.replies item) as [rs|].
  - destruct (Hreplies rs) as (replies & Hok & F). rewrite Hok. cbn [rbind].
    intros H. inversion H; subst. constructor; [exact Hwell | exact F].
  - cbn [rbind]. intros H. inversion H; subst. constructor; [exact Hwell | constructor].
Qed.

Lemma api_pages_well_scored (request : Api.request) (max_comments : Z)
      (acc comments : list YouTubeComment) :
  Forall well_scored acc ->
  Scraper.api_pages HAS_TEXTBLOB textblob_sentiment request max_comments acc = Ok comments ->
  Forall well_scored comments.
Proof.
  revert acc. induction request as [|e|items next IH]; intros acc Hacc; cbn [Scraper.api_pages].
  - intros H. now inversion H; subst.
  - destruct (len acc <? max_comments); intros H; [discriminate | now inversion H; subst].
  - destruct (len acc <? max_comments); [|intros H; now inversion H; subst].
    assert (Hpage : forall acc' cs,
      Forall well_scored acc' ->
      Scraper.page_comments HAS_TEXTBLOB textblob_sentiment items acc' = Ok cs ->
      Forall well_scored cs).
    { clear IH. induction items as [|item items IHi]; intros acc' cs Hacc';
        cbn [Scraper.page_comments].
      - intros H. now inversion H; subst.
      - destruct (Scraper.thread_comments HAS_TEXTBLOB textblob_sentiment item)
          as [tc|e] eqn:Et; cbn [rbind]; [|discriminate].
        apply IHi. apply Forall_app. split; [exact Hacc'|].
        eapply thread_comments_well_scored, Et. }
    destruct (Scraper.page_comments HAS_TEXTBLOB textblob_sentiment items acc)
      as [cs|e] eqn:Ep; cbn [rbind]; [|discriminate].
    apply IH. eapply Hpage; eauto.
Qed.

Lemma Forall_slice_to {A : Type} (P : A -> Prop) (k : Z) (l : list A) :
  Forall P l -> Forall P (slice_to k l).
Proof.
  intros H. unfold slice_to.
  assert (G : forall n, Forall P (firstn n l)).
  { intros n. revert l H. induction n as [|n IH]; intros l H; cbn [firstn].
    - constructor.
    - destruct H; constructor; auto. }
  destruct (k <? 0); apply G.
Qed.

(** Every comment [scrape_comments] returns, from whichever tier,
    carries a label and a score the analyzer can return. *)
Lemma scrape_comments_well_scored (video_id : string) (max_comments : Z) (w w' : world)
      (comments : list YouTubeComment) :
  Scraper.scrape_comments HAS_TEXTBLOB HAS_YOUTUBE_API HAS_SELENIUM
    textblob_sentiment api_key commentThreads_list video_id max_comments w
    = (Ok comments, w') ->
  Forall well_scored comments.
Proof.
  destruct (generate_mock_comments_ok video_id max_comments) with (w := w)
    as (curated & templated & w1 & Hg & _ & _ & _ & _ & Hwell).
  assert (Hafter : forall cs w2,
    (if HAS_SELENIUM
     then Scraper.try_return
            (Scraper._scrape_comments_selenium HAS_TEXTBLOB textblob_sentiment
               video_id max_comments)
            (generate video_id max_comments)
     else generate video_id max_comments) w = (Ok cs, w2) ->
    Forall well_scored cs).
  { intros cs w2. destruct HAS_SELENIUM.
    - unfold Scraper.try_return, Scraper._scrape_comments_selenium.
      fold generate. rewrite Hg. intros H. now inversion H; subst.
    - rewrite Hg. intros H. now inversion H; subst. }
  unfold Scraper.scrape_comments. fold generate.
  destruct (Scraper.api_key_set api_key && HAS_YOUTUBE_API); [|apply Hafter].
  unfold Scraper.try_return at 1. unfold lift at 1.
  destruct (Scraper._scrape_comments_api _ _ _ _ _) as [cs|e] eqn:Ea; [|apply Hafter].
  intros H. inversion H; subst. clear H.
  unfold Scraper._scrape_comments_api in Ea.
  destruct (commentThreads_list _ _) as [request|e]; cbn [rbind] in Ea; [|discriminate].
  destruct (Scraper.api_pages _ _ _ _ _) as [all|e] eqn:Ep; cbn [rbind] in Ea; [|discriminate].
  inversion Ea; subst. apply Forall_slice_to.
  eapply api_pages_well_scored; [|exact Ep]. constructor.
Qed.

(** C5. For every video id and every count [max_count], in every
    world, [scrape_comments] returns, and returns at most [max_count]
    comments.  When the API tier is not available the result is that of
    the mock generator: exactly [max_count] comments (the templates
    supply any number, so the minimum of [max_count] and what is
    available is [max_count]), the first [min(30, max_count)] of them
    the curated comments in table order, the others built from
    templates, each at the position of its generation index. *)
Theorem scrape_comments_count (video_id : string) (max_count : nat) (w : world) :
  exists comments w',
    Scraper.scrape_comments HAS_TEXTBLOB HAS_YOUTUBE_API HAS_SELENIUM
      textblob_sentiment api_key commentThreads_list video_id (Z.of_nat max_count) w
      = (Ok comments, w') /\
    (length comments <= max_count)%nat /\
    (Scraper.api_key_set api_key && HAS_YOUTUBE_API = false ->
     length comments = max_count /\
     exists curated templated,
       comments = (curated ++ templated)%list /\
       length curated = Nat.min 30 max_count /\
       map text curated = firstn (length curated) MockData.political_comments /\
       (forall i c, nth_error curated i = Some c -> curated_at video_id i c) /\
       (forall i c, nth_error templated i = Some c ->
                    templated_at video_id (length curated + i) c)).
Proof.
  set (max_comments := Z.of_nat max_count).
  assert (count : 0 <= max_comments) by (subst max_comments; lia).
  destruct (generate_mock_comments_ok video_id max_comments) with (w := w)
    as (curated & templated & w1 & Hg & Lc & Lt & Nc & Nt & _).
  rewrite Z.max_r in Lt by lia. rewrite Z.max_r in Lc by lia.
  assert (Hafter :
    (if HAS_SELENIUM
     then Scraper.try_return
            (Scraper._scrape_comments_selenium HAS_TEXTBLOB textblob_sentiment
               video_id max_comments)
            (generate video_id max_comments)
     else generate video_id max_comments) w = (Ok (curated ++ templated)%list, w1)).
  { destruct HAS_SELENIUM; [|exact Hg].
    unfold Scraper.try_return, Scraper._scrape_comments_selenium.
    fold generate. now rewrite Hg. }
  assert (Hmock :
    length (curated ++ templated)%list = max_count /\
    exists c t,
      (curated ++ templated)%list = (c ++ t)%list /\
      length c = Nat.min 30 max_count /\
      map text c = firstn (length c) MockData.political_comments /\
      (forall i x, nth_error c i = Some x -> curated_at video_id i x) /\
      (forall i x, nth_error t i = Some x -> templated_at video_id (length c + i) x)).
  { split; [unfold len in Lt; subst max_comments; lia|]. exists curated, templated.
    split; [reflexivity|]. split; [unfold len in Lc; subst max_comments; lia|].
    split; [|split; [exact Nc | exact Nt]].
    apply (curated_texts_prefix video_id MockData.political_comments curated 0).
    intros i c Hi. apply (Nc i c Hi). }
  unfold Scraper.scrape_comments. fold generate.
  destruct (Scraper.api_key_set api_key && HAS_YOUTUBE_API) eqn:Eapi.
  - unfold Scraper.try_return at 1. unfold lift at 1.
    destruct (Scraper._scrape_comments_api _ _ _ _ _) as [cs|e] eqn:Ea.
    + exists cs, w. split; [reflexivity|]. split.
      * pose proof (scrape_comments_api_bound _ _ _ count Ea) as B.
        unfold len in B. subst max_comments. lia.
      * intros H; discriminate H.
    + exists (curated ++ templated)%list, w1. split; [exact Hafter|].
      split; [destruct Hmock as [E _]; lia|].
      intros _. exact Hmock.
  - exists (curated ++ templated)%list, w1. split; [exact Hafter|].
    split; [destruct Hmock as [E _]; lia|].
    intros _. exact Hmock.
Qed.

End ScraperFacts.

(** With the API tier: two of the three comments of the first page are
    kept, the reply flattened after its parent; when five are asked for,
    the request for the second page fails and the mock tier answers. *)
Example scrape_comments_api_examples :
  (match fst (Scraper.scrape_comments false true false (fun _ => (0, 0)%Q) (Some "key")
                sample_api "vid" 2 still_world) with
   | Ok comments =>
       map comment_id comments = ["t1"; "r1"] /\
       map is_reply comments = [false; true] /\
       map parent_id comments = [None; Some "t1"] /\
       map sentiment_label comments = ["positive"; "negative"]
   | Raise _ => False
   end) /\
  (match fst (Scraper.scrape_comments false true false (fun _ => (0, 0)%Q) (Some "key")
                sample_api "vid" 5 still_world) with
   | Ok comments =>
       map comment_id comments
       = ["mock_vid_0"; "mock_vid_1"; "mock_vid_2"; "mock_vid_3"; "mock_vid_4"]
   | Raise _ => False
   end).
Proof. vm_compute. repeat split. Qed.

(** Fifty comments, without any real tier, under the TextBlob
    strategy with a constant polarity. *)
Lemma scrape_comments_count_witness :
  (true = true -> forall t : string, (-1 <= fst ((1 # 2, 1 # 2)%Q) <= 1)%Q) /\
  exists comments w',
    Scraper.scrape_comments true false false (fun _ => (1 # 2, 1 # 2)%Q) None
      (fun _ _ => Raise ApiError) "O6DTtVOPwEU" (Z.of_nat 50) still_world
      = (Ok comments, w') /\
    length comments = 50%nat.
Proof.
  assert (polarity_range :
    true = true -> forall t : string, (-1 <= fst ((1 # 2, 1 # 2)%Q) <= 1)%Q)
    by (intros _ _; simpl; split; discriminate).
  split; [exact polarity_range|].
  destruct (scrape_comments_count true false false (fun _ => (1 # 2, 1 # 2)%Q) None
              (fun _ _ => Raise ApiError) polarity_range "O6DTtVOPwEU" 50%nat still_world)
    as (comments & w' & H & _ & Hmock).
  exists comments, w'. split; [exact H|]. apply Hmock. reflexivity.
Defined.

(** Three mock comments: the curated texts in table order; thirty-two:
    the last two come from templates.  A negative count gives none. *)
Example scrape_comments_examples :
  (match fst (Scraper.scrape_comments false false false (fun _ => (0, 0)%Q) None
                (fun _ _ => Raise ApiError) "vid" 3 still_world) with
   | Ok comments =>
       map text comments = firstn 3 MockData.political_comments /\
       map comment_id comments = ["mock_vid_0"; "mock_vid_1"; "mock_vid_2"]
   | Raise _ => False
   end) /\
  (match fst (Scraper.scrape_comments false false false (fun _ => (0, 0)%Q) None
                (fun _ _ => Raise ApiError) "vid" 32 still_world) with
   | Ok comments =>
       map comment_id (skipn 29 comments) = ["mock_vid_29"; "mock_vid_30"; "mock_vid_31"] /\
       map text (skipn 30 comments)
       = ["As a teacher, I find this analysis very insightful.";
          "As a teacher, I find this analysis very insightful."]
   | Raise _ => False
   end) /\
  fst (Scraper.scrape_comments false false false (fun _ => (0, 0)%Q) None
         (fun _ _ => Raise ApiError) "vid" (-1) still_world) = Ok [].
Proof. vm_compute. repeat split. Qed.

(** ** Analytics: the time trend *)

Lemma Forall2_map_seq_nth {B : Type} (f : nat -> nat) (P : nat -> B -> Prop)
      (n : nat) (l : list B) :
  Forall2 P (map f (seq 0 n)) l ->
  length l = n /\ forall k, (k < n)%nat -> exists y, nth_error l k = Some y /\ P (f k) y.
Proof.
  intros H.
  assert (G : forall a, Forall2 P (map f (seq a n)) l ->
            length l = n /\
            forall k, (k < n)%nat -> exists y, nth_error l k = Some y /\ P (f (a + k)%nat) y).
  { clear H. revert l. induction n as [|n IH]; intros l a H; cbn [seq map] in H.
    - inversion H; subst. split; [reflexivity | intros k Hk; lia].
    - inversion H as [|x y xs ys Pxy Hrest]; subst.
      destruct (IH _ _ Hrest) as [Hlen Hnth].
      split; [cbn [length]; now rewrite Hlen|].
      intros [|k] Hk.
      + exists y. rewrite Nat.add_0_r. now split.
      + destruct (Hnth k ltac:(lia)) as (z & Hz & Pz).
        exists z. replace (a + S k)%nat with (S a + k)%nat by lia. now split. }
  exact (G 0%nat H).
Qed.

(** The number of start indices, for a set of [n >= 1] comments. *)
Lemma bucket_count_facts (n : nat) :
  (1 <= n)%nat ->
  let step := Nat.max 1 (n / 10) in
  let count := ((n + step - 1) / step)%nat in
  (1 <= count <= 19)%nat /\
  (n < 20 -> count = n)%nat /\
  (n mod 10 = 0 -> count = 10)%nat /\
  (forall k, k < count -> k * step < n)%nat.
Proof.
  intros Hn step count.
  assert (Hs : (1 <= step)%nat) by (subst step; lia).
  pose proof (Nat.div_mod_eq (n + step - 1) step) as E.
  pose proof (Nat.mod_upper_bound (n + step - 1) step ltac:(lia)) as R.
  fold count in E.
  set (r := ((n + step - 1) mod step)%nat) in *.
  pose proof (Nat.div_mod_eq n 10) as E10.
  pose proof (Nat.mod_upper_bound n 10 ltac:(lia)) as R10.
  assert (Hstep : (step = 1 /\ n < 20 \/ step = n / 10 /\ 10 <= n)%nat) by (subst step; lia).
  repeat split.
  - nia.
  - destruct Hstep as [[S1 _] | [S1 _]]; rewrite S1 in *; nia.
  - intros Hlt.
    assert (S1 : step = 1%nat) by (subst step; lia).
    subst count. rewrite S1. rewrite Nat.div_1_r. lia.
  - intros Hm. rewrite Hm in E10.
    destruct Hstep as [[S1 Hlt] | [S1 Hge]].
    + assert (n = 10)%nat by lia. subst n. subst count. rewrite S1. reflexivity.
    + rewrite <- S1 in E10. nia.
  - intros k Hk. nia.
Qed.

Lemma skipn_nth_head {A : Type} (l : list A) (i : nat) (x : A) :
  nth_error l i = Some x -> exists rest, skipn i l = x :: rest.
Proof.
  revert i. induction l as [|y l IH]; intros [|i] H; cbn [nth_error] in H; try discriminate.
  - inversion H; subst. now exists l.
  - cbn [skipn]. now apply IH.
Qed.

(** The body of the trend loop returns at every start index below the
    number of comments. *)
Lemma trend_point_ok (comments_data : list Analytics.row) (i : nat) :
  (i < length comments_data)%nat ->
  exists head p,
    nth_error comments_data i = Some head /\
    Analytics.trend_point comments_data i = Ok p /\
    Analytics.Trend.timestamp p = Analytics.timestamp head /\
    Analytics.Trend.sentiment p =
      (sumQ (map Analytics.sentiment_score (slice i (i + 10) comments_data))
       / inject_Z (len (slice i (i + 10) comments_data)))%Q /\
    (1 <= len (slice i (i + 10) comments_data) <= 10).
Proof.
  intros Hi.
  destruct (nth_error comments_data i) as [head|] eqn:Eh;
    [|apply nth_error_None in Eh; lia].
  destruct (skipn_nth_head _ _ _ Eh) as [rest Hskip].
  unfold Analytics.trend_point.
  assert (Hb : slice i (i + 10) comments_data = head :: firstn 9 rest).
  { unfold slice. replace (i + 10 - i)%nat with 10%nat by lia. now rewrite Hskip. }
  rewrite Hb.
  assert (Hlen : 1 <= len (head :: firstn 9 rest) <= 10).
  { unfold len. cbn [length]. rewrite length_firstn. lia. }
  rewrite py_div_Z by lia. cbn [rbind Urllib.first].
  exists head. eexists. repeat split; try reflexivity; lia.
Qed.

(** The trend of a non-empty comment set: one point per start index
    [k * step], carrying the timestamp of the comment there and the mean
    score of the up to ten comments from there on. *)
Lemma trend_ok (comments_data : list Analytics.row) :
  comments_data <> [] ->
  let n := length comments_data in
  let step := Nat.max 1 (n / 10) in
  exists pts,
    Analytics.trend comments_data = Ok pts /\
    length pts = ((n + step - 1) / step)%nat /\
    forall k, (k < length pts)%nat ->
      exists head p,
        nth_error comments_data (k * step) = Some head /\
        nth_error pts k = Some p /\
        Analytics.Trend.timestamp p = Analytics.timestamp head /\
        Analytics.Trend.sentiment p =
          (sumQ (map Analytics.sentiment_score
                     (slice (k * step) (k * step + 10) comments_data))
           / inject_Z (len (slice (k * step) (k * step + 10) comments_data)))%Q /\
        (1 <= len (slice (k * step) (k * step + 10) comments_data) <= 10).
Proof.
  intros Hne n step.
  assert (Hn : (1 <= n)%nat) by (subst n; destruct comments_data; [contradiction | simpl; lia]).
  destruct (bucket_count_facts n Hn) as (_ & _ & _ & Hidx). fold step in Hidx.
  unfold Analytics.trend. fold n. fold step. unfold range_step.
  set (count := ((n + step - 1) / step)%nat) in *.
  destruct (for_each_result_ok (Analytics.trend_point comments_data)
    (fun i p => exists head,
       nth_error comments_data i = Some head /\
       Analytics.Trend.timestamp p = Analytics.timestamp head /\
       Analytics.Trend.sentiment p =
         (sumQ (map Analytics.sentiment_score (slice i (i + 10) comments_data))
          / inject_Z (len (slice i (i + 10) comments_data)))%Q /\
       (1 <= len (slice i (i + 10) comments_data) <= 10))
    (map (fun k => (k * step)%nat) (seq 0 count))) as (pts & Hpts & Ppts).
  { intros i Hi. apply in_map_iff in Hi. destruct Hi as (k & <- & Hk).
    apply in_seq in Hk.
    destruct (trend_point_ok comments_data (k * step)) as (head & p & H1 & H2 & H3);
      [apply Hidx; lia|].
    exists p. split; [exact H2|]. exists head. now split. }
  exists pts. split; [exact Hpts|].
  apply Forall2_map_seq_nth in Ppts. destruct Ppts as [Hlen Hnth].
  split; [exact Hlen|].
  intros k Hk. rewrite Hlen in Hk.
  destruct (Hnth k Hk) as (p & Hp & head & H1 & H2).
  exists head, p. now repeat split.
Qed.

(** ** Analytics: like-weighted sentiment *)

Lemma weighted_ok (sentiments : list Q) (likes : list Z) :
  exists q,
    Analytics.weighted sentiments likes = Ok q /\
    (0 < sumZ likes ->
       q = (sumQ (map (fun sl => fst sl * inject_Z (snd sl))%Q (combine sentiments likes))
            / inject_Z (sumZ likes))%Q) /\
    (sumZ likes <= 0 -> q = 0%Q).
Proof.
  unfold Analytics.weighted.
  destruct (sumZ likes >? 0) eqn:E.
  - apply Z.gtb_lt in E. rewrite py_div_Z by lia.
    eexists. split; [reflexivity|]. split; [reflexivity | lia].
  - assert (sumZ likes <= 0) by (destruct (Z.gtb_spec (sumZ likes) 0); [discriminate | lia]).
    exists 0%Q. split; [reflexivity|]. split; [lia | reflexivity].
Qed.

Lemma sumZ_nonneg (l : list Z) : Forall (fun x => 0 <= x) l -> 0 <= sumZ l.
Proof.
  induction 1 as [|x l Hx _ IH]; [reflexivity|]. rewrite sumZ_cons. lia.
Qed.

Lemma sumZ_zeros (l : list Z) : Forall (fun x => x = 0) l -> sumZ l = 0.
Proof.
  induction 1 as [|x l Hx _ IH]; [reflexivity|]. rewrite sumZ_cons. lia.
Qed.

(** ** Analytics: label distribution *)

Lemma counter_get_add (c : Counter.t) (k key : string) :
  Counter.get (Counter.add k c) key =
  Counter.get c key + (if (k =? key)%string then 1 else 0).
Proof.
  induction c as [|[k' n] c IH]; cbn [Counter.add Counter.get].
  - destruct (k =? key)%string; lia.
  - destruct (k' =? k)%string eqn:E; cbn [Counter.get].
    + apply String.eqb_eq in E. subst k'.
      destruct (k =? key)%string; lia.
    + destruct (k' =? key)%string eqn:E'.
      * apply String.eqb_eq in E'. subst k'.
        rewrite String.eqb_sym in E. rewrite E. lia.
      * exact IH.
Qed.

(** [Counter(labels)[key]] is the number of occurrences of [key]. *)
Lemma counter_get_of_list (l : list string) (key : string) :
  Counter.get (Counter.of_list l) key
  = len (filter (fun k => (k =? key)%string) l).
Proof.
  unfold Counter.of_list.
  assert (G : forall c, Counter.get (fold_left (fun c k => Counter.add k c) l c) key
                        = Counter.get c key + len (filter (fun k => (k =? key)%string) l)).
  { induction l as [|k l IH]; intros c; cbn [fold_left filter].
    - unfold len. simpl. lia.
    - rewrite IH, counter_get_add.
      destruct (k =? key)%string; unfold len; cbn [length]; lia. }
  rewrite G. simpl. lia.
Qed.

Lemma label_counts_total (labels : list string) :
  Forall valid_label labels ->
  Counter.get (Counter.of_list labels) "positive"
  + Counter.get (Counter.of_list labels) "negative"
  + Counter.get (Counter.of_list labels) "neutral" = len labels.
Proof.
  rewrite !counter_get_of_list. unfold len.
  induction 1 as [|l labels Hl _ IH]; [reflexivity|].
  cbn [filter length].
  destruct Hl as [-> | [-> | ->]]; cbn [String.eqb Ascii.eqb Bool.eqb andb length]; lia.
Qed.

Lemma label_count_bounds (labels : list string) (key : string) :
  0 <= Counter.get (Counter.of_list labels) key <= len labels.
Proof.
  rewrite counter_get_of_list. unfold len.
  pose proof (filter_length_le (fun k => (k =? key)%string) labels). lia.
Qed.

Lemma percentage_ok (labels : list string) (key : string) :
  labels <> [] ->
  exists q,
    Analytics.percentage (Counter.of_list labels) labels key = Ok q /\
    q = (inject_Z (Counter.get (Counter.of_list labels) key) / inject_Z (len labels) * 100)%Q /\
    (0 <= q <= 100)%Q.
Proof.
  intros Hne.
  assert (Hlen : 0 < len labels) by (unfold len; destruct labels; [contradiction | simpl; lia]).
  unfold Analytics.percentage. rewrite py_div_Z by lia. cbn [rbind].
  eexists. split; [reflexivity|]. split; [reflexivity|].
  pose proof (label_count_bounds labels key) as [Hlo Hhi].
  assert (Hpos : (0 < inject_Z (len labels))%Q)
    by (change 0%Q with (inject_Z 0); now rewrite <- Zlt_Qlt).
  assert (H0 : (0 <= inject_Z (Counter.get (Counter.of_list labels) key))%Q)
    by (change 0%Q with (inject_Z 0); now rewrite <- Zle_Qle).
  assert (H1 : (inject_Z (Counter.get (Counter.of_list labels) key)
                <= inject_Z (len labels))%Q) by now rewrite <- Zle_Qle.
  set (c := inject_Z (Counter.get (Counter.of_list labels) key)) in *.
  set (n := inject_Z (len labels)) in *.
  assert (Hr : (0 <= c / n <= 1)%Q).
  { split.
    - apply Qle_shift_div_l; [exact Hpos | lra].
    - apply Qle_shift_div_r; [exact Hpos | lra]. }
  lra.
Qed.

(** ** Analytics: the computation returns *)

(** On a non-empty comment set no division of [compute_analytics]
    fails, and the fields are the results of the parts. *)
Lemma compute_analytics_ok (comments_data : list Analytics.row) :
  comments_data <> [] ->
  let sentiments := map Analytics.sentiment_score comments_data in
  let labels := map Analytics.sentiment_label comments_data in
  let likes := map Analytics.likes comments_data in
  exists a,
    Analytics.compute_analytics comments_data = Ok a /\
    Analytics.total_comments a = len comments_data /\
    Analytics.weighted sentiments likes = Ok (Analytics.weighted_sentiment a) /\
    Analytics.trend comments_data = Ok (Analytics.time_trend a) /\
    Analytics.percentage (Counter.of_list labels) labels "positive"
      = Ok (Analytics.positive_percentage a) /\
    Analytics.percentage (Counter.of_list labels) labels "negative"
      = Ok (Analytics.negative_percentage a) /\
    Analytics.percentage (Counter.of_list labels) labels "neutral"
      = Ok (Analytics.neutral_percentage a).
Proof.
  intros Hne sentiments labels likes.
  assert (Hlabels : labels <> [])
    by (subst labels; destruct comments_data; [contradiction | discriminate]).
  assert (Hlen : 0 < len comments_data)
    by (unfold len; destruct comments_data; [contradiction | simpl; lia]).
  destruct (weighted_ok sentiments likes) as (ws & Hws & _).
  destruct (trend_ok comments_data Hne) as (pts & Hpts & _).
  destruct (percentage_ok labels "positive" Hlabels) as (pp & Hpp & _).
  destruct (percentage_ok labels "negative" Hlabels) as (pn & Hpn & _).
  destruct (percentage_ok labels "neutral" Hlabels) as (pu & Hpu & _).
  unfold Analytics.compute_analytics.
  fold sentiments. fold labels. fold likes.
  rewrite Hws, Hpts, Hpp, Hpn, Hpu. cbn [rbind].
  assert (Hs : len sentiments = len comments_data)
    by (unfold len, sentiments; now rewrite length_map).
  assert (Hl : len likes = len comments_data)
    by (unfold len, likes; now rewrite length_map).
  rewrite py_div_Z by lia. cbn [rbind].
  destruct likes as [|l0 likes'] eqn:El.
  - unfold len in *. simpl in Hl. lia.
  - rewrite py_div_Z by lia. cbn [rbind].
    eexists. split; [reflexivity|].
    cbn. repeat split; reflexivity.
Qed.

(** ** Analytics: the mock fallback *)

Lemma random_unit_range (z : Z) : (0 <= z mod 2 ^ 53 # 2 ^ 53 < 1)%Q.
Proof.
  pose proof (Z.mod_pos_bound z (2 ^ 53) ltac:(lia)) as [Hlo Hhi].
  unfold Qle, Qlt. cbn [Qnum Qden].
  change (Z.pos (2 ^ 53)) with (2 ^ 53). lia.
Qed.

Lemma round_half_even_bounds (lo hi : Z) (x : Q) :
  (inject_Z lo <= x <= inject_Z hi)%Q -> lo <= round_half_even x <= hi.
Proof.
  intros [Hlo Hhi]. unfold round_half_even.
  pose proof (Qfloor_le x) as Hf.
  pose proof (Qlt_floor x) as Hc.
  set (f := Qfloor x) in *.
  assert (L : lo <= f).
  { assert (H : (inject_Z lo < inject_Z (f + 1))%Q) by lra.
    rewrite <- Zlt_Qlt in H. lia. }
  assert (U : f <= hi).
  { assert (H : (inject_Z f <= inject_Z hi)%Q) by lra.
    now rewrite <- Zle_Qle in H. }
  assert (U' : (inject_Z f < x)%Q -> f + 1 <= hi).
  { intros H. assert (H' : (inject_Z f < inject_Z hi)%Q) by lra.
    rewrite <- Zlt_Qlt in H'. lia. }
  destruct (Qcompare_spec (x - inject_Z f) (1 # 2)) as [E | E | E].
  - destruct (Z.even f); [lia|]. assert (inject_Z f < x)%Q by lra. specialize (U' H). lia.
  - lia.
  - assert (inject_Z f < x)%Q by lra. specialize (U' H). lia.
Qed.

(** Rounding to [ndigits] decimals keeps a value between two integers
    between them. *)
Lemma py_round_bounds (lo hi : Z) (x : Q) (ndigits : nat) :
  (inject_Z lo <= x <= inject_Z hi)%Q ->
  (inject_Z lo <= py_round x ndigits <= inject_Z hi)%Q.
Proof.
  intros [Hlo Hhi]. unfold py_round.
  set (p := 10 ^ Z.of_nat ndigits).
  assert (Hp : 0 < p) by (subst p; apply Z.pow_pos_nonneg; lia).
  assert (Hq : (0 < inject_Z p)%Q) by (change 0%Q with (inject_Z 0); now rewrite <- Zlt_Qlt).
  destruct (round_half_even_bounds (lo * p) (hi * p) (x * inject_Z p)) as [Rlo Rhi].
  { rewrite !inject_Z_mult. split; apply Qmult_le_compat_r; lra. }
  rewrite Zle_Qle, inject_Z_mult in Rlo, Rhi.
  split.
  - apply Qle_shift_div_l; [exact Hq | exact Rlo].
  - apply Qle_shift_div_r; [exact Hq | exact Rhi].
Qed.

Lemma rounded_uniform_ok (lo hi : Z) (ndigits : nat) (w : world) :
  lo <= hi ->
  exists x w',
    Analytics.rounded_uniform (inject_Z lo) (inject_Z hi) ndigits w = (Ok x, w') /\
    (inject_Z lo <= x <= inject_Z hi)%Q.
Proof.
  intros Hle. eexists. eexists. split; [reflexivity|].
  apply py_round_bounds.
  pose proof (random_unit_range (Z.of_N (source w (cursor w)))) as [U0 U1].
  set (u := (Z.of_N (source w (cursor w)) mod 2 ^ 53 # 2 ^ 53)) in *.
  assert (Hd : (0 <= inject_Z hi - inject_Z lo)%Q).
  { rewrite Zle_Qle in Hle. lra. }
  split.
  - assert (0 <= (inject_Z hi - inject_Z lo) * u)%Q by (apply Qmult_le_0_compat; lra).
    lra.
  - assert ((inject_Z hi - inject_Z lo) * u <= (inject_Z hi - inject_Z lo) * 1)%Q.
    { rewrite !(Qmult_comm (inject_Z hi - inject_Z lo)).
      apply Qmult_le_compat_r; lra. }
    lra.
Qed.

Lemma rounded_uniform_total (a b : Q) (ndigits : nat) (w : world) :
  exists x w', Analytics.rounded_uniform a b ndigits w = (Ok x, w').
Proof. eexists. eexists. reflexivity. Qed.

Lemma randint_total (a b : Z) (w : world) :
  exists x w', Random.randint a b w = (Ok x, w').
Proof. eexists. eexists. reflexivity. Qed.

Lemma mock_trend_ok (w : world) :
  exists pts w',
    for_each Analytics.mock_trend_point [10; 9; 8; 7; 6; 5; 4; 3; 2; 1] w = (Ok pts, w') /\
    length pts = 10%nat.
Proof.
  destruct (for_each_ok Analytics.mock_trend_point (fun _ _ => True)
              [10; 9; 8; 7; 6; 5; 4; 3; 2; 1]) with (w := w) as (pts & w' & H & F).
  { intros i w0 _. eexists. eexists. split; [reflexivity | exact I]. }
  exists pts, w'. split; [exact H|].
  apply Forall2_length in F. now rewrite <- F.
Qed.

(** The mock analytics always return; their three percentages are
    drawn independently from [[35, 65]], [[15, 35]] and [[20, 40]]. *)
Lemma mock_analytics_ok (w : world) :
  exists a w',
    Analytics._generate_mock_analytics w = (Ok a, w') /\
    (35 <= Analytics.positive_percentage a <= 65)%Q /\
    (15 <= Analytics.negative_percentage a <= 35)%Q /\
    (20 <= Analytics.neutral_percentage a <= 40)%Q /\
    length (Analytics.time_trend a) = 10%nat.
Proof.
  unfold Analytics._generate_mock_analytics.
  destruct (randint_total 50 200 w) as (x1 & w1 & H1). rewrite (ebind_ok _ _ _ _ _ H1).
  destruct (rounded_uniform_total (- (5 # 10)) (7 # 10) 3 w1) as (x2 & w2 & H2).
  rewrite (ebind_ok _ _ _ _ _ H2).
  destruct (rounded_uniform_total (- (3 # 10)) (8 # 10) 3 w2) as (x3 & w3 & H3).
  rewrite (ebind_ok _ _ _ _ _ H3).
  destruct (randint_total 20 60 w3) as (x4 & w4 & H4). rewrite (ebind_ok _ _ _ _ _ H4).
  destruct (randint_total 10 40 w4) as (x5 & w5 & H5). rewrite (ebind_ok _ _ _ _ _ H5).
  destruct (randint_total 15 45 w5) as (x6 & w6 & H6). rewrite (ebind_ok _ _ _ _ _ H6).
  destruct (rounded_uniform_ok 35 65 1 w6 ltac:(lia)) as (pp & w7 & H7 & B7).
  rewrite (ebind_ok _ _ _ _ _ H7).
  destruct (rounded_uniform_ok 15 35 1 w7 ltac:(lia)) as (pn & w8 & H8 & B8).
  rewrite (ebind_ok _ _ _ _ _ H8).
  destruct (rounded_uniform_ok 20 40 1 w8 ltac:(lia)) as (pu & w9 & H9 & B9).
  rewrite (ebind_ok _ _ _ _ _ H9).
  destruct (mock_trend_ok w9) as (pts & w10 & H10 & L10).
  rewrite (ebind_ok _ _ _ _ _ H10).
  destruct (rounded_uniform_ok 3 15 1 w10 ltac:(lia)) as (es & w11 & H11 & _).
  rewrite (ebind_ok _ _ _ _ _ H11).
  eexists. eexists. split; [reflexivity|].
  cbn [Analytics.positive_percentage Analytics.negative_percentage
       Analytics.neutral_percentage Analytics.time_trend].
  repeat split; try apply B7; try apply B8; try apply B9; exact L10.
Qed.

(** ** Analytics: main results *)

(** C1 (as the code has it). For every non-empty stored comment set of
    [n] comments, the trend has one bucket per start index
    [0, step, 2 * step, ...] below [n], with [step = max(1, n // 10)]:
    between 1 and 19 buckets, [n] buckets when [n < 20], and 10 when
    [n] is a multiple of 10.  The bucket with index [k] reports the
    timestamp of the comment at its start index and the mean score of
    its batch, the up to ten consecutive comments from there on. *)
Theorem time_trend_buckets (comments_data : list Analytics.row)
  (nonempty : comments_data <> []) :
  exists a,
    Analytics.compute_analytics comments_data = Ok a /\
    length (Analytics.time_trend a) = bucket_count (length comments_data) /\
    (1 <= length (Analytics.time_trend a) <= 19)%nat /\
    ((length comments_data < 20)%nat ->
       length (Analytics.time_trend a) = length comments_data) /\
    ((length comments_data mod 10 = 0)%nat -> length (Analytics.time_trend a) = 10%nat) /\
    forall k, (k < length (Analytics.time_trend a))%nat ->
      exists head p,
        nth_error comments_data (k * trend_step (length comments_data)) = Some head /\
        nth_error (Analytics.time_trend a) k = Some p /\
        Analytics.Trend.timestamp p = Analytics.timestamp head /\
        hd_error (bucket_batch comments_data k) = Some head /\
        (1 <= len (bucket_batch comments_data k) <= 10) /\
        Analytics.Trend.sentiment p
          = mean (map Analytics.sentiment_score (bucket_batch comments_data k)).
Proof.
  destruct (compute_analytics_ok comments_data nonempty) as (a & Ha & _ & _ & Ht & _).
  destruct (trend_ok comments_data nonempty) as (pts & Hpts & Hlen & Hk).
  rewrite Ht in Hpts. inversion Hpts; subst pts. clear Hpts.
  assert (Hn : (1 <= length comments_data)%nat)
    by (destruct comments_data; [contradiction | simpl; lia]).
  destruct (bucket_count_facts _ Hn) as (B1 & B2 & B3 & _).
  exists a. split; [exact Ha|].
  unfold bucket_batch, bucket_count, trend_step, mean. cbv zeta.
  rewrite Hlen.
  split; [reflexivity|]. split; [exact B1|]. split; [exact B2|]. split; [exact B3|].
  intros k Hlt.
  destruct (Hk k ltac:(rewrite Hlen; exact Hlt)) as (head & p & H1 & H2 & H3 & H4 & H5).
  exists head, p.
  split; [exact H1|]. split; [exact H2|]. split; [exact H3|].
  split; [|split; [exact H5|]].
  - destruct (skipn_nth_head _ _ _ H1) as [rest Hr].
    unfold slice.
    replace (k * Nat.max 1 (length comments_data / 10) + 10
             - k * Nat.max 1 (length comments_data / 10))%nat with 10%nat by lia.
    now rewrite Hr.
  - rewrite H4. unfold len. now rewrite length_map.
Qed.

(** The trend of the five sample comments. *)
Lemma time_trend_buckets_witness :
  five_rows <> [] /\
  exists a,
    Analytics.compute_analytics five_rows = Ok a /\
    length (Analytics.time_trend a) = bucket_count (length five_rows).
Proof.
  assert (nonempty : five_rows <> []) by discriminate.
  split; [exact nonempty|].
  destruct (time_trend_buckets five_rows nonempty) as (a & Ha & Hl & _).
  exists a. split; [exact Ha | exact Hl].
Defined.

(** Five comments give five buckets, not one, and the first bucket
    averages all five, not a batch of one; nineteen comments give
    nineteen buckets, more than ten. *)
Lemma time_trend_counterexample :
  (0 < length five_rows < 10)%nat /\
  (exists a,
     Analytics.compute_analytics five_rows = Ok a /\
     length (Analytics.time_trend a) = 5%nat /\
     length (Analytics.time_trend a) <> 1%nat /\
     exists p, hd_error (Analytics.time_trend a) = Some p /\
               (Analytics.Trend.sentiment p == 1 # 10)%Q /\
               ~ (Analytics.Trend.sentiment p == 4 # 10)%Q) /\
  (exists a,
     Analytics.compute_analytics nineteen_rows = Ok a /\
     length (Analytics.time_trend a) = 19%nat /\
     ~ (length (Analytics.time_trend a) <= 10)%nat).
Proof.
  split; [simpl; lia|]. split.
  - eexists. split; [vm_compute; reflexivity|].
    split; [reflexivity|]. split; [discriminate|].
    eexists. split; [reflexivity|]. split; [reflexivity | discriminate].
  - eexists. split; [vm_compute; reflexivity|].
    split; [reflexivity|]. cbn [Analytics.time_trend length]. lia.
Qed.

Lemma weighted_terms (comments_data : list Analytics.row) :
  map (fun sl => fst sl * inject_Z (snd sl))%Q
      (combine (map Analytics.sentiment_score comments_data)
               (map Analytics.likes comments_data))
  = map (fun r => Analytics.sentiment_score r * inject_Z (Analytics.likes r))%Q
        comments_data.
Proof.
  induction comments_data as [|r l IH]; [reflexivity|].
  cbn [map combine fst snd]. now rewrite IH.
Qed.

(** C7. For every non-empty stored comment set with non-negative like
    counts the analytics return, and the like-weighted sentiment is the
    sum of score times likes divided by the sum of likes when that sum
    is not 0, and exactly 0 when it is 0, in particular when no comment
    has a like. *)
Theorem like_weighted_sentiment (comments_data : list Analytics.row)
  (nonempty : comments_data <> [])
  (nonneg : Forall (fun r => 0 <= Analytics.likes r) comments_data) :
  exists a,
    Analytics.compute_analytics comments_data = Ok a /\
    (total_likes comments_data <> 0 ->
       Analytics.weighted_sentiment a
       = (weighted_score_sum comments_data / inject_Z (total_likes comments_data))%Q) /\
    (total_likes comments_data = 0 -> Analytics.weighted_sentiment a = 0%Q) /\
    (Forall (fun r => Analytics.likes r = 0) comments_data ->
       Analytics.weighted_sentiment a = 0%Q).
Proof.
  destruct (compute_analytics_ok comments_data nonempty) as (a & Ha & _ & Hw & _).
  destruct (weighted_ok (map Analytics.sentiment_score comments_data)
                        (map Analytics.likes comments_data)) as (q & Hq & Hpos & Hzero).
  rewrite Hw in Hq. inversion Hq; subst q. clear Hq.
  assert (Hsum : 0 <= total_likes comments_data).
  { unfold total_likes. apply sumZ_nonneg. now rewrite Forall_map. }
  exists a. split; [exact Ha|]. unfold total_likes, weighted_score_sum in *.
  split; [|split].
  - intros H. rewrite <- weighted_terms. apply Hpos. lia.
  - intros H. apply Hzero. lia.
  - intros H. apply Hzero.
    rewrite sumZ_zeros; [lia|]. now rewrite Forall_map.
Qed.

(** Three comments without a like: the weighted sentiment is 0. *)
Lemma like_weighted_sentiment_witness :
  unliked_rows <> [] /\
  Forall (fun r => 0 <= Analytics.likes r) unliked_rows /\
  exists a,
    Analytics.compute_analytics unliked_rows = Ok a /\
    Analytics.weighted_sentiment a = 0%Q.
Proof.
  assert (nonempty : unliked_rows <> []) by discriminate.
  assert (nonneg : Forall (fun r => 0 <= Analytics.likes r) unliked_rows)
    by (repeat constructor; simpl; lia).
  split; [exact nonempty|]. split; [exact nonneg|].
  destruct (like_weighted_sentiment unliked_rows nonempty nonneg) as (a & Ha & _ & Hz & _).
  exists a. split; [exact Ha|]. apply Hz. reflexivity.
Defined.

(** On the five sample comments the weighted sentiment is
    (0.4 * 3 - 0.4 * 1 + 0.5 * 7) / 13. *)
Example weighted_sentiment_of_five_rows :
  match Analytics.compute_analytics five_rows with
  | Ok a => (Analytics.weighted_sentiment a == 43 # 130)%Q
  | Raise _ => False
  end.
Proof. vm_compute. reflexivity. Qed.

Section StoreFacts.

Variable HAS_SQLITE : bool.
Variable fetchall : string -> list Analytics.row.

(** With a database and stored comments the analytics are computed
    from the rows; otherwise they are the mock analytics. *)
Lemma get_sentiment_analytics_cases (video_id : string) (w : world) :
  (HAS_SQLITE = true /\ fetchall video_id <> [] /\
   Analytics.get_sentiment_analytics HAS_SQLITE fetchall video_id w
   = (Analytics.compute_analytics (fetchall video_id), w)) \/
  ((HAS_SQLITE = false \/ fetchall video_id = []) /\
   Analytics.get_sentiment_analytics HAS_SQLITE fetchall video_id w
   = Analytics._generate_mock_analytics w).
Proof.
  unfold Analytics.get_sentiment_analytics.
  destruct HAS_SQLITE; cbn [negb].
  - destruct (fetchall video_id) as [|r rows] eqn:E.
    + right. split; [now right | reflexivity].
    + left. split; [reflexivity|]. split; [discriminate | reflexivity].
  - right. split; [now left | reflexivity].
Qed.

(** C2 (as the code has it). For every stored comment set whose labels
    are positive, negative or neutral, the analytics return and each of
    the three percentages lies in [[0, 100]].  For a non-empty set read
    from the database the three sum to 100.  For the empty set, and
    without a database, they are the mock values, drawn independently
    from [[35, 65]], [[15, 35]] and [[20, 40]]: their sum lies in
    [[70, 140]]. *)
Theorem label_percentages (video_id : string) (w : world)
  (labels_valid :
     Forall (fun r => valid_label (Analytics.sentiment_label r)) (fetchall video_id)) :
  exists a w',
    Analytics.get_sentiment_analytics HAS_SQLITE fetchall video_id w = (Ok a, w') /\
    (0 <= Analytics.positive_percentage a <= 100)%Q /\
    (0 <= Analytics.negative_percentage a <= 100)%Q /\
    (0 <= Analytics.neutral_percentage a <= 100)%Q /\
    (HAS_SQLITE = true -> fetchall video_id <> [] ->
       (Analytics.positive_percentage a + Analytics.negative_percentage a
        + Analytics.neutral_percentage a == 100)%Q) /\
    (HAS_SQLITE = false \/ fetchall video_id = [] ->
       (35 <= Analytics.positive_percentage a <= 65)%Q /\
       (15 <= Analytics.negative_percentage a <= 35)%Q /\
       (20 <= Analytics.neutral_percentage a <= 40)%Q /\
       (70 <= Analytics.positive_percentage a + Analytics.negative_percentage a
              + Analytics.neutral_percentage a <= 140)%Q).
Proof.
  destruct (get_sentiment_analytics_cases video_id w)
    as [(Hdb & Hne & Hget) | (Hmock & Hget)]; rewrite Hget.
  - destruct (compute_analytics_ok _ Hne) as (a & Ha & _ & _ & _ & Hp & Hn & Hu).
    set (labels := map Analytics.sentiment_label (fetchall video_id)) in *.
    assert (Hlabels : labels <> [])
      by (subst labels; destruct (fetchall video_id); [contradiction | discriminate]).
    destruct (percentage_ok labels "positive" Hlabels) as (pp & Hpp & Ep & Bp).
    destruct (percentage_ok labels "negative" Hlabels) as (pn & Hpn & En & Bn).
    destruct (percentage_ok labels "neutral" Hlabels) as (pu & Hpu & Eu & Bu).
    assert (Xp : Analytics.positive_percentage a = pp) by congruence.
    assert (Xn : Analytics.negative_percentage a = pn) by congruence.
    assert (Xu : Analytics.neutral_percentage a = pu) by congruence.
    exists a, w. split; [now rewrite Ha|].
    rewrite Xp, Xn, Xu.
    split; [exact Bp|]. split; [exact Bn|]. split; [exact Bu|]. split.
    + intros _ _.
      assert (Hv : Forall valid_label labels) by (subst labels; now rewrite Forall_map).
      pose proof (label_counts_total labels Hv) as Htot.
      assert (Hlen : 0 < len labels)
        by (unfold len; destruct labels; [contradiction | simpl; lia]).
      rewrite Ep, En, Eu.
      rewrite <- Htot, !inject_Z_plus.
      rewrite <- Htot in Hlen.
      assert (Hq : ~ (inject_Z (Counter.get (Counter.of_list labels) "positive"
                      + Counter.get (Counter.of_list labels) "negative"
                      + Counter.get (Counter.of_list labels) "neutral") == 0)%Q)
        by (apply inject_Z_nonzero; lia).
      rewrite !inject_Z_plus in Hq.
      field. exact Hq.
    + intros [H | H]; [congruence | contradiction].
  - destruct (mock_analytics_ok w) as (a & w' & Ha & Bp & Bn & Bu & _).
    exists a, w'. split; [exact Ha|].
    split; [lra|]. split; [lra|]. split; [lra|]. split.
    + intros Hdb Hne. destruct Hmock as [H | H]; [congruence | contradiction].
    + intros _. repeat split; lra.
Qed.

End StoreFacts.

(** The percentages of the five sample comments. *)
Lemma label_percentages_witness :
  Forall (fun r => valid_label (Analytics.sentiment_label r)) five_rows /\
  exists a w',
    Analytics.get_sentiment_analytics true (fun _ => five_rows) "O6DTtVOPwEU" still_world
      = (Ok a, w') /\
    (Analytics.positive_percentage a + Analytics.negative_percentage a
     + Analytics.neutral_percentage a == 100)%Q.
Proof.
  assert (labels_valid :
    Forall (fun r => valid_label (Analytics.sentiment_label r)) five_rows).
  { unfold five_rows, valid_label.
    repeat (apply Forall_cons; [cbn [Analytics.sentiment_label sample_row]; auto|]).
    apply Forall_nil. }
  split; [exact labels_valid|].
  destruct (label_percentages true (fun _ => five_rows) "O6DTtVOPwEU" still_world
              labels_valid) as (a & w' & Ha & _ & _ & _ & Hsum & _).
  exists a, w'. split; [exact Ha|]. apply Hsum; [reflexivity | discriminate].
Defined.

(** With an empty store the mock percentages do not sum to 100: with a
    source whose draws are all 0 they are 35, 15 and 20 (sum 70), with
    draws in the middle of the range 50, 25 and 30 (sum 105); each is
    within [[0, 100]]. *)
Lemma label_percentages_counterexample :
  (exists a w',
     Analytics.get_sentiment_analytics true (fun _ => []) "O6DTtVOPwEU" still_world
       = (Ok a, w') /\
     (Analytics.positive_percentage a == 35)%Q /\
     (Analytics.negative_percentage a == 15)%Q /\
     (Analytics.neutral_percentage a == 20)%Q /\
     ~ (Analytics.positive_percentage a + Analytics.negative_percentage a
        + Analytics.neutral_percentage a == 100)%Q) /\
  (exists a w',
     Analytics.get_sentiment_analytics true (fun _ => []) "O6DTtVOPwEU" middle_world
       = (Ok a, w') /\
     (Analytics.positive_percentage a == 50)%Q /\
     (Analytics.negative_percentage a == 25)%Q /\
     (Analytics.neutral_percentage a == 30)%Q /\
     ~ (Analytics.positive_percentage a + Analytics.negative_percentage a
        + Analytics.neutral_percentage a == 100)%Q).
Proof.
  split.
  - eexists. eexists. split; [vm_compute; reflexivity|].
    repeat split; try reflexivity. discriminate.
  - eexists. eexists. split; [vm_compute; reflexivity|].
    repeat split; try reflexivity. discriminate.
Qed.

(** ** Broadcast *)

Section ServerFacts.

Variable HAS_WEBSOCKETS : bool.
Variable payload : Type.
Variable dumps : payload -> string.

(** The subscriber set holds no handle twice, and is empty without the
    [websockets] library. *)
Lemma reachable_clients (s : Server.server) :
  Server.reachable HAS_WEBSOCKETS s ->
  NoDup (Server.clients s) /\ (HAS_WEBSOCKETS = false -> Server.clients s = []).
Proof.
  induction 1 as [|c s Hs [IHn IHe]|c s Hs [IHn IHe] Hin].
  - split; [constructor | reflexivity].
  - unfold Server.connect.
    destruct HAS_WEBSOCKETS eqn:E; cbn [negb]; [|now split].
    destruct (existsb (Nat.eqb c) (Server.clients s)) eqn:Ex; [split; [exact IHn | discriminate]|].
    cbn [Server.clients]. split; [|discriminate].
    apply NoDup_app; [exact IHn | repeat constructor; intros [] |].
    intros x Hx [Hc | []]. subst x.
    assert (existsb (Nat.eqb c) (Server.clients s) = true)
      by (apply existsb_exists; exists c; split; [exact Hx | apply Nat.eqb_refl]).
    congruence.
  - unfold Server.disconnect. cbn [Server.clients]. split.
    + now apply NoDup_filter.
    + intros H. rewrite (IHe H). reflexivity.
Qed.

(** Running the sends of a duplicate-free list of clients: one outcome
    per client, every open connection gets the message appended to its
    inbox, and nothing else changes. *)
Lemma run_all_sends (message : string) (cs : list nat) (net : Server.network) :
  NoDup cs ->
  exists outcomes net',
    Server.run_all (map (fun client => Server.send client message) cs) net
      = (outcomes, net') /\
    outcomes = map (fun c => if Server.is_open (net c) then Ok tt
                             else Raise ConnectionClosed) cs /\
    (forall c, Server.is_open (net' c) = Server.is_open (net c)) /\
    (forall c, In c cs -> Server.is_open (net c) = true ->
               Server.inbox (net' c) = (Server.inbox (net c) ++ [message])%list) /\
    (forall c, ~ In c cs \/ Server.is_open (net c) = false ->
               Server.inbox (net' c) = Server.inbox (net c)).
Proof.
  revert net. induction cs as [|c cs IH]; intros net Hnd.
  - exists [], net. cbn [map Server.run_all]. repeat split; auto.
    intros c [].
  - inversion Hnd as [|? ? Hnotin Hnd']; subst.
    cbn [map Server.run_all].
    destruct (Server.send c message net) as [r net1] eqn:Es.
    destruct (IH net1 Hnd') as (outcomes & net' & Hrun & Hout & Hopen & Hdel & Hsame).
    rewrite Hrun. exists (r :: outcomes), net'.
    unfold Server.send in Es.
    assert (Hopen1 : forall c', Server.is_open (net1 c') = Server.is_open (net c')).
    { intros c'. destruct (Server.is_open (net c)) eqn:Eo; inversion Es; subst; [|reflexivity].
      unfold Server.deliver. destruct (c' =? c)%nat eqn:Ec; [|reflexivity].
      apply Nat.eqb_eq in Ec. now subst. }
    assert (Hin1 : forall c', c' <> c -> Server.inbox (net1 c') = Server.inbox (net c')).
    { intros c' Hc'. destruct (Server.is_open (net c)) eqn:Eo; inversion Es; subst; [|reflexivity].
      unfold Server.deliver. destruct (c' =? c)%nat eqn:Ec; [|reflexivity].
      apply Nat.eqb_eq in Ec. contradiction. }
    split; [reflexivity|]. split; [|split; [|split]].
    + rewrite Hout. f_equal.
      * destruct (Server.is_open (net c)); now inversion Es.
      * apply map_ext. intros c'. now rewrite Hopen1.
    + intros c'. now rewrite Hopen, Hopen1.
    + intros c' [Hc | Hc] Ho.
      * subst c'. rewrite Hsame by (now left).
        rewrite Ho in Es. inversion Es; subst.
        unfold Server.deliver. now rewrite Nat.eqb_refl.
      * assert (c' <> c) by (intros ->; contradiction).
        rewrite Hdel; [| exact Hc | now rewrite Hopen1].
        now rewrite Hin1.
    + intros c' Hc.
      destruct (Nat.eq_dec c' c) as [-> | Hne].
      * rewrite Hsame by (now left).
        destruct Hc as [Hc | Hc]; [exfalso; apply Hc; now left|].
        rewrite Hc in Es. now inversion Es.
      * rewrite Hsame, Hin1; auto.
        destruct Hc as [Hc | Hc]; [left; intros H; apply Hc; now right|].
        right. now rewrite Hopen1.
Qed.

(** C8. In every state the server reaches and for every state of the
    connections, a broadcast returns normally; a send was attempted for
    every subscriber, one outcome each; every subscriber whose own
    connection is open has the serialized message appended to its inbox,
    whatever fails for the others; and nothing else is delivered. *)
Theorem broadcast_isolates_failures (s : Server.server) (data : payload)
  (net : Server.network) (reached : Server.reachable HAS_WEBSOCKETS s) :
  exists outcomes net',
    Server.broadcast_update HAS_WEBSOCKETS payload dumps s data net = (Ok tt, net') /\
    Server.run_all (map (fun client => Server.send client (dumps data)) (Server.clients s)) net
      = (outcomes, net') /\
    length outcomes = length (Server.clients s) /\
    (forall c, In c (Server.clients s) -> Server.is_open (net c) = true ->
               Server.inbox (net' c) = (Server.inbox (net c) ++ [dumps data])%list) /\
    (forall c, ~ In c (Server.clients s) \/ Server.is_open (net c) = false ->
               Server.inbox (net' c) = Server.inbox (net c)).
Proof.
  destruct (reachable_clients s reached) as [Hnd Hempty].
  destruct (run_all_sends (dumps data) (Server.clients s) net Hnd)
    as (outcomes & net' & Hrun & Hout & _ & Hdel & Hsame).
  exists outcomes, net'.
  assert (Hlen : length outcomes = length (Server.clients s))
    by (rewrite Hout; apply length_map).
  split; [|repeat split; assumption].
  unfold Server.broadcast_update, Server.gather.
  destruct (Server.clients s) as [|c cs] eqn:Ec.
  - cbn [negb andb]. cbn [map Server.run_all] in Hrun. now inversion Hrun.
  - destruct HAS_WEBSOCKETS; [|now specialize (Hempty eq_refl)].
    cbn [negb andb]. now rewrite Hrun.
Qed.

End ServerFacts.

(** Three subscribers, the second with a closed connection: the first
    and the third receive the message. *)
Lemma broadcast_isolates_failures_witness :
  Server.reachable true sample_server /\
  exists outcomes net',
    Server.broadcast_update true string (fun data => data) sample_server "update"
      sample_network = (Ok tt, net') /\
    outcomes = [Ok tt; Raise ConnectionClosed; Ok tt] /\
    Server.inbox (net' 1%nat) = ["update"] /\
    Server.inbox (net' 2%nat) = [] /\
    Server.inbox (net' 3%nat) = ["update"].
Proof.
  assert (reached : Server.reachable true sample_server)
    by (repeat apply Server.reach_connect; apply Server.reach_init).
  split; [exact reached|].
  destruct (broadcast_isolates_failures true string (fun data => data) sample_server
              "update" sample_network reached)
    as (outcomes & net' & Hb & Hrun & _ & Hdel & Hsame).
  exists outcomes, net'. split; [exact Hb|].
  split; [vm_compute in Hrun; now inversion Hrun|].
  split; [|split].
  - apply (Hdel 1%nat); [vm_compute; auto | reflexivity].
  - apply (Hsame 2%nat). right. reflexivity.
  - apply (Hdel 3%nat); [vm_compute; auto | reflexivity].
Defined.

(** Without [return_exceptions] the same failure would reach the caller. *)
Example gather_without_return_exceptions :
  fst (Server.gather (map (fun client => Server.send client "update")
                          (Server.clients sample_server)) false sample_network)
  = Raise ConnectionClosed.
Proof. reflexivity. Qed.

(** * Further properties *)

(** ** Text cleaning *)

Lemma forall_string_map (p : ascii -> bool) (f : ascii -> ascii) (s : string) :
  (forall c, p (f c) = true) -> Urllib.forall_string p (Text.map_string f s) = true.
Proof.
  intros H. induction s as [|c s IH]; [reflexivity|].
  cbn [Text.map_string Urllib.forall_string]. now rewrite H, IH.
Qed.

Lemma forall_string_map_if (p q : ascii -> bool) (f : ascii -> ascii) (s : string) :
  (forall c, q c = true -> p (f c) = true) ->
  Urllib.forall_string q s = true ->
  Urllib.forall_string p (Text.map_string f s) = true.
Proof.
  intros H. induction s as [|c s IH]; [reflexivity|].
  cbn [Text.map_string Urllib.forall_string]. intros Hq.
  apply andb_true_iff in Hq. destruct Hq as [Hc Hs].
  now rewrite (H c Hc), IH.
Qed.

Lemma forall_string_lstrip (p : ascii -> bool) (s : string) :
  Urllib.forall_string p s = true -> Urllib.forall_string p (Text.lstrip s) = true.
Proof.
  induction s as [|c s IH]; [reflexivity|].
  intros H. cbn [Text.lstrip]. destruct (Text.is_space c); [|exact H].
  cbn [Urllib.forall_string] in H. apply andb_true_iff in H. now apply IH.
Qed.

Lemma forall_string_rev (p : ascii -> bool) (s acc : string) :
  Urllib.forall_string p s = true -> Urllib.forall_string p acc = true ->
  Urllib.forall_string p (Text.rev_string acc s) = true.
Proof.
  revert acc. induction s as [|c s IH]; intros acc Hs Ha; [exact Ha|].
  cbn [Text.rev_string]. cbn [Urllib.forall_string] in Hs.
  apply andb_true_iff in Hs. destruct Hs as [Hc Hs].
  apply IH; [exact Hs|]. cbn [Urllib.forall_string]. now rewrite Hc, Ha.
Qed.

Lemma forall_string_strip (p : ascii -> bool) (s : string) :
  Urllib.forall_string p s = true -> Urllib.forall_string p (Text.strip s) = true.
Proof.
  intros H. unfold Text.strip, Text.rstrip.
  apply forall_string_rev; [|reflexivity].
  apply forall_string_lstrip, forall_string_rev; [|reflexivity].
  now apply forall_string_lstrip.
Qed.

Lemma rev_string_twice (s a b : string) :
  Text.rev_string a (Text.rev_string b s) = Text.rev_string (s ++ a) b.
Proof.
  revert b. induction s as [|c s IH]; intros b; [reflexivity|].
  cbn [Text.rev_string]. rewrite IH. reflexivity.
Qed.

Lemma append_empty_r (s : string) : s ++ "" = s.
Proof. induction s as [|c s IH]; [reflexivity|]. cbn. now rewrite IH. Qed.

Lemma rev_string_involutive (s : string) :
  Text.rev_string "" (Text.rev_string "" s) = s.
Proof. rewrite rev_string_twice. cbn [Text.rev_string]. apply append_empty_r. Qed.

Lemma rev_string_snoc (init acc : string) (c : ascii) :
  Text.rev_string acc (init ++ String c "") = String c (Text.rev_string acc init).
Proof.
  revert acc. induction init as [|d init IH]; intros acc; [reflexivity|].
  cbn [append Text.rev_string]. apply IH.
Qed.

Lemma lstrip_head (s rest : string) (c : ascii) :
  Text.lstrip s = String c rest -> Text.is_space c = false.
Proof.
  induction s as [|d s IH]; cbn [Text.lstrip]; [discriminate|].
  destruct (Text.is_space d) eqn:E; [exact IH|].
  intros H. inversion H; subst. exact E.
Qed.

Lemma strip_last (s init : string) (c : ascii) :
  Text.strip s = init ++ String c "" -> Text.is_space c = false.
Proof.
  unfold Text.strip, Text.rstrip. intros H.
  apply (f_equal (Text.rev_string "")) in H.
  rewrite rev_string_involutive, rev_string_snoc in H.
  eapply lstrip_head, H.
Qed.

Lemma string_app_assoc (a b c : string) : (a ++ b) ++ c = a ++ (b ++ c).
Proof. induction a as [|x a IH]; [reflexivity|]. cbn. now rewrite IH. Qed.

Lemma rev_string_acc (x a : string) :
  Text.rev_string a x = Text.rev_string "" x ++ a.
Proof.
  revert a. induction x as [|e x IH]; intros a; [reflexivity|].
  cbn [Text.rev_string]. rewrite (IH (String e a)), (IH (String e "")).
  now rewrite string_app_assoc.
Qed.

(** Stripping on the left never removes a final non-space character. *)
Lemma lstrip_keeps_last (y : string) (d : ascii) :
  Text.is_space d = false ->
  exists z, Text.lstrip (y ++ String d "") = z ++ String d "".
Proof.
  intros Hd. induction y as [|e y IH]; cbn [append Text.lstrip].
  - rewrite Hd. now exists "".
  - destruct (Text.is_space e); [exact IH | now exists (String e y)].
Qed.

Lemma strip_first (s rest : string) (c : ascii) :
  Text.strip s = String c rest -> Text.is_space c = false.
Proof.
  unfold Text.strip, Text.rstrip. intros H.
  destruct (Text.lstrip s) as [|d t] eqn:E; [discriminate H|].
  assert (Hd : Text.is_space d = false) by (eapply lstrip_head, E).
  cbn [Text.rev_string] in H. rewrite (rev_string_acc t (String d "")) in H.
  destruct (lstrip_keeps_last (Text.rev_string "" t) d Hd) as [z Hz].
  rewrite Hz, rev_string_snoc in H.
  inversion H; subst. exact Hd.
Qed.

(** The words [str.split()] returns are non-empty, free of spaces, and
    made of characters of the text. *)
Lemma split_from_words (p : ascii -> bool) (s cur : string) :
  (forall c, p c = true -> Text.is_space c = false) ->
  Urllib.forall_string (fun c => p c || Text.is_space c) s = true ->
  Urllib.forall_string p cur = true ->
  Forall (fun w => w <> "" /\ Urllib.forall_string p w = true) (Text.split_from cur s).
Proof.
  intros Hp. revert cur. induction s as [|c s IH]; intros cur Hs Hcur.
  - cbn [Text.split_from]. destruct cur; constructor; [|constructor].
    split; [discriminate | exact Hcur].
  - cbn [Urllib.forall_string] in Hs. apply andb_true_iff in Hs. destruct Hs as [Hc Hs].
    cbn [Text.split_from]. destruct (Text.is_space c) eqn:Esp.
    + destruct cur as [|d cur].
      * apply IH; [exact Hs | reflexivity].
      * constructor; [split; [discriminate | exact Hcur]|].
        apply IH; [exact Hs | reflexivity].
    + apply IH; [exact Hs|].
      rewrite orb_false_r in Hc.
      clear - Hc Hcur. induction cur as [|d cur IHc]; cbn [append Urllib.forall_string].
      * now rewrite Hc.
      * cbn [Urllib.forall_string] in Hcur. apply andb_true_iff in Hcur.
        destruct Hcur as [Hd Hr]. now rewrite Hd, IHc.
Qed.

Lemma lower_char_clean (c : ascii) :
  Text.is_word c || Text.is_space c = true -> clean_char (Text.lower_char c) = true.
Proof.
  destruct c as [[] [] [] [] [] [] [] []]; intros H; try reflexivity; discriminate H.
Qed.

Lemma sub_punct_chars (s : string) :
  Urllib.forall_string (fun c => Text.is_word c || Text.is_space c) (Re.sub_punct s) = true.
Proof.
  unfold Re.sub_punct. apply forall_string_map.
  intros c. destruct (Text.is_word c || Text.is_space c) eqn:E; [exact E | reflexivity].
Qed.

Lemma clean_word_char_no_space (c : ascii) :
  clean_word_char c = true -> Text.is_space c = false.
Proof.
  destruct c as [[] [] [] [] [] [] [] []]; intros H; try reflexivity; discriminate H.
Qed.

(** X1. For every text, the cleaned text consists only of lowercase
    letters, digits, underscores and whitespace, it neither starts nor
    ends with whitespace, and every word the analyzer looks up in its
    lexicon is non-empty and made of lowercase letters, digits and
    underscores only. *)
Theorem clean_text_alphabet (text : string) :
  Urllib.forall_string clean_char (SentimentAnalyzer._clean_text text) = true /\
  (forall c rest, SentimentAnalyzer._clean_text text = String c rest ->
                  Text.is_space c = false) /\
  (forall init c, SentimentAnalyzer._clean_text text = init ++ String c "" ->
                  Text.is_space c = false) /\
  Forall (fun word => word <> "" /\ Urllib.forall_string clean_word_char word = true)
         (Text.split (SentimentAnalyzer._clean_text text)).
Proof.
  assert (Hclean :
    Urllib.forall_string clean_char (SentimentAnalyzer._clean_text text) = true).
  { unfold SentimentAnalyzer._clean_text, Text.lower.
    apply forall_string_strip.
    eapply forall_string_map_if; [exact lower_char_clean | apply sub_punct_chars]. }
  split; [exact Hclean|]. split; [|split].
  - intros c rest H. eapply strip_first, H.
  - intros init c H. eapply strip_last, H.
  - unfold Text.split. apply split_from_words.
    + exact clean_word_char_no_space.
    + exact Hclean.
    + reflexivity.
Qed.

(** ** Scores of the analyzer *)

(** The sign of a quotient by a positive integer is that of the numerator. *)
Lemma ratio_sign (a t : Z) :
  0 < t ->
  ((0 < inject_Z a / inject_Z t)%Q <-> 0 < a) /\
  ((inject_Z a / inject_Z t < 0)%Q <-> a < 0) /\
  ((inject_Z a / inject_Z t == 0)%Q <-> a = 0).
Proof.
  intros Ht. destruct t as [|p|p]; try lia.
  unfold Qdiv, Qmult, Qinv, Qlt, Qeq, inject_Z. cbn [Qnum Qden Z.mul Pos.mul].
  repeat split; intros H; lia.
Qed.

(** The political score: its range, its value without words, its sign. *)
Lemma political_sentiment_facts (text : string) :
  exists q,
    SentimentAnalyzer._calculate_political_sentiment text = Ok q /\
    (-1 <= q <= 1)%Q /\
    (Text.split text = [] -> q = 0%Q) /\
    let p := SentimentAnalyzer.count_in SentimentAnalyzer.positive_keywords (Text.split text) in
    let n := SentimentAnalyzer.count_in SentimentAnalyzer.negative_keywords (Text.split text) in
    ((0 < q)%Q <-> n < p) /\ ((q < 0)%Q <-> p < n) /\ ((q == 0)%Q <-> p = n).
Proof.
  destruct (political_sentiment_ok text) as [q [Hq Hrange]].
  exists q. split; [exact Hq|]. split; [exact Hrange|].
  unfold SentimentAnalyzer._calculate_political_sentiment in Hq.
  pose proof (count_in_bounds SentimentAnalyzer.positive_keywords (Text.split text)) as Bp.
  pose proof (count_in_bounds SentimentAnalyzer.negative_keywords (Text.split text)) as Bn.
  set (p := SentimentAnalyzer.count_in SentimentAnalyzer.positive_keywords (Text.split text)) in *.
  set (n := SentimentAnalyzer.count_in SentimentAnalyzer.negative_keywords (Text.split text)) in *.
  fold (len (Text.split text)) in Hq.
  destruct (len (Text.split text) =? 0) eqn:E.
  - apply Z.eqb_eq in E. inversion Hq; subst q.
    split; [reflexivity|]. cbv zeta.
    repeat split; intros H; try lia; try reflexivity; try (exfalso; revert H; apply Qlt_irrefl).
  - apply Z.eqb_neq in E.
    rewrite py_div_Z in Hq by exact E. inversion Hq; subst q. clear Hq.
    split.
    + intros H. rewrite H in E. exfalso. apply E. reflexivity.
    + cbv zeta.
      destruct (ratio_sign (p - n) (len (Text.split text)) ltac:(lia)) as (S1 & S2 & S3).
      rewrite S1, S2, S3. repeat split; intros; lia.
Qed.

(** X2. For every (cleaned) text the political score is computed
    without error, lies in [[-1, 1]], is 0 when the text has no words,
    and its sign is that of the difference between the positive and the
    negative lexicon hits. *)
Theorem political_sentiment_sign (text : string) :
  exists q,
    SentimentAnalyzer._calculate_political_sentiment text = Ok q /\
    (-1 <= q <= 1)%Q /\
    (Text.split text = [] -> q = 0%Q) /\
    let p := SentimentAnalyzer.count_in SentimentAnalyzer.positive_keywords (Text.split text) in
    let n := SentimentAnalyzer.count_in SentimentAnalyzer.negative_keywords (Text.split text) in
    ((0 < q)%Q <-> n < p) /\ ((q < 0)%Q <-> p < n) /\ ((q == 0)%Q <-> p = n).
Proof.
  destruct (political_sentiment_facts text) as (q & Hq & Hrange & Hempty & Hsign).
  exists q. split; [exact Hq|]. split; [exact Hrange|]. split; [exact Hempty|].
  exact Hsign.
Qed.

(** What the keyword strategy returns, with the political score. *)
Lemma analyze_with_keywords_fields (text : string) :
  let p := SentimentAnalyzer.count_in SentimentAnalyzer.positive_keywords (Text.split text) in
  let n := SentimentAnalyzer.count_in SentimentAnalyzer.negative_keywords (Text.split text) in
  exists r ps,
    SentimentAnalyzer._analyze_with_keywords text = Ok r /\
    SentimentAnalyzer._calculate_political_sentiment text = Ok ps /\
    political_score r = ps /\
    polarity r = score r /\
    emotion r = SentimentAnalyzer._detect_emotion text /\
    (p = n -> label r = "neutral" /\ score r = 0%Q) /\
    (n < p -> label r = "positive" /\ (4 # 10 <= score r <= 8 # 10)%Q) /\
    (p < n -> label r = "negative" /\ (- (8 # 10) <= score r <= - (4 # 10))%Q).
Proof.
  intros p n. unfold SentimentAnalyzer._analyze_with_keywords.
  destruct (political_sentiment_ok text) as [ps [Hps _]].
  rewrite Hps. cbn [rbind]. fold p n.
  assert (Hmag : forall k, 1 <= k ->
            (4 # 10 <= Qmin (8 # 10) ((3 # 10) + inject_Z k * (1 # 10)) <= 8 # 10)%Q).
  { intros k Hk.
    assert (Hq : (1 <= inject_Z k)%Q) by (change 1%Q with (inject_Z 1); now rewrite <- Zle_Qle).
    destruct (Q.min_spec (8 # 10) ((3 # 10) + inject_Z k * (1 # 10))) as [[L E] | [L E]];
      rewrite E; lra. }
  assert (Hneg : forall k, 1 <= k ->
            (- (8 # 10) <= Qmax (- (8 # 10)) (- (3 # 10) - inject_Z k * (1 # 10))
             <= - (4 # 10))%Q).
  { intros k Hk.
    assert (Hq : (1 <= inject_Z k)%Q) by (change 1%Q with (inject_Z 1); now rewrite <- Zle_Qle).
    destruct (Q.max_spec (- (8 # 10)) (- (3 # 10) - inject_Z k * (1 # 10))) as [[L E] | [L E]];
      rewrite E; lra. }
  destruct (p >? n) eqn:Epn.
  - apply Z.gtb_lt in Epn.
    eexists. exists ps. split; [reflexivity|]. split; [reflexivity|].
    cbn [score label polarity political_score emotion].
    repeat split; try reflexivity; intros; try lia; apply (Hmag (p - n)); lia.
  - destruct (n >? p) eqn:Enp.
    + apply Z.gtb_lt in Enp.
      eexists. exists ps. split; [reflexivity|]. split; [reflexivity|].
      cbn [score label polarity political_score emotion].
      repeat split; try reflexivity; intros; try lia; apply (Hneg (n - p)); lia.
    + assert (p = n).
      { destruct (Z.gtb_spec p n); destruct (Z.gtb_spec n p); try discriminate; lia. }
      eexists. exists ps. split; [reflexivity|]. split; [reflexivity|].
      cbn [score label polarity political_score emotion].
      repeat split; try reflexivity; intros; lia.
Qed.

(** X3. Under the keyword-only strategy, for every text: the label
    agrees with the sign of the political score and with the sign of the
    score, the polarity field repeats the score, and the score is 0 or
    of magnitude between 0.4 and 0.8, never in between. *)
Theorem lexical_label_agrees_with_signs (textblob_sentiment : string -> Q * Q) (text : string) :
  exists r,
    SentimentAnalyzer.analyze_sentiment false textblob_sentiment text = Ok r /\
    polarity r = score r /\
    (label r = "positive" <-> (0 < political_score r)%Q) /\
    (label r = "negative" <-> (political_score r < 0)%Q) /\
    (label r = "neutral" <-> (political_score r == 0)%Q) /\
    (label r = "positive" <-> (0 < score r)%Q) /\
    (label r = "negative" <-> (score r < 0)%Q) /\
    (score r = 0%Q \/ (4 # 10 <= Qabs (score r) <= 8 # 10)%Q).
Proof.
  unfold SentimentAnalyzer.analyze_sentiment.
  set (cleaned := SentimentAnalyzer._clean_text text).
  destruct (analyze_with_keywords_fields cleaned)
    as (r & ps & Hr & Hps & Epol & Ep & _ & Heq & Hpos & Hneg).
  destruct (political_sentiment_facts cleaned) as (q & Hq & _ & _ & S1 & S2 & S3).
  rewrite Hps in Hq. inversion Hq; subst q. clear Hq.
  set (p := SentimentAnalyzer.count_in SentimentAnalyzer.positive_keywords
              (Text.split cleaned)) in *.
  set (n := SentimentAnalyzer.count_in SentimentAnalyzer.negative_keywords
              (Text.split cleaned)) in *.
  exists r. split; [exact Hr|]. split; [exact Ep|]. rewrite Epol.
  destruct (Z.lt_trichotomy p n) as [H | [H | H]].
  - destruct (Hneg H) as [Hl Hs]. rewrite Hl.
    assert (Hps' : (ps < 0)%Q) by (apply S2; exact H).
    repeat split; intros; try discriminate; try lra; try reflexivity.
    right. rewrite Qabs_neg by lra. lra.
  - destruct (Heq H) as [Hl Hs]. rewrite Hl, Hs.
    assert (Hps' : (ps == 0)%Q) by (apply S3; exact H).
    repeat split; intros; try discriminate; try lra; try reflexivity; try exact Hps'.
    now left.
  - destruct (Hpos H) as [Hl Hs]. rewrite Hl.
    assert (Hps' : (0 < ps)%Q) by (apply S1; exact H).
    repeat split; intros; try discriminate; try lra; try reflexivity.
    right. rewrite Qabs_pos by lra. lra.
Qed.

(** X4. Under either strategy, for every text, the emotion of the
    result is the one detected on the cleaned text, and it is one of
    anger, joy, fear, sadness, surprise and neutral. *)
Theorem emotion_tag_range (HAS_TEXTBLOB : bool) (textblob_sentiment : string -> Q * Q)
  (text : string) :
  exists r,
    SentimentAnalyzer.analyze_sentiment HAS_TEXTBLOB textblob_sentiment text = Ok r /\
    emotion r = SentimentAnalyzer._detect_emotion (SentimentAnalyzer._clean_text text) /\
    In (emotion r) ["anger"; "joy"; "fear"; "sadness"; "surprise"; "neutral"].
Proof.
  assert (Htag : forall t,
    In (SentimentAnalyzer._detect_emotion t)
       ["anger"; "joy"; "fear"; "sadness"; "surprise"; "neutral"]).
  { intros t. unfold SentimentAnalyzer._detect_emotion, SentimentAnalyzer.emotions.
    cbn [SentimentAnalyzer.first_emotion].
    repeat match goal with
    | |- context [if ?b then _ else _] => destruct b
    end; simpl; auto 10. }
  unfold SentimentAnalyzer.analyze_sentiment.
  set (cleaned := SentimentAnalyzer._clean_text text).
  destruct HAS_TEXTBLOB.
  - unfold SentimentAnalyzer._analyze_with_textblob.
    destruct (textblob_sentiment cleaned) as [pol subj].
    destruct (political_sentiment_ok cleaned) as [ps [Hps _]].
    rewrite Hps. cbn [rbind].
    rewrite py_div_ok by (intro H; discriminate H). cbn [rbind].
    eexists. split; [reflexivity|]. cbn [emotion]. split; [reflexivity | apply Htag].
  - destruct (analyze_with_keywords_fields cleaned) as (r & ps & Hr & _ & _ & _ & He & _).
    exists r. split; [exact Hr|]. rewrite He. split; [reflexivity | apply Htag].
Qed.

(** ** Video-id extraction: the pattern and the query *)

Lemma take_id_spec (n : nat) (s id : string) :
  VideoIdPattern.take_id n s = Some id ->
  String.length id = n /\
  Urllib.forall_string VideoIdPattern.is_id_char id = true /\
  exists rest, s = id ++ rest.
Proof.
  revert s id. induction n as [|n IH]; intros s id; cbn [VideoIdPattern.take_id].
  - intros H. inversion H; subst. repeat split. now exists s.
  - destruct s as [|c s]; [discriminate|].
    destruct (VideoIdPattern.is_id_char c) eqn:Ec; [|discriminate].
    destruct (VideoIdPattern.take_id n s) as [g|] eqn:Eg; [|discriminate].
    cbn [option_map]. intros H. inversion H; subst.
    destruct (IH _ _ Eg) as (Hl & Hc & rest & Hr).
    cbn [String.length Urllib.forall_string]. rewrite Hl, Ec, Hc.
    repeat split. exists rest. cbn. now rewrite <- Hr.
Qed.

Lemma take_id_complete (id rest : string) :
  Urllib.forall_string VideoIdPattern.is_id_char id = true ->
  VideoIdPattern.take_id (String.length id) (id ++ rest) = Some id.
Proof.
  induction id as [|c id IH]; [reflexivity|].
  cbn [Urllib.forall_string]. intros H. apply andb_true_iff in H. destruct H as [Hc Hid].
  cbn [String.length append VideoIdPattern.take_id]. rewrite Hc, (IH Hid). reflexivity.
Qed.

Lemma prefix_of_append (a b : string) : prefix a (a ++ b) = true.
Proof. apply prefix_iff. now exists b. Qed.

Lemma drop_append (a b : string) : Text.drop (String.length a) (a ++ b) = b.
Proof. induction a as [|c a IH]; [now destruct b | exact IH]. Qed.

(** The search finds a token exactly when the URL holds one. *)
Lemma search_spec (url : string) :
  match VideoIdPattern.search url with
  | Some id => id_token_in url id
  | None => forall id, ~ id_token_in url id
  end.
Proof.
  induction url as [|c url IH].
  - cbn. intros id (Hl & _ & before & after & [H | H]);
      destruct before; cbn in H; discriminate H.
  - cbn [VideoIdPattern.search].
    destruct (VideoIdPattern.match_here (String c url)) as [g|] eqn:Eh.
    + unfold VideoIdPattern.match_here in Eh.
      destruct (prefix "v=" (String c url)) eqn:Pv.
      * apply prefix_iff in Pv. destruct Pv as [b Hb]. rewrite Hb in Eh |- *.
        change (Text.drop 2 ("v=" ++ b)) with b in Eh.
        destruct (take_id_spec _ _ _ Eh) as (Hl & Hc & rest & Hr).
        split; [exact Hl|]. split; [exact Hc|].
        exists "", rest. left. cbn. now rewrite Hr.
      * destruct (prefix "/" (String c url)) eqn:Ps; [|discriminate].
        apply prefix_iff in Ps. destruct Ps as [b Hb]. rewrite Hb in Eh |- *.
        change (Text.drop 1 ("/" ++ b)) with b in Eh.
        destruct (take_id_spec _ _ _ Eh) as (Hl & Hc & rest & Hr).
        split; [exact Hl|]. split; [exact Hc|].
        exists "", rest. right. cbn. now rewrite Hr.
    + assert (Hhere : forall id after,
                String.length id = 11%nat ->
                Urllib.forall_string VideoIdPattern.is_id_char id = true ->
                String c url <> "v=" ++ id ++ after /\ String c url <> "/" ++ id ++ after).
      { intros id after Hl Hc. unfold VideoIdPattern.match_here in Eh.
        split; intros E; rewrite E in Eh.
        - rewrite (prefix_of_append "v=" (id ++ after)) in Eh.
          change (Text.drop 2 ("v=" ++ id ++ after)) with (id ++ after) in Eh.
          rewrite <- Hl, take_id_complete in Eh by exact Hc. discriminate Eh.
        - assert (Pv : prefix "v=" ("/" ++ id ++ after) = false) by reflexivity.
          rewrite Pv, (prefix_of_append "/" (id ++ after)) in Eh.
          change (Text.drop 1 ("/" ++ id ++ after)) with (id ++ after) in Eh.
          rewrite <- Hl, take_id_complete in Eh by exact Hc. discriminate Eh. }
      destruct (VideoIdPattern.search url) as [g|] eqn:Es.
      * destruct IH as (Hl & Hc & before & after & H).
        split; [exact Hl|]. split; [exact Hc|].
        exists (String c before), after.
        destruct H as [H | H]; [left | right]; cbn; now rewrite H.
      * intros id (Hl & Hc & before & after & H).
        destruct before as [|d before].
        -- destruct (Hhere id after Hl Hc) as [N1 N2].
           destruct H as [H | H]; cbn in H; [now apply N1 | now apply N2].
        -- apply (IH id). split; [exact Hl|]. split; [exact Hc|].
           exists before, after.
           destruct H as [H | H]; cbn in H; inversion H; subst; [now left | now right].
Qed.

(** X5. When a URL falls through to the pattern search, a returned id
    is an 11-character token of letters, digits, underscores and hyphens
    that stands in the URL right after [v=] or a slash; [ValueError] is
    raised exactly when the URL holds no such token; and no other
    exception is raised. *)
Theorem fallback_id_shape (url : string) (parsed_url : Urllib.ParseResult)
  (parsed : Urllib.urlparse url = Ok parsed_url)
  (fallback : uses_fallback parsed_url = true) :
  (forall id, extract_video_id url = Ok id -> id_token_in url id) /\
  ((exists msg, extract_video_id url = Raise (ValueError msg)) <->
   (forall id, ~ id_token_in url id)) /\
  (forall e, extract_video_id url = Raise e -> exists msg, e = ValueError msg).
Proof.
  assert (E : extract_video_id url =
              match VideoIdPattern.search url with
              | Some video_id => Ok video_id
              | None => Raise (ValueError ("Could not extract video ID from URL: " ++ url))
              end).
  { unfold extract_video_id. rewrite parsed. cbn [rbind].
    unfold uses_fallback in fallback.
    destruct (hostname_in (Urllib.hostname parsed_url) ["youtube.com"; "www.youtube.com"]).
    - apply negb_true_iff in fallback. now rewrite fallback.
    - apply negb_true_iff in fallback. now rewrite fallback. }
  rewrite E. pose proof (search_spec url) as S.
  destruct (VideoIdPattern.search url) as [g|].
  - split; [intros id H; inversion H; subst; exact S|]. split.
    + split; [intros [msg H]; discriminate H | intros H; exfalso; exact (H g S)].
    + intros e H. discriminate H.
  - split; [intros id H; discriminate H|]. split.
    + split; [intros _; exact S | intros _; eexists; reflexivity].
    + intros e H. inversion H. eexists. reflexivity.
Qed.

(** An embed URL of a youtube.com host. *)
Lemma fallback_id_shape_witness :
  Urllib.urlparse embed_url = Ok embed_parsed /\
  uses_fallback embed_parsed = true /\
  id_token_in embed_url "O6DTtVOPwEU".
Proof.
  assert (parsed : Urllib.urlparse embed_url = Ok embed_parsed) by (vm_compute; reflexivity).
  assert (fallback : uses_fallback embed_parsed = true) by (vm_compute; reflexivity).
  split; [exact parsed|]. split; [exact fallback|].
  apply (proj1 (fallback_id_shape embed_url embed_parsed parsed fallback)).
  vm_compute. reflexivity.
Defined.

Lemma getitem_dict_append (d : Urllib.qs_dict) (name value key : string) :
  Urllib.getitem (Urllib.dict_append name value d) key =
  if (name =? key)%string
  then match Urllib.getitem d key with
       | Ok vs => Ok (vs ++ [value])%list
       | Raise _ => Ok [value]
       end
  else Urllib.getitem d key.
Proof.
  induction d as [|[k vs] d IH]; cbn [Urllib.dict_append Urllib.getitem].
  - destruct (name =? key)%string; reflexivity.
  - destruct (k =? name)%string eqn:Ekn; cbn [Urllib.getitem].
    + apply String.eqb_eq in Ekn. subst k.
      destruct (name =? key)%string; reflexivity.
    + destruct (k =? key)%string eqn:Ekk.
      * apply String.eqb_eq in Ekk. subst k.
        rewrite String.eqb_sym in Ekn. now rewrite Ekn.
      * exact IH.
Qed.

(** [parse_qs(qs)[key]] is the list of the values of [key], and a
    [KeyError] when there is none. *)
Lemma getitem_parse_qs (qs key : string) :
  Urllib.getitem (Urllib.parse_qs qs) key =
  match values_of key (Urllib.parse_qsl qs) with
  | [] => Raise (KeyError key)
  | vs => Ok vs
  end.
Proof.
  unfold Urllib.parse_qs.
  assert (G : forall pairs d,
    Urllib.getitem (fold_left (fun d nv => Urllib.dict_append (fst nv) (snd nv) d) pairs d) key =
    match Urllib.getitem d key with
    | Ok vs => Ok (vs ++ values_of key pairs)%list
    | Raise _ => match values_of key pairs with
                 | [] => Raise (KeyError key)
                 | vs => Ok vs
                 end
    end).
  { induction pairs as [|[n v] pairs IH]; intros d; cbn [fold_left].
    - unfold values_of. cbn [filter map].
      destruct (Urllib.getitem d key) as [vs|e] eqn:E.
      + now rewrite app_nil_r.
      + clear - E. induction d as [|[k vs] d IH]; cbn [Urllib.getitem] in *.
        * now inversion E.
        * destruct (k =? key)%string; [discriminate E | now apply IH].
    - rewrite IH, getitem_dict_append. cbn [fst snd].
      unfold values_of. cbn [filter fst].
      destruct (n =? key)%string; cbn [map snd].
      + destruct (Urllib.getitem d key) as [vs|e].
        * now rewrite <- app_assoc.
        * reflexivity.
      + reflexivity. }
  rewrite G. reflexivity.
Qed.

Lemma urlsplit_raises (url : string) (e : exn) :
  Urllib.urlsplit url = Raise e -> e = ValueError "Invalid IPv6 URL".
Proof.
  unfold Urllib.urlsplit.
  destruct (Urllib.split_scheme _) as [scheme rest].
  destruct (prefix "//" rest).
  - destruct (Urllib.span_until _ _) as [netloc rest'].
    destruct (xorb _ _); cbn [rbind].
    + intros H. now inversion H.
    + destruct (Urllib.partition "#" rest') as [[u f] frag].
      destruct (Urllib.partition "?" u) as [[u' f'] q]. discriminate.
  - cbn [rbind].
    destruct (Urllib.partition "#" rest) as [[u f] frag].
    destruct (Urllib.partition "?" u) as [[u' f'] q]. discriminate.
Qed.

Lemma urlparse_raises (url : string) (e : exn) :
  Urllib.urlparse url = Raise e -> e = ValueError "Invalid IPv6 URL".
Proof.
  unfold Urllib.urlparse.
  destruct (Urllib.urlsplit url) as [r|e'] eqn:E; cbn [rbind].
  - destruct (_ && _); [|discriminate].
    destruct (Urllib._splitparams _). discriminate.
  - intros H. inversion H; subst. eapply urlsplit_raises, E.
Qed.

(** X6. For every URL, [extract_video_id] returns an id or raises
    [KeyError] for the key v or raises [ValueError]; in particular the
    index [[0]] into the values of v never raises [IndexError]. *)
Theorem extract_video_id_exceptions (url : string) :
  match extract_video_id url with
  | Ok _ => True
  | Raise (KeyError key) => key = "v"
  | Raise (ValueError _) => True
  | Raise _ => False
  end.
Proof.
  unfold extract_video_id.
  destruct (Urllib.urlparse url) as [parsed_url|e] eqn:Ep; cbn [rbind].
  - assert (F : match (match VideoIdPattern.search url with
                       | Some video_id => Ok video_id
                       | None => Raise (ValueError
                                   ("Could not extract video ID from URL: " ++ url))
                       end : result string) with
                | Ok _ => True
                | Raise (KeyError key) => key = "v"
                | Raise (ValueError _) => True
                | Raise _ => False
                end) by (destruct (VideoIdPattern.search url); exact I).
    destruct (hostname_in _ ["youtube.com"; "www.youtube.com"]).
    + destruct (_ =? "/watch")%string; [|exact F].
      rewrite getitem_parse_qs.
      destruct (values_of "v" _) as [|v vs]; cbn [rbind Urllib.first]; [reflexivity | exact I].
    + destruct (hostname_in _ ["youtu.be"]); [exact I | exact F].
  - rewrite (urlparse_raises _ _ Ep). exact I.
Qed.

(** X7. For a youtube.com or www.youtube.com URL with the path /watch
    whose query gives v a value, [extract_video_id] returns the first
    value of v as it stands, of whatever length and characters. *)
Theorem watch_returns_first_v (url : string) (parsed_url : Urllib.ParseResult)
  (value : string) (others : list string)
  (parsed : Urllib.urlparse url = Ok parsed_url)
  (host : hostname_in (Urllib.hostname parsed_url) ["youtube.com"; "www.youtube.com"] = true)
  (watch : Urllib.path parsed_url = "/watch")
  (has_v : values_of "v" (Urllib.parse_qsl (Urllib.query parsed_url)) = value :: others) :
  extract_video_id url = Ok value.
Proof.
  unfold extract_video_id. rewrite parsed. cbn [rbind].
  rewrite host, watch. cbn [String.eqb Ascii.eqb Bool.eqb].
  rewrite getitem_parse_qs, has_v. reflexivity.
Qed.

(** A watch URL with two values of v: the first one, three characters
    long, is returned. *)
Lemma watch_returns_first_v_witness :
  Urllib.urlparse double_v_url = Ok double_v_parsed /\
  values_of "v" (Urllib.parse_qsl (Urllib.query double_v_parsed)) = ["abc"; "O6DTtVOPwEU"] /\
  extract_video_id double_v_url = Ok "abc".
Proof.
  assert (parsed : Urllib.urlparse double_v_url = Ok double_v_parsed)
    by (vm_compute; reflexivity).
  assert (has_v : values_of "v" (Urllib.parse_qsl (Urllib.query double_v_parsed))
                  = ["abc"; "O6DTtVOPwEU"]) by (vm_compute; reflexivity).
  split; [exact parsed|]. split; [exact has_v|].
  apply (watch_returns_first_v double_v_url double_v_parsed "abc" ["O6DTtVOPwEU"] parsed);
    [vm_compute; reflexivity | reflexivity | exact has_v].
Defined.

(** ** Video-id extraction: round trips *)

Lemma forall_string_impl (p q : ascii -> bool) (s : string) :
  (forall c, p c = true -> q c = true) ->
  Urllib.forall_string p s = true -> Urllib.forall_string q s = true.
Proof.
  intros H. induction s as [|c s IH]; [reflexivity|].
  cbn [Urllib.forall_string]. intros Hs. apply andb_true_iff in Hs.
  destruct Hs as [Hc Hs]. now rewrite (H c Hc), IH.
Qed.

Lemma partition_absent (sep : ascii) (s : string) :
  Urllib.forall_string (differs sep) s = true ->
  Urllib.partition sep s = (s, false, "").
Proof.
  induction s as [|c s IH]; [reflexivity|].
  cbn [Urllib.forall_string Urllib.partition]. intros H.
  apply andb_true_iff in H. destruct H as [Hc Hs].
  unfold differs in Hc. apply negb_true_iff in Hc. rewrite Hc, (IH Hs). reflexivity.
Qed.

Lemma filter_string_all (keep : ascii -> bool) (s : string) :
  Urllib.forall_string keep s = true -> Urllib.filter_string keep s = s.
Proof.
  induction s as [|c s IH]; [reflexivity|].
  cbn [Urllib.forall_string Urllib.filter_string]. intros H.
  apply andb_true_iff in H. destruct H as [Hc Hs]. now rewrite Hc, IH.
Qed.

Lemma id_char_plain (c : ascii) :
  VideoIdPattern.is_id_char c = true ->
  negb (Urllib.is_unsafe c) = true /\
  differs "#" c = true /\ differs "?" c = true /\ differs "&" c = true /\
  differs "=" c = true /\ differs ";" c = true /\ differs "%" c = true /\
  differs "+" c = true.
Proof.
  destruct c as [[] [] [] [] [] [] [] []]; intros H; try discriminate H; repeat split.
Qed.

Lemma forall_string_app (p : ascii -> bool) (a b : string) :
  Urllib.forall_string p (a ++ b) = Urllib.forall_string p a && Urllib.forall_string p b.
Proof.
  induction a as [|c a IH]; [reflexivity|].
  cbn [append Urllib.forall_string]. now rewrite IH, andb_assoc.
Qed.

Lemma has_char_absent (sep : ascii) (s : string) :
  Urllib.forall_string (differs sep) s = true -> Urllib.has_char sep s = false.
Proof.
  intros H. unfold Urllib.has_char.
  destruct (Text.contains (String sep "") s) eqn:E; [|reflexivity].
  apply contains_iff in E. destruct E as (a & b & ->).
  rewrite forall_string_app in H. apply andb_true_iff in H. destruct H as [_ H].
  cbn [append Urllib.forall_string] in H. unfold differs at 1 in H.
  rewrite Ascii.eqb_refl in H. discriminate H.
Qed.

Lemma split_on_absent (sep : ascii) (cur s : string) :
  Urllib.forall_string (differs sep) s = true ->
  Urllib.split_on_from sep cur s = [cur ++ s].
Proof.
  revert cur. induction s as [|c s IH]; intros cur H.
  - cbn. now rewrite append_empty_r.
  - cbn [Urllib.forall_string] in H. apply andb_true_iff in H. destruct H as [Hc Hs].
    unfold differs in Hc. apply negb_true_iff in Hc.
    cbn [Urllib.split_on_from]. rewrite Hc, (IH _ Hs), string_app_assoc. reflexivity.
Qed.

Lemma map_string_fixed (f : ascii -> ascii) (s : string) :
  Urllib.forall_string (fun c => (f c =? c)%char) s = true -> Text.map_string f s = s.
Proof.
  induction s as [|c s IH]; [reflexivity|].
  cbn [Urllib.forall_string Text.map_string]. intros H.
  apply andb_true_iff in H. destruct H as [Hc Hs].
  apply Ascii.eqb_eq in Hc. now rewrite Hc, IH.
Qed.

Lemma unquote_plain (s : string) :
  Urllib.forall_string (differs "%") s = true -> Urllib.unquote s = s.
Proof.
  unfold Urllib.unquote.
  induction s as [|c s IH]; [reflexivity|].
  cbn [Urllib.forall_string Urllib.unquote_from]. intros H.
  apply andb_true_iff in H. destruct H as [Hc Hs].
  unfold differs in Hc. apply negb_true_iff in Hc. now rewrite Hc, IH.
Qed.

Section RoundTrip.

Variable id : string.
Hypothesis id_chars : Urllib.forall_string VideoIdPattern.is_id_char id = true.

Let plain (c : ascii) (H : VideoIdPattern.is_id_char c = true) := id_char_plain c H.

Lemma id_safe : Urllib.forall_string (fun c => negb (Urllib.is_unsafe c)) id = true.
Proof. eapply forall_string_impl; [|exact id_chars]. intros c Hc. apply (plain c Hc). Qed.

Lemma id_without (sep : ascii) :
  In sep ["#"; "?"; "&"; "="; ";"; "%"; "+"]%char ->
  Urllib.forall_string (differs sep) id = true.
Proof.
  intros Hin. eapply forall_string_impl; [|exact id_chars]. intros c Hc.
  destruct (plain c Hc) as (_ & H1 & H2 & H3 & H4 & H5 & H6 & H7).
  cbn [In] in Hin.
  destruct Hin as [<- | [<- | [<- | [<- | [<- | [<- | [<- | []]]]]]]]; assumption.
Qed.

Lemma urlparse_watch_url :
  Urllib.urlparse (watch_url id) =
  Ok {| Urllib.scheme := "https"; Urllib.netloc := "www.youtube.com";
        Urllib.path := "/watch"; Urllib.params := ""; Urllib.query := "v=" ++ id;
        Urllib.fragment := "" |}.
Proof.
  unfold Urllib.urlparse, Urllib.urlsplit, watch_url.
  cbn. rewrite (filter_string_all _ id id_safe). cbn.
  rewrite (partition_absent "#" id) by (apply id_without; cbn; auto 10).
  cbn. reflexivity.
Qed.

Lemma parse_qs_v : id <> "" -> Urllib.parse_qs ("v=" ++ id) = [("v", [id])].
Proof.
  intros Hne. unfold Urllib.parse_qs, Urllib.parse_qsl, Urllib.split_on.
  cbn [append Urllib.split_on_from Ascii.eqb Bool.eqb].
  rewrite (split_on_absent "&" _ id) by (apply id_without; cbn; auto 10).
  cbn [flat_map append Urllib.partition Ascii.eqb Bool.eqb andb].
  rewrite app_nil_r.
  assert (Hnz : (id =? "")%string = false)
    by (destruct (String.eqb_spec id ""); [contradiction | reflexivity]).
  rewrite Hnz. cbn [negb fold_left fst snd Urllib.dict_append].
  unfold Urllib.plus_to_space.
  rewrite (map_string_fixed _ id).
  - rewrite (unquote_plain id) by (apply id_without; cbn; auto 10). reflexivity.
  - eapply forall_string_impl; [|exact (id_without "+" ltac:(cbn; auto 10))].
    intros d Hd. unfold differs in Hd. apply negb_true_iff in Hd. rewrite Hd.
    apply Ascii.eqb_refl.
Qed.

Lemma contains_absent (sep : ascii) :
  In sep ["#"; "?"; "&"; "="; ";"; "%"; "+"]%char ->
  Text.contains (String sep "") id = false.
Proof. intros H. apply (has_char_absent sep id), id_without, H. Qed.

Lemma urlparse_short_url :
  Urllib.urlparse (short_url id) =
  Ok {| Urllib.scheme := "https"; Urllib.netloc := "youtu.be";
        Urllib.path := "/" ++ id; Urllib.params := ""; Urllib.query := "";
        Urllib.fragment := "" |}.
Proof.
  unfold Urllib.urlparse, Urllib.urlsplit, short_url.
  cbn. rewrite (filter_string_all _ id id_safe). cbn.
  rewrite (partition_absent "#" id) by (apply id_without; cbn; auto 10).
  cbn.
  rewrite (partition_absent "?" id) by (apply id_without; cbn; auto 10).
  cbn. unfold Urllib.has_char. cbn.
  rewrite (contains_absent ";") by (cbn; auto 10). reflexivity.
Qed.

Lemma urlparse_embed_url :
  Urllib.urlparse (embed_url_of id) =
  Ok {| Urllib.scheme := "https"; Urllib.netloc := "www.youtube.com";
        Urllib.path := "/embed/" ++ id; Urllib.params := ""; Urllib.query := "";
        Urllib.fragment := "" |}.
Proof.
  unfold Urllib.urlparse, Urllib.urlsplit, embed_url_of.
  cbn. rewrite (filter_string_all _ id id_safe). cbn.
  rewrite (partition_absent "#" id) by (apply id_without; cbn; auto 10).
  cbn.
  rewrite (partition_absent "?" id) by (apply id_without; cbn; auto 10).
  cbn. unfold Urllib.has_char. cbn.
  rewrite (contains_absent ";") by (cbn; auto 10). reflexivity.
Qed.

Lemma search_skip (c : ascii) (r : string) :
  VideoIdPattern.match_here (String c r) = None ->
  VideoIdPattern.search (String c r) = VideoIdPattern.search r.
Proof. intros H. cbn [VideoIdPattern.search]. now rewrite H. Qed.

Lemma search_embed_url :
  String.length id = 11%nat -> VideoIdPattern.search (embed_url_of id) = Some id.
Proof.
  intros Hlen. unfold embed_url_of.
  pose proof (take_id_complete id "" id_chars) as T.
  rewrite append_empty_r, Hlen in T.
  cbn [append]. repeat (rewrite search_skip by reflexivity).
  cbn [VideoIdPattern.search]. unfold VideoIdPattern.match_here at 1.
  replace (prefix "v=" (String "/" id)) with false by reflexivity.
  change (String "/" id) with ("/" ++ id).
  rewrite prefix_of_append.
  change (Text.drop 1 ("/" ++ id)) with id.
  now rewrite T.
Qed.

End RoundTrip.

(** X8. For every non-empty id made of letters, digits, underscores
    and hyphens, the watch URL and the short link built from it extract
    back to it, and when it has 11 characters so does the embed URL,
    through the pattern search. *)
Theorem url_round_trip (id : string)
  (id_chars : Urllib.forall_string VideoIdPattern.is_id_char id = true)
  (nonempty : id <> "") :
  extract_video_id (watch_url id) = Ok id /\
  extract_video_id (short_url id) = Ok id /\
  (String.length id = 11%nat -> extract_video_id (embed_url_of id) = Ok id).
Proof.
  split; [|split].
  - unfold extract_video_id. rewrite (urlparse_watch_url id id_chars). cbn [rbind].
    cbn [Urllib.path Urllib.query].
    change (hostname_in _ ["youtube.com"; "www.youtube.com"]) with true. cbv iota.
    change ("/watch" =? "/watch")%string with true. cbv iota.
    rewrite (parse_qs_v id id_chars nonempty). reflexivity.
  - unfold extract_video_id. rewrite (urlparse_short_url id id_chars). cbn [rbind].
    change (hostname_in _ ["youtube.com"; "www.youtube.com"]) with false. cbv iota.
    change (hostname_in _ ["youtu.be"]) with true. cbv iota. reflexivity.
  - intros Hlen.
    unfold extract_video_id. rewrite (urlparse_embed_url id id_chars). cbn [rbind].
    change (hostname_in _ ["youtube.com"; "www.youtube.com"]) with true. cbv iota.
    cbn [Urllib.path].
    change ("/embed/" ++ id =? "/watch")%string with false. cbv iota.
    rewrite (search_embed_url id id_chars Hlen). reflexivity.
Qed.

(** The id of the sample video. *)
Lemma url_round_trip_witness :
  Urllib.forall_string VideoIdPattern.is_id_char "O6DTtVOPwEU" = true /\
  "O6DTtVOPwEU" <> "" /\
  extract_video_id (watch_url "O6DTtVOPwEU") = Ok "O6DTtVOPwEU" /\
  extract_video_id (short_url "O6DTtVOPwEU") = Ok "O6DTtVOPwEU".
Proof.
  assert (id_chars : Urllib.forall_string VideoIdPattern.is_id_char "O6DTtVOPwEU" = true)
    by reflexivity.
  assert (nonempty : "O6DTtVOPwEU" <> "") by discriminate.
  split; [exact id_chars|]. split; [exact nonempty|].
  destruct (url_round_trip "O6DTtVOPwEU" id_chars nonempty) as (H1 & H2 & _).
  split; [exact H1 | exact H2].
Defined.

(** ** Comment acquisition: the mock tier *)

(** A loop whose body keeps an invariant of the world and always
    returns under it. *)
Lemma for_each_inv {A B : Type} (body : A -> Eff B) (I : world -> Prop)
      (P : A -> B -> Prop) (xs : list A) :
  (forall x w, In x xs -> I w -> exists y w', body x w = (Ok y, w') /\ I w' /\ P x y) ->
  forall w, I w ->
    exists ys w', for_each body xs w = (Ok ys, w') /\ I w' /\ Forall2 P xs ys.
Proof.
  induction xs as [|x xs IH]; intros Hbody w Hw.
  - exists [], w. split; [reflexivity|]. split; [exact Hw | constructor].
  - destruct (Hbody x w (or_introl eq_refl) Hw) as (y & w1 & Hy & I1 & Py).
    destruct (IH (fun x' w' H => Hbody x' w' (or_intror H)) w1 I1)
      as (ys & w2 & Hys & I2 & Pys).
    exists (y :: ys), w2. split; [|split; [exact I2 | now constructor]].
    cbn [for_each]. rewrite (ebind_ok _ _ _ _ _ Hy), (ebind_ok _ _ _ _ _ Hys).
    reflexivity.
Qed.

Lemma Forall2_right {A B : Type} (P : B -> Prop) (xs : list A) (ys : list B) :
  Forall2 (fun _ y => P y) xs ys -> Forall P ys.
Proof. induction 1; constructor; auto. Qed.

Section MockShape.

Variable HAS_TEXTBLOB : bool.
Variable textblob_sentiment : string -> Q * Q.

Hypothesis polarity_range :
  HAS_TEXTBLOB = true -> forall t, (-1 <= fst (textblob_sentiment t) <= 1)%Q.

Lemma mod_range (d : N) (lo hi : Z) :
  lo <= hi -> lo <= lo + Z.of_N d mod (hi - lo + 1) <= hi.
Proof.
  intros H. pose proof (Z.mod_pos_bound (Z.of_N d) (hi - lo + 1) ltac:(lia)). lia.
Qed.

Lemma base_comment_shape (video_id : string) (i : nat) (w : world) :
  (i < length MockData.political_comments)%nat ->
  exists c w',
    Scraper.base_comment HAS_TEXTBLOB textblob_sentiment video_id i w = (Ok c, w') /\
    clock w' = clock w /\
    mock_comment_shape (clock w) c.
Proof.
  intros Hi.
  destruct (nth_error MockData.political_comments i) as [t|] eqn:Et;
    [|apply nth_error_None in Et; lia].
  destruct (analyze_total HAS_TEXTBLOB textblob_sentiment polarity_range t) as [r [Hr _]].
  unfold Scraper.base_comment.
  rewrite (ebind_ok _ _ w w t) by (unfold lift; now rewrite Et).
  rewrite (ebind_ok _ _ w w r) by (unfold lift; now rewrite Hr).
  eexists. eexists. split; [reflexivity|]. split; [reflexivity|].
  unfold mock_comment_shape, minutes.
  cbn [likes reply_count is_reply parent_id timestamp source cursor clock ticks].
  split; [apply mod_range; lia|]. split; [apply mod_range; lia|].
  split; [reflexivity|]. split; [reflexivity|].
  exists (ticks w).
  pose proof (mod_range (source w (S (cursor w))) 1 2880 ltac:(lia)). lia.
Qed.

Lemma choose_fillers_clock (w : world) :
  exists f w', Scraper.choose_fillers w = (Ok f, w') /\ clock w' = clock w /\ ticks w' = ticks w.
Proof.
  unfold Scraper.choose_fillers.
  assert (Hc : forall (l : list string) w0, l <> [] ->
            exists x w1, Random.choice l w0 = (Ok x, w1) /\
                         clock w1 = clock w0 /\ ticks w1 = ticks w0).
  { intros l w0 Hl. destruct (choice_ok l w0 Hl) as (x & w1 & H & _).
    exists x, w1. split; [exact H|].
    unfold Random.choice, ebind, Random.draw, lift in H.
    destruct (nth_error l _); inversion H; subst; split; reflexivity. }
  repeat match goal with
  | |- exists f w', ebind (Random.choice ?l) _ ?w0 = _ /\ _ =>
      let x := fresh "x" in let w1 := fresh "w" in
      let H := fresh "H" in let C := fresh "C" in let T := fresh "T" in
      destruct (Hc l w0 ltac:(discriminate)) as (x & w1 & H & C & T);
      rewrite (ebind_ok _ _ _ _ _ H); rewrite <- C, <- T
  end.
  eexists. eexists. split; [reflexivity|]. split; reflexivity.
Qed.

Lemma template_comment_shape (video_id : string) (base : Z) (i : nat) (w : world) :
  exists c w',
    Scraper.template_comment HAS_TEXTBLOB textblob_sentiment video_id base i w = (Ok c, w') /\
    clock w' = clock w /\
    mock_comment_shape (clock w) c.
Proof.
  unfold Scraper.template_comment.
  destruct (choice_ok MockData.comment_templates w ltac:(discriminate))
    as (template & w1 & Ht & _).
  assert (C1 : clock w1 = clock w /\ ticks w1 = ticks w).
  { unfold Random.choice, ebind, Random.draw, lift in Ht.
    destruct (nth_error _ _); inversion Ht; subst; split; reflexivity. }
  rewrite (ebind_ok _ _ _ _ _ Ht).
  destruct (choose_fillers_clock w1) as (f & w2 & Hf & C2 & T2).
  rewrite (ebind_ok _ _ _ _ _ Hf).
  destruct (analyze_total HAS_TEXTBLOB textblob_sentiment polarity_range (template f))
    as [r [Hr _]].
  rewrite (ebind_ok _ _ w2 w2 r) by (unfold lift; now rewrite Hr).
  destruct C1 as [C1 T1].
  eexists. eexists. split; [reflexivity|].
  cbn [clock]. split; [congruence|].
  unfold mock_comment_shape, minutes.
  cbn [likes reply_count is_reply parent_id timestamp source cursor clock ticks].
  pose proof (mod_range (source w2 (S (cursor w2))) 0 50 ltac:(lia)).
  pose proof (mod_range (source w2 (S (S (S (cursor w2))))) 0 5 ltac:(lia)).
  split; [lia|]. split; [lia|].
  split; [reflexivity|]. split; [reflexivity|].
  exists (ticks w2). rewrite <- C1, <- C2.
  pose proof (mod_range (source w2 (S (S (cursor w2)))) 1 1440 ltac:(lia)). lia.
Qed.

Lemma generate_mock_comments_shape (video_id : string) (max_comments : Z) (w : world) :
  exists comments w',
    Scraper._generate_mock_comments HAS_TEXTBLOB textblob_sentiment video_id max_comments w
      = (Ok comments, w') /\
    Forall (mock_comment_shape (clock w)) comments.
Proof.
  unfold Scraper._generate_mock_comments.
  set (base := Z.min (len MockData.political_comments) max_comments).
  destruct (for_each_inv
              (Scraper.base_comment HAS_TEXTBLOB textblob_sentiment video_id)
              (fun w0 => clock w0 = clock w)
              (fun _ c => mock_comment_shape (clock w) c) (range base)) with (w := w)
    as (curated & w1 & Hc & I1 & Pc).
  { intros i w0 Hi I0.
    destruct (base_comment_shape video_id i w0) as (c & w' & H & C & S).
    - unfold range in Hi. apply in_seq in Hi. subst base.
      change (len MockData.political_comments) with 30 in Hi.
      change (length MockData.political_comments) with 30%nat. lia.
    - exists c, w'. rewrite <- I0. split; [exact H|]. split; [congruence | exact S]. }
  { reflexivity. }
  rewrite (ebind_ok _ _ _ _ _ Hc).
  destruct (for_each_inv
              (Scraper.template_comment HAS_TEXTBLOB textblob_sentiment video_id base)
              (fun w0 => clock w0 = clock w)
              (fun _ c => mock_comment_shape (clock w) c)
              (range (max_comments - len curated))) with (w := w1)
    as (templated & w2 & Ht & I2 & Pt).
  { intros i w0 _ I0.
    destruct (template_comment_shape video_id base i w0) as (c & w' & H & C & S).
    exists c, w'. rewrite <- I0. split; [exact H|]. split; [congruence | exact S]. }
  { exact I1. }
  rewrite (ebind_ok _ _ _ _ _ Ht).
  eexists. eexists. split; [reflexivity|].
  apply Forall_slice_to, Forall_app.
  split; eapply Forall2_right; eassumption.
Qed.

End MockShape.

Section TierFacts.

Variable HAS_TEXTBLOB : bool.
Variable HAS_YOUTUBE_API : bool.
Variable HAS_SELENIUM : bool.
Variable textblob_sentiment : string -> Q * Q.
Variable api_key : option string.
Variable commentThreads_list : string -> Z -> result Api.request.

Hypothesis polarity_range :
  HAS_TEXTBLOB = true -> forall t, (-1 <= fst (textblob_sentiment t) <= 1)%Q.

Let generate := Scraper._generate_mock_comments HAS_TEXTBLOB textblob_sentiment.
Let scrape := Scraper.scrape_comments HAS_TEXTBLOB HAS_YOUTUBE_API HAS_SELENIUM
                textblob_sentiment api_key commentThreads_list.

(** What follows the API tier is the mock generator, with or without
    the Selenium tier in between. *)
Lemma after_api_is_mock (video_id : string) (max_comments : Z) (w : world) :
  (if HAS_SELENIUM
   then Scraper.try_return
          (Scraper._scrape_comments_selenium HAS_TEXTBLOB textblob_sentiment
             video_id max_comments)
          (generate video_id max_comments)
   else generate video_id max_comments) w = generate video_id max_comments w.
Proof.
  destruct HAS_SELENIUM; [|reflexivity].
  unfold Scraper.try_return, Scraper._scrape_comments_selenium. fold generate.
  destruct (generate_mock_comments_ok HAS_TEXTBLOB textblob_sentiment polarity_range
              video_id max_comments w) as (c & t & w' & H & _).
  fold generate in H. now rewrite H.
Qed.

(** Without an API tier, and when the API tier raises, the result is
    the mock generator's. *)
Lemma scrape_comments_mock_tier (video_id : string) (max_comments : Z) (w : world) :
  Scraper.api_key_set api_key && HAS_YOUTUBE_API = false \/
  (exists e, Scraper._scrape_comments_api HAS_TEXTBLOB textblob_sentiment
               commentThreads_list video_id max_comments = Raise e) ->
  scrape video_id max_comments w = generate video_id max_comments w.
Proof.
  intros H. unfold scrape, Scraper.scrape_comments. fold generate.
  destruct (Scraper.api_key_set api_key && HAS_YOUTUBE_API) eqn:E.
  - destruct H as [H | [e H]]; [discriminate H|].
    unfold Scraper.try_return at 1. unfold lift at 1. rewrite H.
    apply after_api_is_mock.
  - apply after_api_is_mock.
Qed.

(** X9. Without an API tier, every comment [scrape_comments] returns
    is a top-level comment without a parent, with between 0 and 100
    likes and between 0 and 8 replies, posted between one minute and 48
    hours before a reading of the clock. *)
Theorem mock_comments_shape (video_id : string) (max_comments : Z) (w : world)
  (no_api : Scraper.api_key_set api_key && HAS_YOUTUBE_API = false) :
  exists comments w',
    scrape video_id max_comments w = (Ok comments, w') /\
    Forall (mock_comment_shape (clock w)) comments.
Proof.
  rewrite scrape_comments_mock_tier by (left; exact no_api).
  apply generate_mock_comments_shape, polarity_range.
Qed.

(** X10. When the API tier raises, at the construction of the client
    or on any page, [scrape_comments] behaves exactly as it does without
    an API tier: the comments of the pages already answered are dropped
    and the mock generator's comments are returned. *)
Theorem api_failure_falls_back (video_id : string) (max_comments : Z) (w : world) (e : exn)
  (failed : Scraper._scrape_comments_api HAS_TEXTBLOB textblob_sentiment
              commentThreads_list video_id max_comments = Raise e) :
  scrape video_id max_comments w =
  Scraper.scrape_comments HAS_TEXTBLOB false HAS_SELENIUM textblob_sentiment api_key
    commentThreads_list video_id max_comments w.
Proof.
  rewrite scrape_comments_mock_tier by (right; now exists e).
  unfold Scraper.scrape_comments. fold generate.
  rewrite andb_false_r. symmetry. apply after_api_is_mock.
Qed.

End TierFacts.

(** ** Threads and pages *)

Lemma threaded_nil : threaded [].
Proof. intros j c H. destruct j; discriminate H. Qed.

Lemma threaded_firstn (n : nat) (l : list YouTubeComment) :
  threaded l -> threaded (firstn n l).
Proof.
  intros T j c H.
  assert (Hj : (j < n)%nat).
  { destruct (Nat.lt_ge_cases j n) as [L|G]; [exact L|].
    assert (nth_error (firstn n l) j = None).
    { apply nth_error_None. rewrite length_firstn. lia. }
    congruence. }
  rewrite nth_error_firstn in H.
  destruct (Nat.ltb_spec j n); [|lia].
  specialize (T j c H). destruct (is_reply c); [|exact T].
  destruct T as (i & p & Hi & Hp & Hr & Hpar).
  exists i, p. repeat split; try assumption.
  rewrite nth_error_firstn. destruct (Nat.ltb_spec i n); [exact Hp | lia].
Qed.

Lemma threaded_slice_to (k : Z) (l : list YouTubeComment) :
  threaded l -> threaded (slice_to k l).
Proof. intros T. unfold slice_to. destruct (k <? 0); now apply threaded_firstn. Qed.

Lemma threaded_top_level (l : list YouTubeComment) :
  Forall (fun c => is_reply c = false /\ parent_id c = None) l -> threaded l.
Proof.
  intros F j c H. rewrite Forall_forall in F.
  destruct (F c (nth_error_In _ _ H)) as [R P]. now rewrite R.
Qed.

(** A thread appended to a threaded list: the replies name the
    top-level comment that stands in front of them. *)
Lemma threaded_app_thread (acc replies : list YouTubeComment) (comment : YouTubeComment) :
  threaded acc ->
  is_reply comment = false -> parent_id comment = None ->
  Forall (fun r => is_reply r = true /\ parent_id r = Some (comment_id comment)) replies ->
  threaded (acc ++ comment :: replies)%list.
Proof.
  intros T R P F j c H.
  destruct (Nat.lt_ge_cases j (length acc)) as [L|G].
  - rewrite nth_error_app1 in H by exact L.
    specialize (T j c H). destruct (is_reply c); [|exact T].
    destruct T as (i & p & Hi & Hp & Hr & Hpar).
    exists i, p. repeat split; try assumption.
    rewrite nth_error_app1 by lia. exact Hp.
  - rewrite nth_error_app2 in H by exact G.
    destruct (j - length acc)%nat as [|m] eqn:E; cbn [nth_error] in H.
    + inversion H; subst c. now rewrite R.
    + rewrite Forall_forall in F.
      destruct (F c (nth_error_In _ _ H)) as [Rc Pc]. rewrite Rc.
      exists (length acc), comment. repeat split; try assumption; [lia|].
      rewrite nth_error_app2 by lia. now rewrite Nat.sub_diag.
Qed.

Section Pages.

Variable HAS_TEXTBLOB : bool.
Variable HAS_YOUTUBE_API : bool.
Variable HAS_SELENIUM : bool.
Variable textblob_sentiment : string -> Q * Q.
Variable api_key : option string.
Variable commentThreads_list : string -> Z -> result Api.request.

Hypothesis polarity_range :
  HAS_TEXTBLOB = true -> forall t, (-1 <= fst (textblob_sentiment t) <= 1)%Q.

Let generate := Scraper._generate_mock_comments HAS_TEXTBLOB textblob_sentiment.
Let scrape := Scraper.scrape_comments HAS_TEXTBLOB HAS_YOUTUBE_API HAS_SELENIUM
                textblob_sentiment api_key commentThreads_list.
Let thread_comments := Scraper.thread_comments HAS_TEXTBLOB textblob_sentiment.
Let page_comments := Scraper.page_comments HAS_TEXTBLOB textblob_sentiment.
Let api_pages := Scraper.api_pages HAS_TEXTBLOB textblob_sentiment.
Let scrape_api := Scraper._scrape_comments_api HAS_TEXTBLOB textblob_sentiment
                    commentThreads_list.

Lemma thread_comments_threaded (item : Api.thread) (acc cs : list YouTubeComment) :
  threaded acc -> thread_comments item = Ok cs -> threaded (acc ++ cs)%list.
Proof.
  intros T. unfold thread_comments, Scraper.thread_comments.
  destruct (Scraper.analyze _ _ _) as [r|e]; cbn [rbind]; [|discriminate].
  set (comment := {| comment_id := Api.id (Api.topLevelComment item);
                     author := _; text := _; likes := _; timestamp := _;
                     sentiment_score := score r; sentiment_label := label r;
                     reply_count := _; is_reply := false; parent_id := None |}).
  assert (Hreplies : forall rs replies,
    for_each_result (Scraper.reply_comment HAS_TEXTBLOB textblob_sentiment comment) rs
      = Ok replies ->
    Forall (fun r => is_reply r = true /\ parent_id r = Some (comment_id comment)) replies).
  { induction rs as [|x rs IH]; intros replies; cbn [for_each_result].
    - intros H. inversion H. constructor.
    - unfold Scraper.reply_comment at 1.
      destruct (Scraper.analyze _ _ _) as [s|e]; cbn [rbind]; [|discriminate].
      destruct (for_each_result _ rs) as [ys|e]; cbn [rbind]; [|discriminate].
      intros H. inversion H. constructor; [split; reflexivity | now apply IH]. }
  destruct (Api.replies item) as [rs|].
  - destruct (for_each_result _ rs) as [replies|e] eqn:E; cbn [rbind]; [|discriminate].
    intros H. inversion H.
    apply threaded_app_thread; try reflexivity; [exact T | now apply (Hreplies rs)].
  - cbn [rbind]. intros H. inversion H.
    apply threaded_app_thread; try reflexivity; [exact T | constructor].
Qed.

Lemma page_comments_threaded (items : list Api.thread) (acc cs : list YouTubeComment) :
  threaded acc -> page_comments items acc = Ok cs -> threaded cs.
Proof.
  unfold page_comments. revert acc.
  induction items as [|item rest IH]; intros acc T; cbn [Scraper.page_comments].
  - intros H. now inversion H; subst.
  - destruct (Scraper.thread_comments _ _ item) as [ts|e] eqn:E; cbn [rbind]; [|discriminate].
    apply IH. now apply (thread_comments_threaded item).
Qed.

Lemma api_pages_threaded (request : Api.request) (max_comments : Z)
      (acc cs : list YouTubeComment) :
  threaded acc -> api_pages request max_comments acc = Ok cs -> threaded cs.
Proof.
  unfold api_pages. revert acc.
  induction request as [|e|items next IH]; intros acc T; cbn [Scraper.api_pages].
  - intros H. now inversion H; subst.
  - destruct (len acc <? max_comments); intros H; [discriminate | now inversion H; subst].
  - destruct (len acc <? max_comments); [|intros H; now inversion H; subst].
    destruct (Scraper.page_comments _ _ items acc) as [page|e] eqn:E; cbn [rbind];
      [|discriminate].
    apply IH. now apply (page_comments_threaded items acc).
Qed.

Lemma scrape_api_threaded (video_id : string) (max_comments : Z)
      (cs : list YouTubeComment) :
  scrape_api video_id max_comments = Ok cs -> threaded cs.
Proof.
  unfold scrape_api, Scraper._scrape_comments_api.
  destruct (commentThreads_list _ _) as [request|e]; cbn [rbind]; [|discriminate].
  destruct (Scraper.api_pages _ _ _ _ _) as [all|e] eqn:E; cbn [rbind]; [|discriminate].
  intros H. inversion H. apply threaded_slice_to.
  now apply (api_pages_threaded request max_comments [] all threaded_nil).
Qed.

Lemma generate_threaded (video_id : string) (max_comments : Z) (w : world) :
  exists comments w',
    generate video_id max_comments w = (Ok comments, w') /\ threaded comments.
Proof.
  destruct (generate_mock_comments_shape HAS_TEXTBLOB textblob_sentiment polarity_range
              video_id max_comments w) as (cs & w' & H & F).
  exists cs, w'. split; [exact H|].
  apply threaded_top_level. eapply Forall_impl; [|exact F].
  intros c (_ & _ & R & P & _). now split.
Qed.

(** X11. Whatever tier answers, [scrape_comments] returns a list in
    which every reply stands after its parent: a comment marked as a
    reply names as parent an earlier top-level comment of the returned
    list, and a top-level comment names no parent; the cut to
    [max_comments] never leaves a reply without its parent. *)
Theorem scraped_replies_follow_parent (video_id : string) (max_comments : Z) (w : world) :
  exists comments w',
    scrape video_id max_comments w = (Ok comments, w') /\ threaded comments.
Proof.
  unfold scrape, Scraper.scrape_comments. fold generate.
  assert (Hafter : exists comments w',
    (if HAS_SELENIUM
     then Scraper.try_return
            (Scraper._scrape_comments_selenium HAS_TEXTBLOB textblob_sentiment
               video_id max_comments)
            (generate video_id max_comments)
     else generate video_id max_comments) w = (Ok comments, w') /\ threaded comments).
  { rewrite (after_api_is_mock HAS_TEXTBLOB HAS_YOUTUBE_API HAS_SELENIUM textblob_sentiment
               api_key commentThreads_list polarity_range).
    apply generate_threaded. }
  destruct (Scraper.api_key_set api_key && HAS_YOUTUBE_API); [|exact Hafter].
  unfold Scraper.try_return at 1. unfold lift at 1.
  destruct (Scraper._scrape_comments_api _ _ _ _ _) as [cs|e] eqn:E; [|exact Hafter].
  exists cs, w. split; [reflexivity|]. now apply (scrape_api_threaded video_id max_comments).
Qed.

(** Appending to the comments collected so far commutes with a page. *)
Lemma page_comments_acc (items : list Api.thread) (acc : list YouTubeComment) :
  page_comments items acc =
  do page <- page_comments items []; Ok (acc ++ page)%list.
Proof.
  unfold page_comments. revert acc.
  assert (G : forall items acc pre,
    Scraper.page_comments HAS_TEXTBLOB textblob_sentiment items (acc ++ pre)%list =
    do page <- Scraper.page_comments HAS_TEXTBLOB textblob_sentiment items pre;
    Ok (acc ++ page)%list).
  { clear items. induction items as [|item rest IH]; intros acc pre;
      cbn [Scraper.page_comments rbind].
    - reflexivity.
    - destruct (Scraper.thread_comments _ _ item) as [ts|e]; cbn [rbind]; [|reflexivity].
      rewrite <- app_assoc. apply IH. }
  intros acc. rewrite <- (G items acc []). now rewrite app_nil_r.
Qed.

(** The pagination loop collects a prefix of the flattened pages and
    stops early only with enough comments. *)
Lemma api_pages_prefix (request : Api.request) (max_comments : Z)
      (acc all : list YouTubeComment) :
  all_comments HAS_TEXTBLOB textblob_sentiment request = Ok all ->
  exists p q,
    api_pages request max_comments acc = Ok (acc ++ p)%list /\
    all = (p ++ q)%list /\
    (q = [] \/ max_comments <= len (acc ++ p)%list).
Proof.
  unfold api_pages. revert acc all.
  induction request as [|e|items next IH]; intros acc all;
    cbn [all_comments Scraper.api_pages].
  - intros H. inversion H. exists [], []. rewrite app_nil_r. auto.
  - discriminate.
  - fold page_comments. rewrite (page_comments_acc items acc).
    destruct (page_comments items []) as [page|e]; cbn [rbind]; [|discriminate].
    destruct (all_comments _ _ next) as [rest|e] eqn:E; cbn [rbind]; [|discriminate].
    intros H. inversion H; subst all. clear H.
    destruct (Z.ltb_spec (len acc) max_comments) as [L|G].
    + destruct (IH (acc ++ page)%list rest eq_refl) as (p & q & Hp & Hq & Hstop).
      exists (page ++ p)%list, q. rewrite app_assoc. split; [exact Hp|].
      split; [now rewrite Hq, app_assoc | exact Hstop].
    + exists [], (page ++ rest)%list. rewrite app_nil_r.
      split; [reflexivity|]. split; [reflexivity | now right].
Qed.

(** X12. When the API tier is in use and every page of the request
    chain answers, [scrape_comments] returns the first [max_comments]
    comments of the flattened pages, each thread's top-level comment
    followed by its replies in the order of the API, and draws nothing
    from the random source and the clock. *)
Theorem api_comments_in_page_order (video_id : string) (max_comments : Z) (w : world)
  (request : Api.request) (all : list YouTubeComment)
  (api_on : Scraper.api_key_set api_key && HAS_YOUTUBE_API = true)
  (natural : 0 <= max_comments)
  (listed : commentThreads_list video_id (Z.min max_comments 100) = Ok request)
  (answered : all_comments HAS_TEXTBLOB textblob_sentiment request = Ok all) :
  scrape video_id max_comments w = (Ok (firstn (Z.to_nat max_comments) all), w).
Proof.
  unfold scrape, Scraper.scrape_comments. rewrite api_on.
  unfold Scraper.try_return at 1. unfold lift at 1.
  unfold Scraper._scrape_comments_api. rewrite listed. cbn [rbind].
  destruct (api_pages_prefix request max_comments [] all answered)
    as (p & q & Hp & Hq & Hstop).
  unfold api_pages in Hp. rewrite app_nil_l in Hp, Hstop. rewrite Hp. cbn [rbind].
  unfold slice_to. destruct (Z.ltb_spec max_comments 0) as [L|G]; [lia|].
  subst all. destruct Hstop as [Hnil | Hfull].
  - subst q. now rewrite app_nil_r.
  - unfold len in Hfull. rewrite firstn_app.
    replace (Z.to_nat max_comments - length p)%nat with 0%nat by lia.
    cbn [firstn]. now rewrite app_nil_r.
Qed.

End Pages.

(** The sample API, three comments asked for: the reply of the first
    thread follows its parent. *)
Lemma scraped_replies_follow_parent_witness :
  exists comments w',
    Scraper.scrape_comments false true false (fun _ => (0, 0)%Q) (Some "key") sample_api
      "O6DTtVOPwEU" 3 still_world = (Ok comments, w') /\
    threaded comments.
Proof.
  apply (scraped_replies_follow_parent false true false (fun _ => (0, 0)%Q) (Some "key")
           sample_api).
  intros H. discriminate H.
Defined.

(** Five mock comments under the lexical strategy. *)
Lemma mock_comments_shape_witness :
  exists comments w',
    Scraper.scrape_comments false false false (fun _ => (0, 0)%Q) None
      (fun _ _ => Raise ApiError) "O6DTtVOPwEU" 5 middle_world = (Ok comments, w') /\
    Forall (mock_comment_shape (clock middle_world)) comments.
Proof.
  apply (mock_comments_shape false false false (fun _ => (0, 0)%Q) None
           (fun _ _ => Raise ApiError)).
  - intros H. discriminate H.
  - reflexivity.
Defined.

(** The sample API answers one page of three comments and fails on the
    second: with ten comments asked for, the three are dropped. *)
Lemma api_failure_falls_back_witness :
  Scraper._scrape_comments_api false (fun _ => (0, 0)%Q) sample_api "O6DTtVOPwEU" 10
    = Raise ApiError /\
  Scraper.scrape_comments false true false (fun _ => (0, 0)%Q) (Some "key") sample_api
    "O6DTtVOPwEU" 10 still_world =
  Scraper.scrape_comments false false false (fun _ => (0, 0)%Q) (Some "key") sample_api
    "O6DTtVOPwEU" 10 still_world.
Proof.
  assert (failed :
    Scraper._scrape_comments_api false (fun _ => (0, 0)%Q) sample_api "O6DTtVOPwEU" 10
      = Raise ApiError) by (vm_compute; reflexivity).
  split; [exact failed|].
  apply (api_failure_falls_back false true false (fun _ => (0, 0)%Q) (Some "key") sample_api)
    with (e := ApiError).
  - intros H. discriminate H.
  - exact failed.
Defined.

(** Two pages that hold four comments, three asked for. *)
Lemma api_comments_in_page_order_witness :
  exists all,
    all_comments false (fun _ => (0, 0)%Q) (Api.Responds
        [{| Api.topLevelComment := sample_snippet "t1" "Great video, love it" 4;
            Api.totalReplyCount := 2;
            Api.replies := Some [sample_snippet "r1" "This is awful" 0;
                                 sample_snippet "r2" "I agree" 2] |}]
        (Api.Responds
           [{| Api.topLevelComment := sample_snippet "t2" "okay" 1;
               Api.totalReplyCount := 0;
               Api.replies := None |}]
           Api.NoRequest)) = Ok all /\
    map comment_id all = ["t1"; "r1"; "r2"; "t2"] /\
    Scraper.scrape_comments false true true (fun _ => (0, 0)%Q) (Some "key") paged_api
      "O6DTtVOPwEU" 3 still_world = (Ok (firstn 3 all), still_world).
Proof.
  eexists. split; [vm_compute; reflexivity|]. split; [reflexivity|].
  apply (api_comments_in_page_order false true true (fun _ => (0, 0)%Q) (Some "key") paged_api
           "O6DTtVOPwEU" 3 still_world) with (request := Api.Responds
        [{| Api.topLevelComment := sample_snippet "t1" "Great video, love it" 4;
            Api.totalReplyCount := 2;
            Api.replies := Some [sample_snippet "r1" "This is awful" 0;
                                 sample_snippet "r2" "I agree" 2] |}]
        (Api.Responds
           [{| Api.topLevelComment := sample_snippet "t2" "okay" 1;
               Api.totalReplyCount := 0;
               Api.replies := None |}]
           Api.NoRequest)).
  - reflexivity.
  - lia.
  - reflexivity.
  - vm_compute. reflexivity.
Defined.

(** ** Identifiers of the mock comments *)

Lemma of_Z_inj (a b : Z) : Text.of_Z a = Text.of_Z b -> a = b.
Proof.
  unfold Text.of_Z. intros H.
  assert (N : forall z, Z.to_int z <> Pos Nil /\ Z.to_int z <> Neg Nil).
  { intros [|p|p]; cbn; split; try discriminate;
      intros E; inversion E as [E'];
      now apply DecimalPos.Unsigned.to_uint_nonnil in E'. }
  apply DecimalZ.to_int_inj.
  destruct (N a) as [Pa Na], (N b) as [Pb Nb].
  pose proof (NilZero.isi _ Pa Na) as Ia.
  pose proof (NilZero.isi _ Pb Nb) as Ib.
  rewrite H in Ia. congruence.
Qed.

Lemma append_cancel_l (p a b : string) : (p ++ a = p ++ b)%string -> a = b.
Proof.
  induction p as [|c p IH]; cbn [append]; intros H; [exact H|].
  inversion H. now apply IH.
Qed.

Lemma mock_id_inj (video_id : string) (i j : nat) :
  ("mock_" ++ video_id ++ "_" ++ Text.of_nat i)%string
  = ("mock_" ++ video_id ++ "_" ++ Text.of_nat j)%string -> i = j.
Proof.
  intros H. do 3 apply append_cancel_l in H.
  unfold Text.of_nat in H. apply of_Z_inj in H. lia.
Qed.

Section MockIds.

Variable HAS_TEXTBLOB : bool.
Variable HAS_YOUTUBE_API : bool.
Variable HAS_SELENIUM : bool.
Variable textblob_sentiment : string -> Q * Q.
Variable api_key : option string.
Variable commentThreads_list : string -> Z -> result Api.request.

Hypothesis polarity_range :
  HAS_TEXTBLOB = true -> forall t, (-1 <= fst (textblob_sentiment t) <= 1)%Q.

(** The identifiers of a mock result, by position. *)
Lemma generate_mock_ids (video_id : string) (max_comments : Z) (w : world) :
  exists comments w',
    Scraper._generate_mock_comments HAS_TEXTBLOB textblob_sentiment video_id max_comments w
      = (Ok comments, w') /\
    len comments = Z.max 0 max_comments /\
    forall j c, nth_error comments j = Some c ->
      comment_id c = ("mock_" ++ video_id ++ "_" ++ Text.of_nat j)%string.
Proof.
  destruct (generate_mock_comments_ok HAS_TEXTBLOB textblob_sentiment polarity_range
              video_id max_comments w)
    as (curated & templated & w' & H & _ & L & C & T & _).
  exists (curated ++ templated)%list, w'. split; [exact H|]. split; [exact L|].
  intros j c Hj.
  destruct (Nat.lt_ge_cases j (length curated)) as [Lt|Ge].
  - rewrite nth_error_app1 in Hj by exact Lt. now destruct (C j c Hj).
  - rewrite nth_error_app2 in Hj by exact Ge.
    destruct (T _ c Hj) as [Hid _].
    now replace (length curated + (j - length curated))%nat with j in Hid by lia.
Qed.

Lemma ids_by_position_distinct (video_id : string) (comments : list YouTubeComment) :
  (forall j c, nth_error comments j = Some c ->
     comment_id c = ("mock_" ++ video_id ++ "_" ++ Text.of_nat j)%string) ->
  NoDup (map comment_id comments).
Proof.
  intros Hid. apply NoDup_nth_error. intros i j Hi E.
  rewrite length_map in Hi.
  rewrite !nth_error_map in E.
  destruct (nth_error comments i) as [a|] eqn:Ea.
  2:{ apply nth_error_None in Ea. lia. }
  destruct (nth_error comments j) as [b|] eqn:Eb; [|discriminate E].
  cbn [option_map] in E. inversion E as [E'].
  rewrite (Hid i a Ea), (Hid j b Eb) in E'.
  now apply mock_id_inj in E'.
Qed.

(** X13. Without an API tier, the comment at position [j] of what
    [scrape_comments] returns has the identifier mock_<video id>_<j>,
    so that no two comments of one result share an identifier, and two
    results for the same video carry the same identifiers. *)
Theorem mock_comment_ids (video_id : string) (max_comments : Z) (w : world)
  (no_api : Scraper.api_key_set api_key && HAS_YOUTUBE_API = false) :
  exists comments w',
    Scraper.scrape_comments HAS_TEXTBLOB HAS_YOUTUBE_API HAS_SELENIUM textblob_sentiment
      api_key commentThreads_list video_id max_comments w = (Ok comments, w') /\
    map comment_id comments =
      map (fun j => ("mock_" ++ video_id ++ "_" ++ Text.of_nat j)%string)
          (seq 0 (Z.to_nat max_comments)) /\
    NoDup (map comment_id comments).
Proof.
  rewrite (scrape_comments_mock_tier HAS_TEXTBLOB HAS_YOUTUBE_API HAS_SELENIUM
             textblob_sentiment api_key commentThreads_list polarity_range)
    by (left; exact no_api).
  destruct (generate_mock_ids video_id max_comments w) as (cs & w' & H & L & Hid).
  exists cs, w'. split; [exact H|]. split.
  - apply nth_error_ext. intros j.
    rewrite !nth_error_map.
    destruct (nth_error cs j) as [c|] eqn:E; cbn [option_map].
    + rewrite (Hid j c E).
      assert (Hj : (j < Z.to_nat max_comments)%nat).
      { assert (nth_error cs j <> None) as N by congruence.
        apply nth_error_Some in N. unfold len in L. lia. }
      rewrite nth_error_seq. destruct (Nat.ltb_spec j (Z.to_nat max_comments)); [|lia].
      reflexivity.
    + apply nth_error_None in E.
      rewrite nth_error_seq. destruct (Nat.ltb_spec j (Z.to_nat max_comments)); [|reflexivity].
      unfold len in L. lia.
  - now apply (ids_by_position_distinct video_id).
Qed.

End MockIds.

(** Thirty-two mock comments. *)
Lemma mock_comment_ids_witness :
  exists comments w',
    Scraper.scrape_comments false false false (fun _ => (0, 0)%Q) None
      (fun _ _ => Raise ApiError) "O6DTtVOPwEU" 32 still_world = (Ok comments, w') /\
    map comment_id comments =
      map (fun j => ("mock_" ++ "O6DTtVOPwEU" ++ "_" ++ Text.of_nat j)%string) (seq 0 32) /\
    NoDup (map comment_id comments).
Proof.
  apply (mock_comment_ids false false false (fun _ => (0, 0)%Q) None
           (fun _ _ => Raise ApiError)).
  - intros H. discriminate H.
  - reflexivity.
Defined.

(** ** The comments table *)

Lemma find_app {A : Type} (f : A -> bool) (l1 l2 : list A) :
  find f (l1 ++ l2) = match find f l1 with Some x => Some x | None => find f l2 end.
Proof.
  induction l1 as [|x l1 IH]; cbn [find List.app]; [reflexivity|].
  destruct (f x); [reflexivity | exact IH].
Qed.

Lemma lookup_insert_or_replace (video id : string) (c : YouTubeComment) (t : Database.table) :
  lookup id (Database.insert_or_replace video c t) =
  if (comment_id c =? id)%string
  then Some {| Database.video_id := video; Database.comment := c |}
  else lookup id t.
Proof.
  unfold lookup, Database.insert_or_replace. rewrite find_app. cbn [find Database.comment].
  induction t as [|r t IH]; cbn [filter find].
  - destruct (comment_id c =? id)%string; reflexivity.
  - unfold Database.same_key at 1.
    destruct (String.eqb_spec (comment_id (Database.comment r)) (comment_id c)) as [E|N];
      cbn [negb find].
    + rewrite E. destruct (String.eqb_spec (comment_id c) id) as [E'|N']; exact IH.
    + destruct (String.eqb_spec (comment_id (Database.comment r)) id) as [E'|N'].
      * destruct (String.eqb_spec (comment_id c) id) as [E2|N2]; [congruence | reflexivity].
      * exact IH.
Qed.

Lemma keys_insert_or_replace (video : string) (c : YouTubeComment) (t : Database.table) :
  NoDup (keys t) -> NoDup (keys (Database.insert_or_replace video c t)).
Proof.
  unfold keys, Database.insert_or_replace. intros U.
  rewrite map_app. cbn [map Database.comment].
  induction t as [|r t IH]; cbn [filter map List.app].
  - constructor; [intros []|constructor].
  - cbn [map] in U. inversion U as [|k ks Hk Hks]; subst.
    unfold Database.same_key at 1.
    destruct (String.eqb_spec (comment_id (Database.comment r)) (comment_id c)) as [E|N];
      cbn [negb map List.app]; [now apply IH|].
    constructor; [|now apply IH].
    intros Hin. apply in_app_or in Hin. destruct Hin as [Hin | [Hin | []]].
    + apply Hk. apply in_map_iff in Hin. destruct Hin as (x & Hx & Hf).
      apply filter_In in Hf. apply in_map_iff. exists x. tauto.
    + congruence.
Qed.

Lemma save_fold_unique (video : string) (comments : list YouTubeComment)
      (t : Database.table) :
  NoDup (keys t) ->
  NoDup (keys (fold_left (fun t c => Database.insert_or_replace video c t) comments t)).
Proof.
  revert t. induction comments as [|c cs IH]; intros t U; cbn [fold_left]; [exact U|].
  apply IH. now apply keys_insert_or_replace.
Qed.

Lemma save_fold_lookup (video id : string) (comments : list YouTubeComment)
      (t : Database.table) :
  lookup id (fold_left (fun t c => Database.insert_or_replace video c t) comments t) =
  match last_with id comments with
  | Some c => Some {| Database.video_id := video; Database.comment := c |}
  | None => lookup id t
  end.
Proof.
  revert t. induction comments as [|c cs IH]; intros t; cbn [fold_left]; [reflexivity|].
  rewrite IH. unfold last_with. cbn [List.rev]. rewrite find_app. cbn [find].
  destruct (find _ (List.rev cs)); [reflexivity|].
  rewrite lookup_insert_or_replace.
  now destruct (comment_id c =? id)%string.
Qed.

(** X14. With SQLite, saving comments keeps the comment ids of the
    table unique, and afterwards the row of an id is the last comment
    saved under that id, filed under the video of this save even when
    the id was stored for another video before; the row of an id that
    was not saved is unchanged. *)
Theorem save_last_write_wins (comments : list YouTubeComment) (video id : string)
  (t : Database.table) (unique : NoDup (keys t)) :
  let t' := Database.save_comments_to_db true comments video t in
  NoDup (keys t') /\
  lookup id t' =
    match last_with id comments with
    | Some c => Some {| Database.video_id := video; Database.comment := c |}
    | None => lookup id t
    end.
Proof.
  cbn zeta. unfold Database.save_comments_to_db. cbn [negb]. split.
  - now apply save_fold_unique.
  - apply save_fold_lookup.
Qed.

Lemma save_last_write_wins_witness :
  NoDup (keys other_video_table) /\
  let t' := Database.save_comments_to_db true repeated_comments "video" other_video_table in
  NoDup (keys t') /\
  lookup "a" t' =
    match last_with "a" repeated_comments with
    | Some c => Some {| Database.video_id := "video"; Database.comment := c |}
    | None => lookup "a" other_video_table
    end.
Proof.
  assert (unique : NoDup (keys other_video_table)).
  { cbn. constructor; [intros [H|[]]; discriminate H|].
    constructor; [intros []|constructor]. }
  split; [exact unique|].
  exact (save_last_write_wins repeated_comments "video" "a" other_video_table unique).
Defined.






(** ** The query of the analytics *)

Lemma insert_newest_perm (r : Database.stored) (l : list Database.stored) :
  Permutation (Database.insert_newest r l) (r :: l).
Proof.
  induction l as [|x l IH]; cbn [Database.insert_newest]; [apply Permutation_refl|].
  destruct (timestamp (Database.comment x) <=? timestamp (Database.comment r)).
  - apply Permutation_refl.
  - eapply Permutation_trans; [apply perm_skip, IH | apply perm_swap].
Qed.

Lemma order_by_perm (rows : list Database.stored) :
  Permutation (Database.order_by_timestamp_desc rows) rows.
Proof.
  unfold Database.order_by_timestamp_desc.
  induction rows as [|r rows IH]; cbn [fold_right]; [apply Permutation_refl|].
  eapply Permutation_trans; [apply insert_newest_perm | now apply perm_skip].
Qed.

Lemma insert_newest_sorted (r : Database.stored) (l : list Database.stored) :
  StronglySorted (fun a b => timestamp (Database.comment b) <= timestamp (Database.comment a)) l ->
  StronglySorted (fun a b => timestamp (Database.comment b) <= timestamp (Database.comment a))
                 (Database.insert_newest r l).
Proof.
  induction 1 as [|x l Hs IH Hx]; cbn [Database.insert_newest].
  - constructor; constructor.
  - destruct (Z.leb_spec (timestamp (Database.comment x)) (timestamp (Database.comment r)))
      as [Le|Gt].
    + constructor; [now constructor|].
      constructor; [exact Le|].
      eapply Forall_impl; [|exact Hx]. cbn beta. intros y Hy. lia.
    + constructor; [exact IH|].
      apply (Permutation_Forall (Permutation_sym (insert_newest_perm r l))).
      constructor; [lia | exact Hx].
Qed.

Lemma order_by_sorted (rows : list Database.stored) :
  StronglySorted (fun a b => timestamp (Database.comment b) <= timestamp (Database.comment a))
                 (Database.order_by_timestamp_desc rows).
Proof.
  unfold Database.order_by_timestamp_desc.
  induction rows as [|r rows IH]; cbn [fold_right]; [constructor|].
  now apply insert_newest_sorted.
Qed.

(** The query returns the top-level comments stored for the video,
    each once, newest first. *)
Lemma fetchall_newest_first (t : Database.table) (video : string) :
  newest_first (Database.fetchall t video) /\
  Permutation (Database.fetchall t video) (map Database.to_row (stored_for video t)).
Proof.
  unfold Database.fetchall, newest_first, stored_for. split.
  - generalize (order_by_sorted (filter (Database.selected video) t)).
    generalize (Database.order_by_timestamp_desc (filter (Database.selected video) t)).
    induction 1 as [|x l Hs IH Hx]; cbn [map]; constructor; [exact IH|].
    rewrite Forall_map. exact Hx.
  - apply Permutation_map, order_by_perm.
Qed.

Lemma sorted_nth (rows : list Analytics.row) (i j : nat) (a b : Analytics.row) :
  newest_first rows -> (i <= j)%nat ->
  nth_error rows i = Some a -> nth_error rows j = Some b ->
  Analytics.timestamp b <= Analytics.timestamp a.
Proof.
  intros S. revert i j. induction S as [|x l Hs IH Hx]; intros i j Hij Ha Hb.
  - destruct i; discriminate Ha.
  - destruct i as [|i], j as [|j]; cbn [nth_error] in Ha, Hb.
    + inversion Ha; inversion Hb; subst. lia.
    + inversion Ha; subst. rewrite Forall_forall in Hx.
      apply Hx. now apply nth_error_In in Hb.
    + lia.
    + apply (IH i j); [lia | assumption | assumption].
Qed.

Lemma Permutation_filter_length {A : Type} (f : A -> bool) (l l' : list A) :
  Permutation l l' -> length (filter f l) = length (filter f l').
Proof.
  induction 1 as [|x l l' _ IH|x y l|l l' l'' _ IH1 _ IH2]; cbn [filter].
  - reflexivity.
  - destruct (f x); cbn [length]; now rewrite IH.
  - destruct (f x), (f y); reflexivity.
  - now rewrite IH1.
Qed.

(** ** The fields of the computed analytics *)

Lemma compute_analytics_fields (comments_data : list Analytics.row) (a : Analytics.analytics) :
  Analytics.compute_analytics comments_data = Ok a ->
  Analytics.total_comments a = len comments_data /\
  Analytics.sentiment_distribution a
    = Counter.of_list (map Analytics.sentiment_label comments_data) /\
  Analytics.top_words a
    = Counter.most_common 20
        (Counter.of_list
           (Analytics.findall_words
              (Text.lower (Analytics.join_spaces (map Analytics.text comments_data))))) /\
  py_div (sumQ (map Analytics.sentiment_score comments_data))
         (inject_Z (len (map Analytics.sentiment_score comments_data)))
    = Ok (Analytics.avg_sentiment a) /\
  Analytics.weighted (map Analytics.sentiment_score comments_data)
                     (map Analytics.likes comments_data)
    = Ok (Analytics.weighted_sentiment a) /\
  Analytics.trend comments_data = Ok (Analytics.time_trend a) /\
  match map Analytics.likes comments_data with
  | [] => Ok 0%Q
  | _ => py_div (inject_Z (sumZ (map Analytics.likes comments_data)))
                (inject_Z (len (map Analytics.likes comments_data)))
  end = Ok (Analytics.engagement_score a).
Proof.
  unfold Analytics.compute_analytics.
  destruct (Analytics.weighted _ _) as [ws|e]; cbn [rbind]; [|discriminate].
  destruct (Analytics.trend _) as [ts|e]; cbn [rbind]; [|discriminate].
  destruct (py_div (sumQ _) _) as [avg|e]; cbn [rbind]; [|discriminate].
  destruct (Analytics.percentage _ _ "positive") as [pp|e]; cbn [rbind]; [|discriminate].
  destruct (Analytics.percentage _ _ "negative") as [np|e]; cbn [rbind]; [|discriminate].
  destruct (Analytics.percentage _ _ "neutral") as [up|e]; cbn [rbind]; [|discriminate].
  destruct (match map Analytics.likes comments_data with [] => _ | _ => _ end) as [es|e];
    cbn [rbind]; [|discriminate].
  intros H. inversion H. cbn. repeat split; reflexivity.
Qed.

(** ** Ranges of the sentiment values *)

Lemma sumQ_bounds (l : list Q) :
  Forall score_in_range l ->
  (- inject_Z (len l) <= sumQ l <= inject_Z (len l))%Q.
Proof.
  induction 1 as [|x l Hx _ IH].
  - vm_compute. split; discriminate.
  - rewrite sumQ_cons. unfold len in *. cbn [length].
    rewrite Nat2Z.inj_succ. unfold Z.succ. rewrite inject_Z_plus.
    unfold score_in_range in Hx. change (inject_Z 1) with 1%Q. lra.
Qed.

Lemma mean_in_range (l : list Q) :
  l <> [] -> Forall score_in_range l ->
  score_in_range (sumQ l / inject_Z (len l)).
Proof.
  intros Hl F. pose proof (sumQ_bounds l F) as B.
  assert (P : (0 < inject_Z (len l))%Q).
  { unfold len. destruct l; [congruence|]. cbn [length].
    rewrite <- (Zlt_Qlt 0). lia. }
  unfold score_in_range. split.
  - apply Qle_shift_div_l; [exact P | lra].
  - apply Qle_shift_div_r; [exact P | lra].
Qed.

Lemma weighted_sum_bounds (comments_data : list Analytics.row) :
  Forall (fun r => score_in_range (Analytics.sentiment_score r)) comments_data ->
  Forall (fun r => 0 <= Analytics.likes r) comments_data ->
  (- inject_Z (total_likes comments_data) <= weighted_score_sum comments_data
   <= inject_Z (total_likes comments_data))%Q.
Proof.
  unfold total_likes, weighted_score_sum.
  induction 1 as [|r l Hr _ IH]; intros L.
  - vm_compute. split; discriminate.
  - inversion L as [|r' l' Lr Ll]; subst. specialize (IH Ll).
    cbn [map]. rewrite sumQ_cons, sumZ_cons, inject_Z_plus.
    unfold score_in_range in Hr.
    assert (0 <= inject_Z (Analytics.likes r))%Q by (rewrite <- (Zle_Qle 0); exact Lr).
    nra.
Qed.

Lemma weighted_in_range (comments_data : list Analytics.row) (q : Q) :
  Forall (fun r => score_in_range (Analytics.sentiment_score r)) comments_data ->
  Forall (fun r => 0 <= Analytics.likes r) comments_data ->
  Analytics.weighted (map Analytics.sentiment_score comments_data)
                     (map Analytics.likes comments_data) = Ok q ->
  score_in_range q.
Proof.
  intros S L. pose proof (weighted_sum_bounds comments_data S L) as B.
  unfold Analytics.weighted. rewrite weighted_terms.
  fold (weighted_score_sum comments_data). fold (total_likes comments_data).
  destruct (Z.gtb_spec (total_likes comments_data) 0) as [P|N].
  - rewrite py_div_Z by lia. intros H. inversion H.
    assert (P' : (0 < inject_Z (total_likes comments_data))%Q)
      by (rewrite <- (Zlt_Qlt 0); lia).
    unfold score_in_range. split.
    + apply Qle_shift_div_l; [exact P' | lra].
    + apply Qle_shift_div_r; [exact P' | lra].
  - intros H. inversion H. unfold score_in_range. lra.
Qed.

Lemma Forall_slice {A : Type} (P : A -> Prop) (i j : nat) (l : list A) :
  Forall P l -> Forall P (slice i j l).
Proof.
  intros F. unfold slice.
  assert (Fs : Forall P (skipn i l)).
  { rewrite <- (firstn_skipn i l) in F. now apply Forall_app in F. }
  revert Fs. generalize (skipn i l) (j - i)%nat. clear.
  intros l n F. revert n. induction F as [|x l Hx _ IH]; intros [|n]; cbn [firstn];
    constructor; [exact Hx | apply IH].
Qed.

Lemma trend_in_range (comments_data : list Analytics.row)
      (pts : list Analytics.Trend.point) :
  Forall (fun r => score_in_range (Analytics.sentiment_score r)) comments_data ->
  Analytics.trend comments_data = Ok pts ->
  Forall (fun p => score_in_range (Analytics.Trend.sentiment p)) pts.
Proof.
  intros S. unfold Analytics.trend.
  generalize (range_step (length comments_data) (Nat.max 1 (length comments_data / 10))).
  intros starts. revert pts.
  induction starts as [|i starts IH]; intros pts; cbn [for_each_result].
  - intros H. inversion H. constructor.
  - unfold Analytics.trend_point at 1.
    set (batch := slice i (i + 10) comments_data).
    destruct (py_div _ _) as [avg|e] eqn:E; cbn [rbind]; [|discriminate].
    destruct (Urllib.first batch) as [head|e]; cbn [rbind]; [|discriminate].
    destruct (for_each_result _ starts) as [rest|e]; cbn [rbind]; [|discriminate].
    intros H. inversion H. constructor; [|now apply IH].
    cbn [Analytics.Trend.sentiment].
    unfold py_div in E. destruct (Qeq_bool _ 0) eqn:Z0; [discriminate|]. inversion E.
    assert (Hb : batch <> []).
    { intros Hb. rewrite Hb in Z0. discriminate Z0. }
    assert (Hm : len batch = len (map Analytics.sentiment_score batch))
      by (unfold len; now rewrite length_map).
    rewrite Hm. apply mean_in_range.
    + destruct batch; [congruence | discriminate].
    + rewrite Forall_map. now apply Forall_slice.
Qed.

(** ** The mock analytics *)

Lemma py_round_grid (a b : Z) (x : Q) (ndigits : nat) :
  (inject_Z a / inject_Z (10 ^ Z.of_nat ndigits) <= x
   <= inject_Z b / inject_Z (10 ^ Z.of_nat ndigits))%Q ->
  (inject_Z a / inject_Z (10 ^ Z.of_nat ndigits) <= py_round x ndigits
   <= inject_Z b / inject_Z (10 ^ Z.of_nat ndigits))%Q.
Proof.
  unfold py_round. set (p := 10 ^ Z.of_nat ndigits).
  assert (Hp : 0 < p) by (subst p; apply Z.pow_pos_nonneg; lia).
  assert (Hq : (0 < inject_Z p)%Q) by (change 0%Q with (inject_Z 0); now rewrite <- Zlt_Qlt).
  intros [Hlo Hhi].
  destruct (round_half_even_bounds a b (x * inject_Z p)) as [Rlo Rhi].
  { split.
    - apply (Qmult_le_compat_r _ _ (inject_Z p)) in Hlo; [|lra].
      assert (E : (inject_Z a / inject_Z p * inject_Z p == inject_Z a)%Q) by (field; lra).
      lra.
    - apply (Qmult_le_compat_r _ _ (inject_Z p)) in Hhi; [|lra].
      assert (E : (inject_Z b / inject_Z p * inject_Z p == inject_Z b)%Q) by (field; lra).
      lra. }
  rewrite Zle_Qle in Rlo, Rhi.
  split.
  - apply Qle_shift_div_l; [exact Hq|].
    assert (E : (inject_Z a / inject_Z p * inject_Z p == inject_Z a)%Q) by (field; lra).
    lra.
  - apply Qle_shift_div_r; [exact Hq|].
    assert (E : (inject_Z b / inject_Z p * inject_Z p == inject_Z b)%Q) by (field; lra).
    lra.
Qed.

(** A rounded uniform draw between two bounds that are multiples of
    the rounding unit stays between them; it reads no clock. *)
Lemma rounded_uniform_grid (a b : Z) (lo hi : Q) (ndigits : nat) (w : world) :
  (lo == inject_Z a / inject_Z (10 ^ Z.of_nat ndigits))%Q ->
  (hi == inject_Z b / inject_Z (10 ^ Z.of_nat ndigits))%Q ->
  (lo <= hi)%Q ->
  exists x w',
    Analytics.rounded_uniform lo hi ndigits w = (Ok x, w') /\
    (lo <= x <= hi)%Q /\ clock w' = clock w /\ ticks w' = ticks w.
Proof.
  intros Ea Eb Hle. eexists. eexists. split; [reflexivity|].
  split; [|split; reflexivity].
  pose proof (random_unit_range (Z.of_N (source w (cursor w)))) as [U0 U1].
  set (u := (Z.of_N (source w (cursor w)) mod 2 ^ 53 # 2 ^ 53)) in *.
  assert (Hx : (lo <= lo + (hi - lo) * u <= hi)%Q) by nra.
  pose proof (py_round_grid a b (lo + (hi - lo) * u) ndigits) as G.
  set (x := (lo + (hi - lo) * u)%Q) in *.
  set (r := py_round x ndigits) in *.
  set (la := (inject_Z a / inject_Z (10 ^ Z.of_nat ndigits))%Q) in *.
  set (lb := (inject_Z b / inject_Z (10 ^ Z.of_nat ndigits))%Q) in *.
  destruct G as [G1 G2]; [lra|]. lra.
Qed.

Lemma randint_frame (a b : Z) (w : world) :
  a <= b ->
  exists x w',
    Random.randint a b w = (Ok x, w') /\ a <= x <= b /\
    clock w' = clock w /\ ticks w' = ticks w.
Proof.
  intros Hab. eexists. eexists. split; [reflexivity|].
  split; [|split; reflexivity].
  pose proof (Z.mod_pos_bound (Z.of_N (source w (cursor w))) (b - a + 1)). lia.
Qed.

(** A loop whose body keeps an invariant that counts the passes. *)
Lemma for_each_indexed {A B : Type} (body : A -> Eff B) (I : nat -> world -> Prop)
      (P : nat -> A -> B -> Prop) (xs : list A) :
  (forall j x w, nth_error xs j = Some x -> I j w ->
     exists y w', body x w = (Ok y, w') /\ I (S j) w' /\ P j x y) ->
  forall w, I 0%nat w ->
    exists ys w',
      for_each body xs w = (Ok ys, w') /\ I (length xs) w' /\
      length ys = length xs /\
      forall j x y, nth_error xs j = Some x -> nth_error ys j = Some y -> P j x y.
Proof.
  assert (G : forall (xs : list A) (k : nat),
    (forall j x w, nth_error xs j = Some x -> I (k + j)%nat w ->
       exists y w', body x w = (Ok y, w') /\ I (S (k + j)) w' /\ P (k + j)%nat x y) ->
    forall w, I k w ->
      exists ys w',
        for_each body xs w = (Ok ys, w') /\ I (k + length xs)%nat w' /\
        length ys = length xs /\
        forall j x y, nth_error xs j = Some x -> nth_error ys j = Some y ->
                      P (k + j)%nat x y).
  { clear xs. induction xs as [|x xs IH]; intros k Hbody w Hw.
    - exists [], w. cbn [length]. rewrite Nat.add_0_r.
      repeat split; try assumption. intros [|j] ? ? H; discriminate H.
    - destruct (Hbody 0%nat x w eq_refl) as (y & w1 & Hy & I1 & Py);
        [now rewrite Nat.add_0_r|].
      rewrite Nat.add_0_r in I1, Py.
      destruct (IH (S k)) with (w := w1) as (ys & w2 & Hys & I2 & L & Pys).
      + intros j x' w' Hj Hi.
        replace (S k + j)%nat with (k + S j)%nat in * by lia.
        now apply Hbody.
      + exact I1.
      + exists (y :: ys), w2. cbn [for_each].
        rewrite (ebind_ok _ _ _ _ _ Hy), (ebind_ok _ _ _ _ _ Hys).
        split; [reflexivity|]. cbn [length].
        replace (k + S (length xs))%nat with (S k + length xs)%nat by lia.
        split; [exact I2|]. split; [now rewrite L|].
        intros [|j] x' y' Hx Hy'; cbn [nth_error] in Hx, Hy'.
        * inversion Hx; inversion Hy'; subst. now rewrite Nat.add_0_r.
        * replace (k + S j)%nat with (S k + j)%nat by lia. now apply Pys. }
  intros Hbody w Hw. apply (G xs 0%nat); assumption.
Qed.

Lemma mock_trend_points (w : world) :
  exists pts w',
    for_each Analytics.mock_trend_point [10; 9; 8; 7; 6; 5; 4; 3; 2; 1] w = (Ok pts, w') /\
    length pts = 10%nat /\
    forall j p, nth_error pts j = Some p ->
      Analytics.Trend.timestamp p
        = clock w (ticks w + j)%nat - hours (10 - Z.of_nat j) /\
      (- (5 # 10) <= Analytics.Trend.sentiment p <= 8 # 10)%Q.
Proof.
  destruct (for_each_indexed Analytics.mock_trend_point
              (fun j w' => clock w' = clock w /\ ticks w' = (ticks w + j)%nat)
              (fun j i p =>
                 Analytics.Trend.timestamp p = clock w (ticks w + j)%nat - hours i /\
                 (- (5 # 10) <= Analytics.Trend.sentiment p <= 8 # 10)%Q)
              [10; 9; 8; 7; 6; 5; 4; 3; 2; 1]) with (w := w)
    as (pts & w' & H & _ & L & P).
  - intros j i w0 _ [Hc Ht]. unfold Analytics.mock_trend_point.
    unfold ebind at 1. unfold now at 1.
    set (w1 := {| source := source w0; cursor := cursor w0; clock := clock w0;
                  ticks := S (ticks w0) |}).
    destruct (rounded_uniform_grid (-50) 80 (- (5 # 10)) (8 # 10) 2 w1)
      as (s & w2 & Hs & Bs & Hc2 & Ht2); try reflexivity; [discriminate|].
    rewrite (ebind_ok _ _ _ _ _ Hs).
    eexists. eexists. split; [reflexivity|].
    cbn [Analytics.Trend.timestamp Analytics.Trend.sentiment].
    rewrite Hc2, Ht2. subst w1. cbn [clock ticks].
    repeat split; try apply Bs; try assumption; try lia.
    now rewrite Hc, Ht.
  - split; [reflexivity | now rewrite Nat.add_0_r].
  - exists pts, w'. split; [exact H|]. split; [exact L|].
    intros j p Hp.
    assert (Hj : (j < length pts)%nat) by (apply nth_error_Some; congruence).
    rewrite L in Hj. cbn [length] in Hj.
    destruct (nth_error [10; 9; 8; 7; 6; 5; 4; 3; 2; 1] j) as [i|] eqn:Ei.
    2:{ apply nth_error_None in Ei. cbn [length] in Ei. lia. }
    destruct (P j i p Ei Hp) as [Tp Sp]. split; [|exact Sp].
    rewrite Tp. f_equal. f_equal.
    do 10 (destruct j as [|j]; [cbn in Ei; inversion Ei; reflexivity|]). lia.
Qed.

Lemma mock_analytics_fields (w : world) :
  exists a w',
    Analytics._generate_mock_analytics w = (Ok a, w') /\
    50 <= Analytics.total_comments a <= 200 /\
    (- (5 # 10) <= Analytics.avg_sentiment a <= 7 # 10)%Q /\
    (- (3 # 10) <= Analytics.weighted_sentiment a <= 8 # 10)%Q /\
    (exists positive negative neutral,
       Analytics.sentiment_distribution a
         = [("positive", positive); ("negative", negative); ("neutral", neutral)] /\
       20 <= positive <= 60 /\ 10 <= negative <= 40 /\ 15 <= neutral <= 45) /\
    length (Analytics.time_trend a) = 10%nat /\
    (forall j p, nth_error (Analytics.time_trend a) j = Some p ->
       Analytics.Trend.timestamp p
         = clock w (ticks w + j)%nat - hours (10 - Z.of_nat j) /\
       (- (5 # 10) <= Analytics.Trend.sentiment p <= 8 # 10)%Q) /\
    (3 <= Analytics.engagement_score a <= 15)%Q.
Proof.
  unfold Analytics._generate_mock_analytics.
  destruct (randint_frame 50 200 w ltac:(lia)) as (x1 & w1 & H1 & B1 & C1 & T1).
  rewrite (ebind_ok _ _ _ _ _ H1).
  destruct (rounded_uniform_grid (-500) 700 (- (5 # 10)) (7 # 10) 3 w1)
    as (x2 & w2 & H2 & B2 & C2 & T2); try reflexivity; [discriminate|].
  rewrite (ebind_ok _ _ _ _ _ H2).
  destruct (rounded_uniform_grid (-300) 800 (- (3 # 10)) (8 # 10) 3 w2)
    as (x3 & w3 & H3 & B3 & C3 & T3); try reflexivity; [discriminate|].
  rewrite (ebind_ok _ _ _ _ _ H3).
  destruct (randint_frame 20 60 w3 ltac:(lia)) as (x4 & w4 & H4 & B4 & C4 & T4).
  rewrite (ebind_ok _ _ _ _ _ H4).
  destruct (randint_frame 10 40 w4 ltac:(lia)) as (x5 & w5 & H5 & B5 & C5 & T5).
  rewrite (ebind_ok _ _ _ _ _ H5).
  destruct (randint_frame 15 45 w5 ltac:(lia)) as (x6 & w6 & H6 & B6 & C6 & T6).
  rewrite (ebind_ok _ _ _ _ _ H6).
  destruct (rounded_uniform_grid 350 650 35 65 1 w6)
    as (x7 & w7 & H7 & B7 & C7 & T7); try reflexivity; [discriminate|].
  rewrite (ebind_ok _ _ _ _ _ H7).
  destruct (rounded_uniform_grid 150 350 15 35 1 w7)
    as (x8 & w8 & H8 & B8 & C8 & T8); try reflexivity; [discriminate|].
  rewrite (ebind_ok _ _ _ _ _ H8).
  destruct (rounded_uniform_grid 200 400 20 40 1 w8)
    as (x9 & w9 & H9 & B9 & C9 & T9); try reflexivity; [discriminate|].
  rewrite (ebind_ok _ _ _ _ _ H9).
  destruct (mock_trend_points w9) as (pts & w10 & H10 & L10 & P10).
  rewrite (ebind_ok _ _ _ _ _ H10).
  destruct (rounded_uniform_grid 30 150 3 15 1 w10)
    as (x11 & w11 & H11 & B11 & _); try reflexivity; [discriminate|].
  rewrite (ebind_ok _ _ _ _ _ H11).
  eexists. eexists. split; [reflexivity|].
  cbn [Analytics.total_comments Analytics.avg_sentiment Analytics.weighted_sentiment
       Analytics.sentiment_distribution Analytics.time_trend Analytics.engagement_score].
  split; [exact B1|]. split; [exact B2|]. split; [exact B3|].
  split; [exists x4, x5, x6; auto|]. split; [exact L10|]. split; [|exact B11].
  intros j p Hp. destruct (P10 j p Hp) as [Tp Sp]. split; [|exact Sp].
  rewrite Tp. congruence.
Qed.

(** ** Analytics over the stored comments *)

Lemma length_filter_map {A B : Type} (f : B -> bool) (g : A -> B) (l : list A) :
  length (filter f (map g l)) = length (filter (fun x => f (g x)) l).
Proof.
  induction l as [|x l IH]; cbn [map filter]; [reflexivity|].
  destruct (f (g x)); cbn [length]; now rewrite IH.
Qed.

Lemma get_sentiment_analytics_stored (fetchall : string -> list Analytics.row)
      (video_id : string) (w : world) :
  fetchall video_id <> [] ->
  Analytics.get_sentiment_analytics true fetchall video_id w
  = (Analytics.compute_analytics (fetchall video_id), w).
Proof.
  intros H. unfold Analytics.get_sentiment_analytics. cbn [negb].
  destruct (fetchall video_id); [congruence | reflexivity].
Qed.

(** X16. With SQLite and at least one top-level comment stored for
    the video, [get_sentiment_analytics] computes from exactly these
    comments: replies and the comments of other videos count nowhere,
    the distribution gives for each label the number of stored top-level
    comments with it, the trend runs from the newest comment backwards
    and its first point carries the newest timestamp; nothing is drawn
    from the random source. *)
Theorem analytics_over_stored_comments (t : Database.table) (video : string) (w : world)
  (some : stored_for video t <> []) :
  exists a,
    Analytics.get_sentiment_analytics true (Database.fetchall t) video w = (Ok a, w) /\
    Analytics.total_comments a = len (stored_for video t) /\
    (forall key,
       Counter.get (Analytics.sentiment_distribution a) key
       = len (filter (fun r => (sentiment_label (Database.comment r) =? key)%string)
                     (stored_for video t))) /\
    (forall j k p q, (j <= k)%nat ->
       nth_error (Analytics.time_trend a) j = Some p ->
       nth_error (Analytics.time_trend a) k = Some q ->
       Analytics.Trend.timestamp q <= Analytics.Trend.timestamp p) /\
    (exists p, nth_error (Analytics.time_trend a) 0 = Some p /\
       Forall (fun r => timestamp (Database.comment r) <= Analytics.Trend.timestamp p)
              (stored_for video t)).
Proof.
  destruct (fetchall_newest_first t video) as [Sorted Perm].
  set (rows := Database.fetchall t video) in *.
  assert (Hlen : length rows = length (stored_for video t)).
  { rewrite (Permutation_length Perm). apply length_map. }
  assert (Hrows : rows <> []).
  { intros E. rewrite E in Hlen. destruct (stored_for video t); [congruence | discriminate]. }
  destruct (compute_analytics_ok rows Hrows) as (a & Ha & _).
  destruct (compute_analytics_fields rows a Ha) as (Tot & Dist & _ & _ & _ & Tr & _).
  exists a. split.
  { rewrite get_sentiment_analytics_stored by exact Hrows. fold rows. now rewrite Ha. }
  split; [unfold len in *; now rewrite Tot, Hlen|].
  destruct (trend_ok rows Hrows) as (pts & Hpts & Lpts & Npts).
  cbn zeta in Lpts, Npts. rewrite Tr in Hpts. inversion Hpts as [Epts]. clear Hpts.
  rewrite <- Epts in Lpts, Npts. clear Epts pts.
  set (pts := Analytics.time_trend a) in *.
  set (step := Nat.max 1 (length rows / 10)) in *.
  split; [|split].
  - intros key. rewrite Dist, counter_get_of_list. unfold len. f_equal.
    rewrite length_filter_map.
    rewrite (Permutation_filter_length _ _ _ Perm).
    now rewrite length_filter_map.
  - intros j k p q Hjk Hp Hq.
    assert (Hk : (k < length pts)%nat) by (apply nth_error_Some; congruence).
    assert (Hj : (j < length pts)%nat) by lia.
    destruct (Npts j Hj) as (hj & pj & Hhj & Hpj & Tj & _).
    destruct (Npts k Hk) as (hk & pk & Hhk & Hpk & Tk & _).
    assert (pj = p) by congruence. assert (pk = q) by congruence. subst pj pk.
    rewrite Tj, Tk. apply (sorted_nth rows (j * step) (k * step)); try assumption.
    now apply Nat.mul_le_mono_r.
  - assert (H0 : (0 < length pts)%nat).
    { rewrite Lpts. apply Nat.div_str_pos. destruct rows; [congruence|].
      cbn [length] in *. lia. }
    destruct (Npts 0%nat H0) as (h0 & p0 & Hh0 & Hp0 & T0 & _).
    exists p0. split; [exact Hp0|]. rewrite T0.
    cbn [Nat.mul] in Hh0.
    assert (F : Forall (fun r => Analytics.timestamp r <= Analytics.timestamp h0) rows).
    { apply Forall_forall. intros r Hr. apply In_nth_error in Hr. destruct Hr as [i Hi].
      apply (sorted_nth rows 0 i); try assumption. lia. }
    apply (Permutation_Forall Perm) in F. rewrite Forall_map in F. exact F.
Qed.

(** The table holds two top-level comments of the video. *)
Lemma analytics_over_stored_comments_witness :
  stored_for "video" mixed_table <> [] /\
  exists a,
    Analytics.get_sentiment_analytics true (Database.fetchall mixed_table) "video" still_world
      = (Ok a, still_world) /\
    Analytics.total_comments a = 2.
Proof.
  assert (some : stored_for "video" mixed_table <> []) by (vm_compute; discriminate).
  split; [exact some|].
  destruct (analytics_over_stored_comments mixed_table "video" still_world some)
    as (a & H & T & _).
  exists a. split; [exact H | exact T].
Defined.

Section AnyStore.

Variable HAS_SQLITE : bool.
Variable fetchall : string -> list Analytics.row.

Lemma get_sentiment_analytics_ok (video_id : string) (w : world) :
  exists a w',
    Analytics.get_sentiment_analytics HAS_SQLITE fetchall video_id w = (Ok a, w') /\
    1 <= Analytics.total_comments a /\
    (HAS_SQLITE = true -> fetchall video_id <> [] ->
       w' = w /\ Analytics.total_comments a = len (fetchall video_id)).
Proof.
  destruct (get_sentiment_analytics_cases HAS_SQLITE fetchall video_id w)
    as [(_ & Hrows & H) | (Hno & H)]; rewrite H.
  - destruct (compute_analytics_ok (fetchall video_id) Hrows) as (a & Ha & Tot & _).
    exists a, w. rewrite Ha. split; [reflexivity|]. split; [|now split].
    rewrite Tot. unfold len. destruct (fetchall video_id); [congruence|].
    cbn [length]. lia.
  - destruct (mock_analytics_fields w) as (a & w' & Ha & Tot & _).
    exists a, w'. split; [exact Ha|]. split; [lia|].
    intros Hs Hr. destruct Hno; congruence.
Qed.

(** X17. Whatever rows the store holds, negative like counts and
    unknown labels included, and whether or not SQLite is there,
    [get_sentiment_analytics] returns: none of its divisions is by zero.
    It reports at least one comment, since an empty selection is
    answered with mock analytics. *)
Theorem analytics_never_raises (video_id : string) (w : world) :
  exists a w',
    Analytics.get_sentiment_analytics HAS_SQLITE fetchall video_id w = (Ok a, w') /\
    1 <= Analytics.total_comments a /\
    (HAS_SQLITE = true -> fetchall video_id <> [] ->
       w' = w /\ Analytics.total_comments a = len (fetchall video_id)).
Proof. exact (get_sentiment_analytics_ok video_id w). Qed.

(** X18. When the stored scores lie between -1 and 1 and no like
    count is negative, the average, the like-weighted average and every
    point of the trend that [get_sentiment_analytics] returns lie
    between -1 and 1 too, whether they are computed or mock values. *)
Theorem sentiment_values_in_range (video_id : string) (w : world)
  (scores : Forall (fun r => score_in_range (Analytics.sentiment_score r))
                   (fetchall video_id))
  (likes_nonneg : Forall (fun r => 0 <= Analytics.likes r) (fetchall video_id)) :
  exists a w',
    Analytics.get_sentiment_analytics HAS_SQLITE fetchall video_id w = (Ok a, w') /\
    1 <= Analytics.total_comments a /\
    score_in_range (Analytics.avg_sentiment a) /\
    score_in_range (Analytics.weighted_sentiment a) /\
    Forall (fun p => score_in_range (Analytics.Trend.sentiment p)) (Analytics.time_trend a).
Proof.
  destruct (get_sentiment_analytics_cases HAS_SQLITE fetchall video_id w)
    as [(_ & Hrows & H) | (_ & H)]; rewrite H.
  - destruct (compute_analytics_ok (fetchall video_id) Hrows) as (a & Ha & _).
    destruct (compute_analytics_fields _ a Ha) as (Tot & _ & _ & Avg & Wt & Tr & _).
    exists a, w. rewrite Ha. split; [reflexivity|].
    split; [|split; [|split]].
    + rewrite Tot. unfold len. destruct (fetchall video_id); [congruence|].
      cbn [length]. lia.
    + unfold py_div in Avg. destruct (Qeq_bool _ 0); [discriminate|].
      inversion Avg. apply mean_in_range.
      * destruct (fetchall video_id); [congruence | discriminate].
      * now rewrite Forall_map.
    + now apply (weighted_in_range (fetchall video_id)).
    + now apply (trend_in_range (fetchall video_id)).
  - destruct (mock_analytics_fields w) as (a & w' & Ha & Tot & Avg & Wt & _ & _ & Tr & _).
    exists a, w'. split; [exact Ha|]. unfold score_in_range.
    split; [lia|]. split; [lra|]. split; [lra|].
    apply Forall_forall. intros p Hp. apply In_nth_error in Hp. destruct Hp as [j Hj].
    destruct (Tr j p Hj) as [_ B]. lra.
Qed.

(** X19. Without SQLite, and when no top-level comment is stored
    for the video, the analytics are the mock ones: between 50 and 200
    comments, label counts drawn apart from that total, sentiment
    values that keep the bounds of their draws after rounding, and a
    trend of ten points, the first dated ten hours and the last one hour
    before its own reading of the clock: oldest first, the reverse of
    the order of a computed trend. *)
Theorem mock_analytics_ranges (video_id : string) (w : world)
  (no_rows : HAS_SQLITE = false \/ fetchall video_id = []) :
  exists a w',
    Analytics.get_sentiment_analytics HAS_SQLITE fetchall video_id w = (Ok a, w') /\
    50 <= Analytics.total_comments a <= 200 /\
    (- (5 # 10) <= Analytics.avg_sentiment a <= 7 # 10)%Q /\
    (- (3 # 10) <= Analytics.weighted_sentiment a <= 8 # 10)%Q /\
    (exists positive negative neutral,
       Analytics.sentiment_distribution a
         = [("positive", positive); ("negative", negative); ("neutral", neutral)] /\
       20 <= positive <= 60 /\ 10 <= negative <= 40 /\ 15 <= neutral <= 45) /\
    length (Analytics.time_trend a) = 10%nat /\
    (forall j p, nth_error (Analytics.time_trend a) j = Some p ->
       Analytics.Trend.timestamp p
         = clock w (ticks w + j)%nat - hours (10 - Z.of_nat j) /\
       (- (5 # 10) <= Analytics.Trend.sentiment p <= 8 # 10)%Q) /\
    (3 <= Analytics.engagement_score a <= 15)%Q.
Proof.
  destruct (get_sentiment_analytics_cases HAS_SQLITE fetchall video_id w)
    as [(Hs & Hrows & _) | (_ & H)].
  - destruct no_rows as [N|N]; congruence.
  - rewrite H. apply mock_analytics_fields.
Qed.

End AnyStore.

Lemma sentiment_values_in_range_witness :
  exists a w',
    Analytics.get_sentiment_analytics true (fun _ => five_rows) "video" still_world
      = (Ok a, w') /\
    1 <= Analytics.total_comments a /\
    score_in_range (Analytics.avg_sentiment a) /\
    score_in_range (Analytics.weighted_sentiment a) /\
    Forall (fun p => score_in_range (Analytics.Trend.sentiment p)) (Analytics.time_trend a).
Proof.
  apply (sentiment_values_in_range true (fun _ => five_rows) "video" still_world).
  - repeat constructor; discriminate.
  - repeat constructor; discriminate.
Defined.

Lemma mock_analytics_ranges_witness :
  exists a w',
    Analytics.get_sentiment_analytics false (fun _ => five_rows) "video" middle_world
      = (Ok a, w') /\
    50 <= Analytics.total_comments a <= 200.
Proof.
  destruct (mock_analytics_ranges false (fun _ => five_rows) "video" middle_world
              (or_introl eq_refl)) as (a & w' & H & T & _).
  exists a, w'. split; [exact H | exact T].
Defined.

(** ** The most common words *)

Lemma counter_add_keys (k x : string) (c : Counter.t) :
  In x (map fst (Counter.add k c)) <-> x = k \/ In x (map fst c).
Proof.
  induction c as [|[k' n] c IH]; cbn [Counter.add map fst In].
  - split; [intros [H|[]]; auto | intros [H|[]]; auto].
  - destruct (String.eqb_spec k' k) as [E|N]; cbn [map fst In].
    + subst k'. split; intros [H|H]; auto.
    + rewrite IH. tauto.
Qed.

Lemma counter_add_nodup (k : string) (c : Counter.t) :
  NoDup (map fst c) -> NoDup (map fst (Counter.add k c)).
Proof.
  induction c as [|[k' n] c IH]; cbn [Counter.add map fst]; intros U.
  - constructor; [intros []|constructor].
  - inversion U as [|? ? Hnot Hrest]; subst.
    destruct (String.eqb_spec k' k) as [E|N]; cbn [map fst].
    + now constructor.
    + constructor; [|now apply IH].
      rewrite counter_add_keys. intros [H|H]; [congruence | contradiction].
Qed.

Lemma counter_of_list_keys (l : list string) :
  NoDup (map fst (Counter.of_list l)) /\
  forall x, In x (map fst (Counter.of_list l)) <-> In x l.
Proof.
  unfold Counter.of_list.
  assert (G : forall c,
    NoDup (map fst c) ->
    NoDup (map fst (fold_left (fun c k => Counter.add k c) l c)) /\
    forall x, In x (map fst (fold_left (fun c k => Counter.add k c) l c))
              <-> In x (map fst c) \/ In x l).
  { induction l as [|k l IH]; intros c U; cbn [fold_left].
    - split; [exact U|]. intros x. cbn [In]. tauto.
    - destruct (IH (Counter.add k c) (counter_add_nodup k c U)) as [N I].
      split; [exact N|]. intros x. rewrite I, counter_add_keys. cbn [In].
      split; [intros [[H|H]|H]; auto | intros [H|[H|H]]; auto]. }
  destruct (G [] (NoDup_nil _)) as [N I]. split; [exact N|].
  intros x. rewrite I. cbn [map In]. tauto.
Qed.

Lemma counter_get_entry (c : Counter.t) (k : string) (n : Z) :
  NoDup (map fst c) -> In (k, n) c -> Counter.get c k = n.
Proof.
  induction c as [|[k' m] c IH]; cbn [map fst Counter.get In]; intros U H; [contradiction|].
  inversion U as [|? ? Hnot Hrest]; subst.
  destruct H as [H|H].
  - inversion H; subst. now rewrite String.eqb_refl.
  - destruct (String.eqb_spec k' k) as [E|N]; [|now apply IH].
    subst k'. exfalso. apply Hnot. apply in_map_iff. now exists (k, n).
Qed.

Lemma insert_desc_perm (x : string * Z) (l : Counter.t) :
  Permutation (Counter.insert_desc x l) (x :: l).
Proof.
  induction l as [|y l IH]; cbn [Counter.insert_desc]; [apply Permutation_refl|].
  destruct (snd y <=? snd x).
  - apply Permutation_refl.
  - eapply Permutation_trans; [apply perm_skip, IH | apply perm_swap].
Qed.

Lemma sort_desc_perm (c : Counter.t) :
  Permutation (fold_right Counter.insert_desc [] c) c.
Proof.
  induction c as [|x c IH]; cbn [fold_right]; [apply Permutation_refl|].
  eapply Permutation_trans; [apply insert_desc_perm | now apply perm_skip].
Qed.

Lemma insert_desc_sorted (x : string * Z) (l : Counter.t) :
  by_count_desc l -> by_count_desc (Counter.insert_desc x l).
Proof.
  unfold by_count_desc.
  induction 1 as [|y l Hs IH Hy]; cbn [Counter.insert_desc].
  - constructor; constructor.
  - destruct (Z.leb_spec (snd y) (snd x)) as [Le|Gt].
    + constructor; [now constructor|].
      constructor; [exact Le|].
      eapply Forall_impl; [|exact Hy]. cbn beta. intros z Hz. lia.
    + constructor; [exact IH|].
      apply (Permutation_Forall (Permutation_sym (insert_desc_perm x l))).
      constructor; [lia | exact Hy].
Qed.

Lemma sort_desc_sorted (c : Counter.t) :
  by_count_desc (fold_right Counter.insert_desc [] c).
Proof.
  induction c as [|x c IH]; cbn [fold_right]; [constructor|].
  now apply insert_desc_sorted.
Qed.

Lemma sorted_firstn (n : nat) (l : Counter.t) :
  by_count_desc l -> by_count_desc (firstn n l).
Proof.
  unfold by_count_desc. intros S. revert n.
  induction S as [|x l Hs IH Hx]; intros [|n]; cbn [firstn]; try constructor.
  - apply IH.
  - rewrite Forall_forall in *. intros y Hy. apply Hx.
    rewrite <- (firstn_skipn n l). apply in_or_app. now left.
Qed.

(** In a sorted list, what stands behind a position counts no more
    than what stands before it. *)
Lemma sorted_split (n : nat) (l : Counter.t) (x y : string * Z) :
  by_count_desc l -> In x (firstn n l) -> In y (skipn n l) -> snd y <= snd x.
Proof.
  unfold by_count_desc. intros S. revert n.
  induction S as [|z l Hs IH Hz]; intros [|n]; cbn [firstn skipn In]; try tauto.
  intros [Hx|Hx] Hy.
  - subst z. rewrite Forall_forall in Hz. apply Hz.
    rewrite <- (firstn_skipn n l). apply in_or_app. now right.
  - now apply (IH n).
Qed.

Lemma lower_char_not_upper (c : ascii) : Text.is_upper (Text.lower_char c) = false.
Proof. destruct c as [[] [] [] [] [] [] [] []]; reflexivity. Qed.

Lemma findall_words_shape (r : ascii -> bool) (s cur : string) :
  Urllib.forall_string r s = true ->
  Urllib.forall_string (fun c => Text.is_word c && r c) cur = true ->
  Forall (fun w => w <> "" /\ Urllib.forall_string (fun c => Text.is_word c && r c) w = true)
         (Analytics.findall_words_from cur s).
Proof.
  revert cur. induction s as [|c s IH]; intros cur Hs Hcur.
  - cbn [Analytics.findall_words_from]. destruct cur; constructor; [|constructor].
    split; [discriminate | exact Hcur].
  - cbn [Urllib.forall_string] in Hs. apply andb_true_iff in Hs. destruct Hs as [Hc Hs].
    cbn [Analytics.findall_words_from]. destruct (Text.is_word c) eqn:Ew.
    + apply IH; [exact Hs|].
      rewrite forall_string_app, Hcur. cbn [Urllib.forall_string]. now rewrite Ew, Hc.
    + destruct cur as [|d cur].
      * apply IH; [exact Hs | reflexivity].
      * constructor; [split; [discriminate | exact Hcur]|].
        apply IH; [exact Hs | reflexivity].
Qed.

Lemma analytics_words_shape (comments_data : list Analytics.row) :
  Forall (fun w => w <> "" /\ Urllib.forall_string lower_word_char w = true)
         (analytics_words comments_data).
Proof.
  unfold analytics_words, Analytics.findall_words.
  apply (findall_words_shape (fun c => negb (Text.is_upper c))); [|reflexivity].
  unfold Text.lower. apply forall_string_map.
  intros c. now rewrite lower_char_not_upper.
Qed.

(** X20. The top words of computed analytics are the up to twenty most
    frequent words of the lowercased comment texts: each listed once
    with the number of its occurrences, by decreasing count, every word
    a non-empty run of word characters without uppercase letters; a word
    of the texts that is not listed occurs no more often than any listed
    one, and then twenty words are listed. *)
Theorem top_words_ranked (comments_data : list Analytics.row)
  (nonempty : comments_data <> []) :
  exists a,
    Analytics.compute_analytics comments_data = Ok a /\
    (length (Analytics.top_words a) <= 20)%nat /\
    NoDup (map fst (Analytics.top_words a)) /\
    by_count_desc (Analytics.top_words a) /\
    (forall word n, In (word, n) (Analytics.top_words a) ->
       n = occurrences word (analytics_words comments_data) /\ 1 <= n /\
       word <> "" /\ Urllib.forall_string lower_word_char word = true) /\
    (forall word, In word (analytics_words comments_data) ->
       ~ In word (map fst (Analytics.top_words a)) ->
       length (Analytics.top_words a) = 20%nat /\
       forall x, In x (Analytics.top_words a) ->
         occurrences word (analytics_words comments_data) <= snd x).
Proof.
  destruct (compute_analytics_ok comments_data nonempty) as (a & Ha & _).
  destruct (compute_analytics_fields comments_data a Ha) as (_ & _ & Top & _).
  fold (analytics_words comments_data) in Top.
  set (words := analytics_words comments_data) in *.
  unfold Counter.most_common in Top.
  set (sorted := fold_right Counter.insert_desc [] (Counter.of_list words)) in *.
  destruct (counter_of_list_keys words) as [Ukeys Ikeys].
  assert (Perm : Permutation sorted (Counter.of_list words)) by apply sort_desc_perm.
  assert (Sorted : by_count_desc sorted) by apply sort_desc_sorted.
  assert (Usorted : NoDup (map fst sorted)).
  { apply (Permutation_NoDup (Permutation_sym (Permutation_map fst Perm))). exact Ukeys. }
  assert (Hentry : forall word n, In (word, n) sorted ->
            n = occurrences word words /\ In word words).
  { intros word n Hin. apply (Permutation_in _ Perm) in Hin. split.
    - rewrite <- (counter_get_entry _ _ _ Ukeys Hin). apply counter_get_of_list.
    - apply Ikeys. apply in_map_iff. now exists (word, n). }
  assert (Hpos : forall word, In word words -> 1 <= occurrences word words).
  { intros word Hin. unfold occurrences, len.
    assert (In word (filter (fun k => (k =? word)%string) words))
      by (apply filter_In; split; [exact Hin | apply String.eqb_refl]).
    destruct (filter _ words); [contradiction|]. cbn [length]. lia. }
  exists a. split; [exact Ha|]. rewrite Top.
  split; [apply firstn_le_length|].
  split.
  { rewrite <- (firstn_skipn 20 sorted), map_app in Usorted.
    now apply NoDup_app_remove_r in Usorted. }
  split; [now apply sorted_firstn|].
  split.
  - intros word n Hin.
    assert (Hs : In (word, n) sorted).
    { rewrite <- (firstn_skipn 20 sorted). apply in_or_app. now left. }
    destruct (Hentry word n Hs) as [Hn Hw].
    split; [exact Hn|]. split; [rewrite Hn; now apply Hpos|].
    pose proof (analytics_words_shape comments_data) as Sh.
    rewrite Forall_forall in Sh. exact (Sh word Hw).
  - intros word Hw Hnot.
    assert (Hk : In word (map fst (Counter.of_list words))) by (now apply Ikeys).
    apply in_map_iff in Hk. destruct Hk as ([k n] & Hfst & Hin). cbn [fst] in Hfst. subst k.
    apply (Permutation_in _ (Permutation_sym Perm)) in Hin.
    destruct (Hentry word n Hin) as [Hn _].
    rewrite <- (firstn_skipn 20 sorted) in Hin. apply in_app_or in Hin.
    destruct Hin as [Hin|Hin].
    { exfalso. apply Hnot. apply in_map_iff. now exists (word, n). }
    split.
    + assert (Hlong : (20 < length sorted)%nat).
      { destruct (Nat.lt_ge_cases 20 (length sorted)) as [L|G]; [exact L|].
        rewrite skipn_all2 in Hin by lia. contradiction. }
      rewrite length_firstn. lia.
    + intros x Hx. rewrite <- Hn.
      apply (sorted_split 20 sorted x (word, n) Sorted Hx Hin).
Qed.

(** Five comments with the words great and video. *)
Lemma top_words_ranked_witness :
  exists a,
    Analytics.compute_analytics five_rows = Ok a /\
    (length (Analytics.top_words a) <= 20)%nat /\
    by_count_desc (Analytics.top_words a).
Proof.
  destruct (top_words_ranked five_rows) as (a & H & L & _ & S & _).
  - discriminate.
  - exists a. split; [exact H|]. split; [exact L | exact S].
Defined.

(** ** Video information *)

Lemma take_run_spec (p : ascii -> bool) (s taken rest : string) :
  PagePattern.take_run p s = (taken, rest) ->
  s = taken ++ rest /\ Urllib.forall_string p taken = true.
Proof.
  revert taken rest. induction s as [|c s IH]; intros taken rest; cbn [PagePattern.take_run].
  - intros H. inversion H. now split.
  - destruct (p c) eqn:Ec.
    + destruct (PagePattern.take_run p s) as [taken' rest'] eqn:E.
      intros H. inversion H; subst. destruct (IH taken' rest eq_refl) as [Hs Hp].
      cbn [append Urllib.forall_string]. rewrite Ec, Hp. split; [now rewrite <- Hs | reflexivity].
    + intros H. inversion H. now split.
Qed.

Lemma match_here_spec (key : string) (p : ascii -> bool) (s g : string) :
  PagePattern.match_here key p s = Some g ->
  g <> "" /\ Urllib.forall_string p g = true /\
  prefix (PagePattern.opening key ++ g ++ String PagePattern.quote "") s = true.
Proof.
  unfold PagePattern.match_here.
  destruct (prefix (PagePattern.opening key) s) eqn:Ep; [|discriminate].
  apply prefix_iff in Ep. destruct Ep as [b Hb]. subst s. rewrite drop_append.
  destruct (PagePattern.take_run p b) as [taken rest] eqn:Er.
  destruct (take_run_spec p b taken rest Er) as [Hrun Hp].
  destruct taken as [|c taken]; [discriminate|].
  destruct rest as [|q rest]; cbn [Text.next_is]; [discriminate|].
  destruct (PagePattern.is_quote q) eqn:Eq; [|discriminate].
  intros H. inversion H; subst g. split; [discriminate|]. split; [exact Hp|].
  unfold PagePattern.is_quote in Eq. apply Ascii.eqb_eq in Eq. subst q b.
  apply prefix_iff. exists rest.
  rewrite !string_app_assoc. reflexivity.
Qed.

Lemma page_search_spec (key : string) (p : ascii -> bool) (s g : string) :
  PagePattern.search key p s = Some g -> captured_from key p s g.
Proof.
  unfold captured_from.
  induction s as [|c s IH]; cbn [PagePattern.search].
  - destruct (PagePattern.match_here key p "") as [g'|] eqn:E; [|discriminate].
    intros H. inversion H; subst g'. destruct (match_here_spec _ _ _ _ E) as (N & P & Pre).
    split; [exact N|]. split; [exact P|].
    apply contains_iff. apply prefix_iff in Pre. destruct Pre as [b Hb].
    exists "", b. exact Hb.
  - destruct (PagePattern.match_here key p (String c s)) as [g'|] eqn:E.
    + intros H. inversion H; subst g'. destruct (match_here_spec _ _ _ _ E) as (N & P & Pre).
      split; [exact N|]. split; [exact P|].
      apply contains_iff. apply prefix_iff in Pre. destruct Pre as [b Hb].
      exists "", b. exact Hb.
    + intros H. destruct (IH H) as (N & P & C). split; [exact N|]. split; [exact P|].
      apply contains_iff in C. destruct C as (a & b & Hab).
      apply contains_iff. exists (String c a), b. cbn [append]. now rewrite Hab.
Qed.

Lemma string_length_app (a b : string) :
  String.length (a ++ b) = (String.length a + String.length b)%nat.
Proof. induction a as [|c a IH]; [reflexivity|]. cbn. now rewrite IH. Qed.

Lemma int_of_digits_nonneg (s : string) : 0 <= PagePattern.int_of_digits s.
Proof.
  unfold PagePattern.int_of_digits.
  assert (G : forall l acc, 0 <= acc ->
    0 <= fold_left (fun acc c => 10 * acc + Z.of_N (Text.code c - 48)) l acc).
  { induction l as [|c l IH]; intros acc Hacc; cbn [fold_left]; [exact Hacc|].
    apply IH. lia. }
  apply G. lia.
Qed.

Section VideoFacts.

Variable HAS_YOUTUBE_API : bool.
Variable HAS_AIOHTTP : bool.
Variable api_key : option string.
Variable videos_list : string -> result (list Video.resource).
Variable http_get : string -> result string.

Let scrape := VideoInfo.scrape_video_info HAS_YOUTUBE_API HAS_AIOHTTP api_key
                videos_list http_get.
Let api := VideoInfo._scrape_video_api videos_list.
Let web := VideoInfo._scrape_video_web http_get.

Lemma mock_video_info_ok (video_id : string) (w : world) :
  exists v w',
    VideoInfo._generate_mock_video_info video_id w = (Ok v, w') /\
    Video.video_id v = video_id /\
    Video.like_count v < Video.view_count v /\
    100 <= Video.comment_count v <= 800 /\
    clock w (ticks w) - days 14 <= Video.upload_date v <= clock w (ticks w) - days 1.
Proof.
  unfold VideoInfo._generate_mock_video_info.
  destruct (randint_frame 15000 75000 w ltac:(lia)) as (x1 & w1 & H1 & B1 & C1 & T1).
  rewrite (ebind_ok _ _ _ _ _ H1).
  destruct (randint_frame 800 3000 w1 ltac:(lia)) as (x2 & w2 & H2 & B2 & C2 & T2).
  rewrite (ebind_ok _ _ _ _ _ H2).
  destruct (randint_frame 100 800 w2 ltac:(lia)) as (x3 & w3 & H3 & B3 & C3 & T3).
  rewrite (ebind_ok _ _ _ _ _ H3).
  unfold ebind at 1. unfold now at 1.
  set (w4 := {| source := source w3; cursor := cursor w3; clock := clock w3;
                ticks := S (ticks w3) |}).
  destruct (randint_frame 1 14 w4 ltac:(lia)) as (x5 & w5 & H5 & B5 & C5 & T5).
  rewrite (ebind_ok _ _ _ _ _ H5).
  eexists. eexists. split; [reflexivity|].
  cbn [Video.video_id Video.like_count Video.view_count Video.comment_count
       Video.upload_date].
  assert (E : clock w3 (ticks w3) = clock w (ticks w)) by congruence.
  rewrite E. unfold days. repeat split; lia.
Qed.

Lemma web_video_info_id (video_id : string) (w w' : world) (v : Video.YouTubeVideo) :
  web video_id w = (Ok v, w') -> Video.video_id v = video_id.
Proof.
  unfold web, VideoInfo._scrape_video_web.
  unfold ebind at 1. unfold lift at 1.
  destruct (http_get _) as [html|e]; [|discriminate].
  unfold ebind at 1.
  destruct (VideoInfo.parsed_or_random _ 10000 50000 w) as [[x1|e] w1]; [|discriminate].
  unfold ebind at 1.
  destruct (VideoInfo.parsed_or_random _ 500 2000 w1) as [[x2|e] w2]; [|discriminate].
  intros H. cbv [ebind Random.randint Random.draw now eret] in H.
  inversion H. reflexivity.
Qed.

Lemma scrape_video_info_ok (video_id : string) (w : world) :
  exists v w',
    scrape video_id w = (Ok v, w') /\
    Video.video_id v = video_id /\
    (forall v0,
       VideoInfo.api_key_set api_key && HAS_YOUTUBE_API = true ->
       api video_id = Ok v0 -> v = v0 /\ w' = w).
Proof.
  unfold scrape, VideoInfo.scrape_video_info.
  assert (Hafter : forall w0, exists v w',
    (if HAS_AIOHTTP
     then Scraper.try_return (VideoInfo._scrape_video_web http_get video_id)
            (VideoInfo._generate_mock_video_info video_id)
     else VideoInfo._generate_mock_video_info video_id) w0 = (Ok v, w') /\
    Video.video_id v = video_id).
  { intros w0. destruct HAS_AIOHTTP.
    - unfold Scraper.try_return.
      destruct (VideoInfo._scrape_video_web http_get video_id w0) as [[v|e] w1] eqn:E.
      + exists v, w1. split; [reflexivity|]. now apply (web_video_info_id video_id w0 w1).
      + destruct (mock_video_info_ok video_id w1) as (v & w' & H & I & _).
        now exists v, w'.
    - destruct (mock_video_info_ok video_id w0) as (v & w' & H & I & _).
      now exists v, w'. }
  destruct (VideoInfo.api_key_set api_key && HAS_YOUTUBE_API) eqn:Eapi.
  - unfold Scraper.try_return at 1. unfold lift at 1. fold (api video_id).
    destruct (api video_id) as [v0|e] eqn:Ea.
    + exists v0, w. split; [reflexivity|]. split.
      * unfold api, VideoInfo._scrape_video_api in Ea.
        destruct (videos_list video_id) as [[|d items]|e]; cbn [rbind] in Ea;
          try discriminate.
        inversion Ea. reflexivity.
      * intros v1 _ H1. inversion H1. now split.
    + destruct (Hafter w) as (v & w' & H & I). exists v, w'.
      split; [exact H|]. split; [exact I|]. intros v0 _ H0. discriminate H0.
  - destruct (Hafter w) as (v & w' & H & I). exists v, w'.
    split; [exact H|]. split; [exact I|]. intros v0 H0. discriminate H0.
Qed.

(** X21. Whatever the tiers do, [scrape_video_info] returns a video,
    and the video carries the id that was asked for.  When the API tier
    is in use and answers, its video is the result and nothing is drawn
    from the random source or the clock; an exception of a tier never
    reaches the caller. *)
Theorem video_info_never_raises (video_id : string) (w : world) :
  exists v w',
    scrape video_id w = (Ok v, w') /\
    Video.video_id v = video_id /\
    (forall v0,
       VideoInfo.api_key_set api_key && HAS_YOUTUBE_API = true ->
       api video_id = Ok v0 -> v = v0 /\ w' = w).
Proof. exact (scrape_video_info_ok video_id w). Qed.

(** X22. When no API tier answers, aiohttp is there and the page of
    the video is fetched, with no run of digits too long for [int], the
    video comes from the page: a title and a channel name are either
    the fixed defaults or values that stand in the page after their
    keys, not empty and without a quote; the counts of views and likes
    are not negative; and the count of comments is never read from the
    page, it is a draw between 50 and 500. *)
Theorem web_video_info (video_id html : string) (w : world)
  (no_api : VideoInfo.api_key_set api_key && HAS_YOUTUBE_API = false)
  (aiohttp : HAS_AIOHTTP = true)
  (fetched : http_get ("https://www.youtube.com/watch?v=" ++ video_id) = Ok html)
  (short : forall key digits,
     PagePattern.search key Text.is_digit html = Some digits ->
     (String.length digits <= PagePattern.int_max_str_digits)%nat) :
  exists v w',
    scrape video_id w = (Ok v, w') /\
    Video.video_id v = video_id /\
    (Video.title v = "VIJAYFOCUS Political Analysis" \/
     captured_from "title" PagePattern.not_quote html (Video.title v)) /\
    (Video.channel_name v = "VIJAYFOCUS" \/
     captured_from "channelName" PagePattern.not_quote html (Video.channel_name v)) /\
    0 <= Video.view_count v /\ 0 <= Video.like_count v /\
    50 <= Video.comment_count v <= 500 /\
    clock w (ticks w) - days 30 <= Video.upload_date v <= clock w (ticks w) - days 1.
Proof.
  unfold scrape, VideoInfo.scrape_video_info. rewrite no_api, aiohttp.
  unfold Scraper.try_return, VideoInfo._scrape_video_web.
  unfold ebind at 1. unfold lift at 1. rewrite fetched.
  assert (Hparsed : forall key lo hi w0, 0 <= lo <= hi ->
    exists x w1,
      VideoInfo.parsed_or_random (PagePattern.search key Text.is_digit html) lo hi w0
        = (Ok x, w1) /\ 0 <= x /\ clock w1 = clock w0 /\ ticks w1 = ticks w0).
  { intros key lo hi w0 Hlo. unfold VideoInfo.parsed_or_random.
    destruct (PagePattern.search key Text.is_digit html) as [digits|] eqn:Es.
    - specialize (short key digits Es). unfold lift, PagePattern.int.
      destruct (Nat.ltb_spec PagePattern.int_max_str_digits (String.length digits)); [lia|].
      eexists. eexists. split; [reflexivity|].
      split; [apply int_of_digits_nonneg | now split].
    - destruct (randint_frame lo hi w0 ltac:(lia)) as (x & w1 & H & B & C & T).
      exists x, w1. split; [exact H|]. split; [lia | now split]. }
  destruct (Hparsed "viewCount" 10000 50000 w ltac:(lia)) as (x1 & w1 & H1 & B1 & C1 & T1).
  rewrite (ebind_ok _ _ _ _ _ H1).
  destruct (Hparsed "likeCount" 500 2000 w1 ltac:(lia)) as (x2 & w2 & H2 & B2 & C2 & T2).
  rewrite (ebind_ok _ _ _ _ _ H2).
  destruct (randint_frame 50 500 w2 ltac:(lia)) as (x3 & w3 & H3 & B3 & C3 & T3).
  rewrite (ebind_ok _ _ _ _ _ H3).
  unfold ebind at 1. unfold now at 1.
  set (w4 := {| source := source w3; cursor := cursor w3; clock := clock w3;
                ticks := S (ticks w3) |}).
  destruct (randint_frame 1 30 w4 ltac:(lia)) as (x5 & w5 & H5 & B5 & C5 & T5).
  rewrite (ebind_ok _ _ _ _ _ H5).
  eexists. eexists. split; [reflexivity|].
  cbn [Video.video_id Video.title Video.channel_name Video.like_count Video.view_count
       Video.comment_count Video.upload_date].
  split; [reflexivity|].
  split.
  { destruct (PagePattern.search "title" PagePattern.not_quote html) as [g|] eqn:E;
      [right; now apply page_search_spec | now left]. }
  split.
  { destruct (PagePattern.search "channelName" PagePattern.not_quote html) as [g|] eqn:E;
      [right; now apply page_search_spec | now left]. }
  assert (E : clock w3 (ticks w3) = clock w (ticks w)) by congruence.
  rewrite E. unfold days. repeat split; lia.
Qed.

End VideoFacts.

(** The sample page gives the title and the views. *)
Lemma web_video_info_witness :
  exists v w',
    VideoInfo.scrape_video_info false true None (fun _ => Raise ApiError)
      (fun _ => Ok sample_page) "O6DTtVOPwEU" still_world = (Ok v, w') /\
    Video.video_id v = "O6DTtVOPwEU" /\
    captured_from "title" PagePattern.not_quote sample_page (Video.title v) /\
    50 <= Video.comment_count v <= 500.
Proof.
  destruct (web_video_info false true None (fun _ => Raise ApiError)
              (fun _ => Ok sample_page) "O6DTtVOPwEU" sample_page still_world)
    as (v & w' & H & I & T & _ & _ & _ & C & _).
  - reflexivity.
  - reflexivity.
  - reflexivity.
  - intros key digits Hs. apply page_search_spec in Hs.
    destruct Hs as (_ & _ & Hc). apply contains_iff in Hc. destruct Hc as (a & b & Hab).
    apply (f_equal String.length) in Hab.
    rewrite !string_length_app in Hab.
    assert (L : (String.length sample_page <= 100)%nat)
      by (apply Nat.leb_le; reflexivity).
    unfold PagePattern.int_max_str_digits. lia.
  - exists v, w'. split; [exact H|]. split; [exact I|]. split; [|exact C].
    destruct T as [T|T]; [|exact T].
    exfalso. vm_compute in H. inversion H as [[Hv Hw]]. rewrite <- Hv in T.
    discriminate T.
Defined.

(** ** The application *)

Lemma sbind_ok {A B : Type} (m : Run A) (k : A -> Run B) (s s' : system) (a : A) :
  m s = (Ok a, s') -> sbind m k s = k a s'.
Proof. intros H. unfold sbind. now rewrite H. Qed.

Lemma sbind_raise {A B : Type} (m : Run A) (k : A -> Run B) (s s' : system) (e : exn) :
  m s = (Raise e, s') -> sbind m k s = (Raise e, s').
Proof. intros H. unfold sbind. now rewrite H. Qed.

Lemma with_world_same (s : system) : with_world (sys_world s) s = s.
Proof. now destruct s. Qed.

Lemma in_world_eq {A : Type} (m : Eff A) (s : system) :
  in_world m s = (fst (m (sys_world s)), with_world (snd (m (sys_world s))) s).
Proof. unfold in_world. now destruct (m (sys_world s)). Qed.

Lemma same_server_side_refl (s : system) : same_server_side s s.
Proof. unfold same_server_side. auto. Qed.

Lemma same_server_side_trans (s1 s2 s3 : system) :
  same_server_side s1 s2 -> same_server_side s2 s3 -> same_server_side s1 s3.
Proof.
  unfold same_server_side. intros (A1 & B1 & C1 & D1 & E1) (A2 & B2 & C2 & D2 & E2).
  repeat split; congruence.
Qed.

Lemma same_server_side_world (w : world) (s : system) : same_server_side s (with_world w s).
Proof. unfold same_server_side. cbn. auto. Qed.

Lemma same_server_side_table (t : Database.table) (s : system) :
  same_server_side s (with_table t s).
Proof. unfold same_server_side. cbn. auto. Qed.

Section ScrapeTotal.

Variable HAS_TEXTBLOB : bool.
Variable HAS_YOUTUBE_API : bool.
Variable HAS_SELENIUM : bool.
Variable textblob_sentiment : string -> Q * Q.
Variable api_key : option string.
Variable commentThreads_list : string -> Z -> result Api.request.

Hypothesis polarity_range :
  HAS_TEXTBLOB = true -> forall t, (-1 <= fst (textblob_sentiment t) <= 1)%Q.

(** Every tier set returns, with at most the comments asked for. *)
Lemma scrape_comments_ok (video_id : string) (max_comments : Z) (w : world) :
  0 <= max_comments ->
  exists comments w',
    Scraper.scrape_comments HAS_TEXTBLOB HAS_YOUTUBE_API HAS_SELENIUM textblob_sentiment
      api_key commentThreads_list video_id max_comments w = (Ok comments, w') /\
    len comments <= max_comments.
Proof.
  intros Hn.
  assert (Hmock : exists comments w',
    Scraper._generate_mock_comments HAS_TEXTBLOB textblob_sentiment video_id max_comments w
      = (Ok comments, w') /\ len comments <= max_comments).
  { destruct (generate_mock_comments_ok HAS_TEXTBLOB textblob_sentiment polarity_range
                video_id max_comments w) as (c & t & w' & H & _ & L & _).
    exists (c ++ t)%list, w'. split; [exact H | lia]. }
  destruct (Scraper.api_key_set api_key && HAS_YOUTUBE_API) eqn:Eapi.
  - destruct (Scraper._scrape_comments_api HAS_TEXTBLOB textblob_sentiment
                commentThreads_list video_id max_comments) as [cs|e] eqn:Ea.
    + exists cs, w. split.
      * unfold Scraper.scrape_comments. rewrite Eapi.
        unfold Scraper.try_return at 1. unfold lift at 1. now rewrite Ea.
      * now apply (scrape_comments_api_bound HAS_TEXTBLOB textblob_sentiment
                     commentThreads_list video_id).
    + rewrite (scrape_comments_mock_tier HAS_TEXTBLOB HAS_YOUTUBE_API HAS_SELENIUM
                 textblob_sentiment api_key commentThreads_list polarity_range)
        by (right; now exists e).
      exact Hmock.
  - rewrite (scrape_comments_mock_tier HAS_TEXTBLOB HAS_YOUTUBE_API HAS_SELENIUM
               textblob_sentiment api_key commentThreads_list polarity_range)
      by (now left).
    exact Hmock.
Qed.

End ScrapeTotal.

Section Broadcasts.

Variable HAS_WEBSOCKETS : bool.
Variable dumps : Update.update -> string.


End Broadcasts.

Section AppFacts.

Variable HAS_TEXTBLOB : bool.
Variable HAS_YOUTUBE_API : bool.
Variable HAS_SELENIUM : bool.
Variable HAS_AIOHTTP : bool.
Variable HAS_SQLITE : bool.
Variable HAS_WEBSOCKETS : bool.
Variable textblob_sentiment : string -> Q * Q.
Variable api_key : option string.
Variable commentThreads_list : string -> Z -> result Api.request.
Variable videos_list : string -> result (list Video.resource).
Variable http_get : string -> result string.
Variable dumps : Update.update -> string.

Hypothesis polarity_range :
  HAS_TEXTBLOB = true -> forall t, (-1 <= fst (textblob_sentiment t) <= 1)%Q.

Let analyze_video :=
  App.analyze_video HAS_TEXTBLOB HAS_YOUTUBE_API HAS_SELENIUM HAS_AIOHTTP HAS_SQLITE
    textblob_sentiment api_key commentThreads_list videos_list http_get.
Let monitoring_step :=
  App.monitoring_step HAS_TEXTBLOB HAS_YOUTUBE_API HAS_SELENIUM HAS_SQLITE HAS_WEBSOCKETS
    textblob_sentiment api_key commentThreads_list dumps.
Let monitoring_cycle :=
  App.monitoring_cycle HAS_TEXTBLOB HAS_YOUTUBE_API HAS_SELENIUM HAS_SQLITE HAS_WEBSOCKETS
    textblob_sentiment api_key commentThreads_list dumps.
Let monitoring_loop :=
  App.monitoring_loop HAS_TEXTBLOB HAS_YOUTUBE_API HAS_SELENIUM HAS_SQLITE HAS_WEBSOCKETS
    textblob_sentiment api_key commentThreads_list dumps.
Let start_monitoring :=
  App.start_monitoring HAS_TEXTBLOB HAS_YOUTUBE_API HAS_SELENIUM HAS_AIOHTTP HAS_SQLITE
    HAS_WEBSOCKETS textblob_sentiment api_key commentThreads_list videos_list http_get dumps.

Lemma run_scrape_video_info (video_id : string) (s : system) :
  exists v w',
    App.scrape_video_info HAS_YOUTUBE_API HAS_AIOHTTP api_key videos_list http_get video_id s
      = (Ok v, with_world w' s) /\
    Video.video_id v = video_id.
Proof.
  unfold App.scrape_video_info. rewrite in_world_eq.
  destruct (scrape_video_info_ok HAS_YOUTUBE_API HAS_AIOHTTP api_key videos_list http_get
              video_id (sys_world s)) as (v & w' & H & I & _).
  rewrite H. now exists v, w'.
Qed.

Lemma run_scrape_comments (video_id : string) (max_comments : Z) (s : system) :
  0 <= max_comments ->
  exists comments w',
    App.scrape_comments HAS_TEXTBLOB HAS_YOUTUBE_API HAS_SELENIUM textblob_sentiment
      api_key commentThreads_list video_id max_comments s
      = (Ok comments, with_world w' s) /\
    len comments <= max_comments.
Proof.
  intros Hn. unfold App.scrape_comments. rewrite in_world_eq.
  destruct (scrape_comments_ok HAS_TEXTBLOB HAS_YOUTUBE_API HAS_SELENIUM textblob_sentiment
              api_key commentThreads_list polarity_range video_id max_comments
              (sys_world s) Hn) as (cs & w' & H & L).
  rewrite H. now exists cs, w'.
Qed.

Lemma run_get_sentiment_analytics (video_id : string) (s : system) :
  exists a w',
    App.get_sentiment_analytics HAS_SQLITE video_id s = (Ok a, with_world w' s) /\
    1 <= Analytics.total_comments a.
Proof.
  unfold App.get_sentiment_analytics, sbind, read_table. rewrite in_world_eq.
  destruct (get_sentiment_analytics_ok HAS_SQLITE (Database.fetchall (sys_table s))
              video_id (sys_world s)) as (a & w' & H & T & _).
  rewrite H. now exists a, w'.
Qed.

Lemma run_save_comments_to_db (comments : list YouTubeComment) (video_id : string)
      (s : system) :
  App.save_comments_to_db HAS_SQLITE comments video_id s
  = (Ok tt, with_table (Database.save_comments_to_db HAS_SQLITE comments video_id
                          (sys_table s)) s).
Proof. reflexivity. Qed.

(** X23. For a URL with a video id, and as long as the database does
    not fail, [analyze_video] returns a report whatever the tiers do:
    the video information carries that id, up to 100 comments were
    scraped and saved for it, the recent comments are the first ten of
    them, the analytics report at least one comment, and neither the
    connections nor the server object are touched. *)
Theorem analyze_video_report (video_url video_id : string) (s : system)
  (extracted : extract_video_id video_url = Ok video_id) :
  exists report comments s',
    analyze_video video_url s = (Ok report, s') /\
    Video.video_id (App.video_info report) = video_id /\
    len comments <= 100 /\
    App.recent_comments report = firstn 10 comments /\
    sys_table s' = Database.save_comments_to_db HAS_SQLITE comments video_id (sys_table s) /\
    1 <= Analytics.total_comments (App.analytics report) /\
    same_server_side s s'.
Proof.
  unfold analyze_video, App.analyze_video.
  rewrite (sbind_ok _ _ s s video_id).
  2:{ rewrite in_world_eq. unfold lift. rewrite extracted. cbn [fst snd].
      now rewrite with_world_same. }
  destruct (run_scrape_video_info video_id s) as (v & w1 & Hv & Iv).
  rewrite (sbind_ok _ _ _ _ _ Hv).
  destruct (run_scrape_comments video_id 100 (with_world w1 s) ltac:(lia))
    as (cs & w2 & Hc & Lc).
  rewrite (sbind_ok _ _ _ _ _ Hc).
  rewrite (sbind_ok _ _ _ _ _ (run_save_comments_to_db cs video_id _)).
  match goal with |- context [sbind _ _ ?s0] => set (s3 := s0) end.
  destruct (run_get_sentiment_analytics video_id s3) as (a & w4 & Ha & Ta).
  rewrite (sbind_ok _ _ _ _ _ Ha).
  eexists. exists cs. eexists. split; [reflexivity|].
  cbn [App.video_info App.recent_comments App.analytics].
  split; [exact Iv|]. split; [exact Lc|]. split; [reflexivity|].
  split; [reflexivity|]. split; [exact Ta|].
  unfold same_server_side. cbn. auto.
Qed.

(** X24. For a URL from which [extract_video_id] raises, both
    [analyze_video] and [start_monitoring] raise the same exception
    before anything else happens: nothing is scraped, saved or sent,
    the monitored video is not set and monitoring is not switched on. *)
Theorem bad_url_stops_everything (video_url : string) (e : exn) (cycles : nat) (s : system)
  (refused : extract_video_id video_url = Raise e) :
  analyze_video video_url s = (Raise e, s) /\
  start_monitoring cycles video_url s = (Raise e, s).
Proof.
  assert (H : in_world (lift (extract_video_id video_url)) s = (Raise e, s)).
  { rewrite in_world_eq. unfold lift. rewrite refused. cbn [fst snd].
    now rewrite with_world_same. }
  split.
  - unfold analyze_video, App.analyze_video. now rewrite (sbind_raise _ _ _ _ _ H).
  - unfold start_monitoring, App.start_monitoring. now rewrite (sbind_raise _ _ _ _ _ H).
Qed.






End AppFacts.

(** A short link, without any real tier. *)
Lemma analyze_video_report_witness :
  exists report comments s',
    App.analyze_video false false false false true (fun _ => (0, 0)%Q) None
      (fun _ _ => Raise ApiError) (fun _ => Raise ApiError) (fun _ => Raise ApiError)
      "https://youtu.be/O6DTtVOPwEU" sample_system = (Ok report, s') /\
    Video.video_id (App.video_info report) = "O6DTtVOPwEU" /\
    len comments <= 100 /\
    App.recent_comments report = firstn 10 comments /\
    sys_table s'
      = Database.save_comments_to_db true comments "O6DTtVOPwEU" (sys_table sample_system) /\
    1 <= Analytics.total_comments (App.analytics report) /\
    same_server_side sample_system s'.
Proof.
  apply (analyze_video_report false false false false true (fun _ => (0, 0)%Q) None
           (fun _ _ => Raise ApiError) (fun _ => Raise ApiError) (fun _ => Raise ApiError)).
  - intros H. discriminate H.
  - reflexivity.
Defined.

(** The watch URL without a v parameter. *)
Lemma bad_url_stops_everything_witness :
  extract_video_id "https://www.youtube.com/watch?feature=share" = Raise (KeyError "v") /\
  App.analyze_video false false false false true (fun _ => (0, 0)%Q) None
    (fun _ _ => Raise ApiError) (fun _ => Raise ApiError) (fun _ => Raise ApiError)
    "https://www.youtube.com/watch?feature=share" sample_system
    = (Raise (KeyError "v"), sample_system) /\
  App.start_monitoring false false false false true true (fun _ => (0, 0)%Q) None
    (fun _ _ => Raise ApiError) (fun _ => Raise ApiError) (fun _ => Raise ApiError)
    sample_dumps 3 "https://www.youtube.com/watch?feature=share" sample_system
    = (Raise (KeyError "v"), sample_system).
Proof.
  assert (refused :
    extract_video_id "https://www.youtube.com/watch?feature=share" = Raise (KeyError "v"))
    by reflexivity.
  split; [exact refused|].
  exact (bad_url_stops_everything false false false false true true (fun _ => (0, 0)%Q) None
           (fun _ _ => Raise ApiError) (fun _ => Raise ApiError) (fun _ => Raise ApiError)
           sample_dumps "https://www.youtube.com/watch?feature=share" (KeyError "v") 3
           sample_system refused).
Defined.



(** ** Monitoring on mock comments *)






Section MockMonitoring.

Variable HAS_TEXTBLOB : bool.
Variable HAS_YOUTUBE_API : bool.
Variable HAS_SELENIUM : bool.
Variable HAS_WEBSOCKETS : bool.
Variable textblob_sentiment : string -> Q * Q.
Variable api_key : option string.
Variable commentThreads_list : string -> Z -> result Api.request.
Variable dumps : Update.update -> string.

Hypothesis polarity_range :
  HAS_TEXTBLOB = true -> forall t, (-1 <= fst (textblob_sentiment t) <= 1)%Q.

Hypothesis no_api : Scraper.api_key_set api_key && HAS_YOUTUBE_API = false.

Let monitoring_cycle :=
  App.monitoring_cycle HAS_TEXTBLOB HAS_YOUTUBE_API HAS_SELENIUM true HAS_WEBSOCKETS
    textblob_sentiment api_key commentThreads_list dumps.



End MockMonitoring.

